(** * init2winit: the per-host trainer and the training-metrics grabber

    A shallow embedding of
      - [init2winit/trainer_lib/trainer_per_host.py]
      - [init2winit/training_metrics_grabber.py]
    and the properties of them that the specification states.

    Conventions of the embedding.
      - Python floats and JAX arrays of floats are idealised as real
        numbers ([R]): rounding, overflow and infinities are not modelled.
        The one place where the code looks at a non-number, [np.isnan] in
        [evaluate], is modelled over a scalar type with an [isnan] test.
      - A JAX array is the list of its entries in row-major order; all the
        array operations of the two files are elementwise or flatten the
        array first, so its shape plays no role beyond its size.
      - A Python [dict] that is iterated over is an insertion-ordered
        association list ([pydict]); a [dict] that is only looked up and
        assigned to (optimizer hyperparameters, the grabber's config) is a
        [gmap].
      - A Python exception is a value of [exn]; a function that can raise
        returns a [result].  An object mutated in place is returned.
      - Libraries the two files call (JAX, optax, CLU, the rest of
        init2winit) are interfaces: type classes whose methods the
        definitions below call where the code calls the library. *)

From Stdlib Require Import Reals Lra Lia Ascii.
From stdpp Require Import base option list strings gmap pretty.

Local Open Scope string_scope.
Local Open Scope list_scope.

(** * Part I: the embedding *)

(** ** Exceptions and results *)

Inductive exn : Type :=
| ValueError (msg : string)
| KeyError (key : string)
| TypeError (msg : string)
| AttributeError (name : string)
| AssertionError
| NotImplementedError (msg : string)
| ZeroDivisionError
| UnboundLocalError (name : string)
| TrainingDivergedError (msg : string).

Inductive result (A : Type) : Type :=
| Ok (a : A)
| Raise (e : exn).

Arguments Ok {A} a.
Arguments Raise {A} e.

Definition result_bind {A B : Type} (m : result A) (k : A -> result B) : result B :=
  match m with
  | Ok a => k a
  | Raise e => Raise e
  end.

Notation "x <~ m ;; k" := (result_bind m (fun x => k))
  (at level 60, m at next level, right associativity).

Definition is_diverged (e : exn) : bool :=
  match e with TrainingDivergedError _ => true | _ => false end.

(** ** Insertion-ordered dictionaries

    [d[k] = v] overwrites in place when [k] is present and appends
    otherwise, as CPython's [dict] does; iteration follows the list. *)

Definition pydict (V : Type) : Type := list (string * V).

Fixpoint dict_get {V : Type} (d : pydict V) (k : string) : option V :=
  match d with
  | [] => None
  | (k', v) :: d' => if String.eqb k' k then Some v else dict_get d' k
  end.

Fixpoint dict_set {V : Type} (d : pydict V) (k : string) (v : V) : pydict V :=
  match d with
  | [] => [(k, v)]
  | (k', v') :: d' =>
      if String.eqb k' k then (k', v) :: d' else (k', v') :: dict_set d' k v
  end.

Definition dict_keys {V : Type} (d : pydict V) : list string := map fst d.

(** [k in d] *)
Definition dict_mem {V : Type} (k : string) (d : pydict V) : bool :=
  match dict_get d k with Some _ => true | None => false end.

(** [d.update(d2)] *)
Definition dict_update {V : Type} (d d2 : pydict V) : pydict V :=
  fold_left (fun acc kv => dict_set acc (fst kv) (snd kv)) d2 d.

(** [d[k]] as an expression: [KeyError] on a missing key. *)
Definition dict_item {V : Type} (d : pydict V) (k : string) : result V :=
  match dict_get d k with
  | Some v => Ok v
  | None => Raise (KeyError k)
  end.

(** [str(i)] of a non-negative integer, as an f-string prints it. *)
Definition str_of_nat (i : nat) : string := pretty i.

(** ** Arrays

    The entries of a [jnp] array in row-major order.  The binary
    operations are the elementwise ones on two arrays of one shape. *)

Abbreviation array := (list R).

Definition arr_scale (c : R) (x : array) : array := map (Rmult c) x.
Definition arr_add (x y : array) : array := zip_with Rplus x y.
Definition arr_sub (x y : array) : array := zip_with Rminus x y.
(** [jnp.square] *)
Definition square (x : array) : array := map (fun v => (v * v)%R) x.
(** [jnp.zeros_like] *)
Definition zeros_like (x : array) : array := map (fun _ => 0%R) x.
(** [jnp.sum] *)
Definition arr_sum (x : array) : R := fold_right Rplus 0%R x.
(** [jnp.linalg.norm(x.reshape(-1))] *)
Definition linalg_norm (x : array) : R := sqrt (arr_sum (square x)).
(** [np.mean] *)
Definition np_mean (x : array) : R := (arr_sum x / INR (length x))%R.

(** ** Pytrees

    A pytree is a leaf or a dict of pytrees; the children of a node are
    listed in the order in which JAX flattens them (sorted by key). *)

Local Unset Elimination Schemes.

Inductive pytree (A : Type) : Type :=
| Leaf (a : A)
| Node (children : list (string * pytree A)).

Local Set Elimination Schemes.

Arguments Leaf {A} a.
Arguments Node {A} children.

(** [jax.tree_map] with one tree *)
Fixpoint tree_map {A B : Type} (f : A -> B) (t : pytree A) : pytree B :=
  match t with
  | Leaf a => Leaf (f a)
  | Node cs => Node (map (fun c => (fst c, tree_map f (snd c))) cs)
  end.

(** [jax.tree_leaves], the first component of [jax.tree_flatten] *)
Fixpoint tree_leaves {A : Type} (t : pytree A) : list A :=
  match t with
  | Leaf a => [a]
  | Node cs => flat_map (fun c => tree_leaves (snd c)) cs
  end.

(** A [PyTreeDef], the second component of [jax.tree_flatten]. *)
Abbreviation treedef := (pytree unit).

Definition tree_structure {A : Type} (t : pytree A) : treedef :=
  tree_map (fun _ => tt) t.

Definition tree_flatten {A : Type} (t : pytree A) : list A * treedef :=
  (tree_leaves t, tree_structure t).

Fixpoint treedef_eqb (t1 t2 : treedef) : bool :=
  match t1, t2 with
  | Leaf _, Leaf _ => true
  | Node cs1, Node cs2 =>
      (fix go (l1 l2 : list (string * treedef)) : bool :=
         match l1, l2 with
         | [], [] => true
         | c1 :: l1', c2 :: l2' =>
             String.eqb (fst c1) (fst c2) && treedef_eqb (snd c1) (snd c2) && go l1' l2'
         | _, _ => false
         end) cs1 cs2
  | _, _ => false
  end.

(** Rebuilds a tree of structure [td] from the front of [xs]; returns the
    tree and the leaves left over. *)
Fixpoint unflatten_from {A : Type} (td : treedef) (xs : list A) : option (pytree A * list A) :=
  match td with
  | Leaf _ =>
      match xs with
      | x :: xs' => Some (Leaf x, xs')
      | [] => None
      end
  | Node cs =>
      match
        (fix go (cs : list (string * treedef)) (xs : list A)
           : option (list (string * pytree A) * list A) :=
           match cs with
           | [] => Some ([], xs)
           | c :: cs' =>
               match unflatten_from (snd c) xs with
               | Some (t, xs1) =>
                   match go cs' xs1 with
                   | Some (ts, xs2) => Some ((fst c, t) :: ts, xs2)
                   | None => None
                   end
               | None => None
               end
           end) cs xs
      with
      | Some (ts, xs') => Some (Node ts, xs')
      | None => None
      end
  end.

(** [jax.tree_unflatten(treedef, leaves)]: the number of leaves must be the
    one the structure asks for. *)
Definition tree_unflatten {A : Type} (td : treedef) (xs : list A) : result (pytree A) :=
  match unflatten_from td xs with
  | Some (t, []) => Ok t
  | _ => Raise (ValueError "Too few or too many leaves for PyTreeDef")
  end.

(** A list comprehension whose body can raise. *)
Fixpoint map_result {A B : Type} (f : A -> result B) (l : list A) : result (list B) :=
  match l with
  | [] => Ok []
  | a :: l' => b <~ f a ;; bs <~ map_result f l' ;; Ok (b :: bs)
  end.

(** [treedef.flatten_up_to(t)]: the subtrees of [t] at the places of the
    leaves of [td], in order.  It needs [td] to be a prefix of [t]: the
    same keys wherever [td] has a dict, and anything where it has a
    leaf. *)
Fixpoint flatten_up_to {A : Type} (td : treedef) (t : pytree A) : result (list (pytree A)) :=
  match td with
  | Leaf _ => Ok [t]
  | Node cs =>
      match t with
      | Leaf _ => Raise (ValueError "Tree structures do not match")
      | Node ts =>
          (fix go (cs : list (string * treedef)) (ts : list (string * pytree A))
             : result (list (pytree A)) :=
             match cs, ts with
             | [], [] => Ok []
             | c :: cs', x :: ts' =>
                 if String.eqb (fst c) (fst x) then
                   l <~ flatten_up_to (snd c) (snd x) ;;
                   r <~ go cs' ts' ;;
                   Ok (l ++ r)
                 else Raise (ValueError "Tree structures do not match")
             | _, _ => Raise (ValueError "Tree structures do not match")
             end) cs ts
      end
  end.

(** What an operation on arrays is given where the second tree goes
    deeper than the first: a dict, on which it raises. *)
Definition as_leaf {A : Type} (t : pytree A) : result A :=
  match t with
  | Leaf a => Ok a
  | Node _ => Raise (TypeError "unsupported operand type")
  end.

(** [jax.tree_map(f, t1, t2)], as JAX computes it: flatten the first tree,
    flatten the second up to the structure of the first, apply [f] to the
    pairs and rebuild.  [f] is an operation on two arrays. *)
Definition tree_map2 {A B C : Type} (f : A -> B -> C) (t1 : pytree A) (t2 : pytree B)
  : result (pytree C) :=
  let (leaves, td) := tree_flatten t1 in
  subtrees <~ flatten_up_to td t2 ;;
  leaves2 <~ map_result as_leaf subtrees ;;
  tree_unflatten td (zip_with f leaves leaves2).

(** The induction principle of [pytree], with the hypothesis for every
    child of a node. *)
Section PytreeInduction.
Context {A : Type} (P : pytree A -> Prop).
Hypothesis P_leaf : forall a, P (Leaf a).
Hypothesis P_node : forall cs, Forall (fun c => P (snd c)) cs -> P (Node cs).

Fixpoint pytree_induction (t : pytree A) : P t :=
  match t with
  | Leaf a => P_leaf a
  | Node cs =>
      P_node cs
        ((fix go (cs : list (string * pytree A)) : Forall (fun c => P (snd c)) cs :=
            match cs with
            | [] => @List.Forall_nil _ _
            | c :: cs' => @List.Forall_cons _ _ c cs' (pytree_induction (snd c)) (go cs')
            end) cs)
  end.

End PytreeInduction.

(** ** The JAX runtime and the device groups of the collectives *)

Class JaxRuntime : Type := {
  local_device_count : nat;   (* jax.local_device_count() *)
  process_count : nat;        (* jax.process_count() *)
  process_index : nat;        (* jax.process_index() *)
  device_count : nat          (* jax.device_count() *)
}.

(** Python's [range(a, b)]. *)
Definition range (a b : nat) : list nat := seq a (b - a).

Definition _get_axis_index_groups `{JaxRuntime} : list (list nat) :=
  let num_d := local_device_count in
  let num_p := process_count in
  map (fun i => range (i * num_d) (i * num_d + num_d)) (range 0 num_p).

(** The process that owns a global device index, when every process has
    [local_device_count] devices and they are numbered process by process
    (the numbering the comment in [_get_axis_index_groups] describes). *)
Definition host_of `{JaxRuntime} (k : nat) : nat := k / local_device_count.

(** What the program instance on one device sees of the mapped axis
    ['batch']: its own index along the axis, and the value every other
    index contributes to a collective. *)
Record axis_env (T : Type) : Type := {
  axis_index : nat;
  axis_peers : nat -> T
}.

Arguments axis_index {T} a.
Arguments axis_peers {T} a.

Definition contribution {T : Type} (axis : axis_env T) (x : T) (j : nat) : T :=
  if Nat.eqb j (axis_index axis) then x else axis_peers axis j.

Definition cost_and_grad : Type := R * pytree array.

Definition cg_add (x y : cost_and_grad) : result cost_and_grad :=
  g <~ tree_map2 arr_add (snd x) (snd y) ;;
  Ok ((fst x + fst y)%R, g).

Fixpoint cg_sum (xs : list cost_and_grad) : result cost_and_grad :=
  match xs with
  | [] => Raise (ValueError "empty axis group")
  | [x] => Ok x
  | x :: rest => s <~ cg_sum rest ;; cg_add x s
  end.

(** [lax.pmean(x, axis_name='batch', axis_index_groups=groups)] on a
    (cost, gradient) pair: the mean of the contributions of the group that
    holds this device. *)
Definition lax_pmean (axis : axis_env cost_and_grad) (x : cost_and_grad)
    (axis_index_groups : list (list nat)) : result cost_and_grad :=
  match List.find (fun g => existsb (Nat.eqb (axis_index axis)) g) axis_index_groups with
  | None => Raise (ValueError "axis_index_groups must cover all indices exactly once")
  | Some g =>
      s <~ cg_sum (map (contribution axis x) g) ;;
      let n := INR (length g) in
      Ok ((fst s / n)%R, tree_map (arr_scale (/ n)) (snd s))
  end.

(** ** Optimizer states and learning-rate injection *)

(** Modelled from the spec: [GradientAccumulatorState] is declared in
    [optimizer_lib/gradient_accumulator.py], which is not among the
    sources; the spec describes it as a wrapper around a wrapped inner
    state, and its fields here are the two that the trainer reads,
    [base_state] and [hyperparams], and one for the rest.
    [optax.InjectHyperparamsState] has the fields [count], [hyperparams]
    and [inner_state].  A state of any other type is an [OtherState]. *)

Inductive opt_state (Inner : Type) : Type :=
| InjectHyperparamsState (count : nat) (hyperparams : gmap string R) (inner_state : Inner)
| GradientAccumulatorState (base_state : opt_state Inner)
    (hyperparams : gmap string R) (accumulations : Inner)
| OtherState (s : Inner).

Arguments InjectHyperparamsState {Inner} count hyperparams inner_state.
Arguments GradientAccumulatorState {Inner} base_state hyperparams accumulations.
Arguments OtherState {Inner} s.

(** ['k' in d] on a hyperparameter dict. *)
Definition hp_mem (k : string) (hp : gmap string R) : bool :=
  match hp !! k with Some _ => true | None => false end.

(** The function mutates [optimizer_state.hyperparams] in place and returns
    nothing; the model returns the state as the call leaves it, and the
    outcome of the call. *)
Fixpoint _inject_learning_rate {Inner : Type} (optimizer_state : opt_state Inner) (lr : R)
  : opt_state Inner * result unit :=
  match optimizer_state with
  | InjectHyperparamsState count hyperparams inner_state =>
      if hp_mem "learning_rate" hyperparams
      then (InjectHyperparamsState count (<["learning_rate" := lr]> hyperparams) inner_state,
            Ok tt)
      else (optimizer_state, Ok tt)
  | GradientAccumulatorState base_state hyperparams accumulations =>
      let (base_state', outcome) := _inject_learning_rate base_state lr in
      (GradientAccumulatorState base_state' hyperparams accumulations, outcome)
  | OtherState _ =>
      (optimizer_state,
       Raise (ValueError
         "Unsupported optimizer_state type given when trying to inject the learning rate"))
  end.

(** Reading the learning-rate slot that the injection writes. *)
Fixpoint learning_rate_slot {Inner : Type} (s : opt_state Inner) : option R :=
  match s with
  | InjectHyperparamsState _ hyperparams _ => hyperparams !! "learning_rate"
  | GradientAccumulatorState base_state _ _ => learning_rate_slot base_state
  | OtherState _ => None
  end.

(** [optimizer_state.hyperparams] *)
Definition hyperparams_of {Inner : Type} (s : opt_state Inner) : result (gmap string R) :=
  match s with
  | InjectHyperparamsState _ hp _ => Ok hp
  | GradientAccumulatorState _ hp _ => Ok hp
  | OtherState _ => Raise (AttributeError "hyperparams")
  end.

Definition set_hyperparam {Inner : Type} (s : opt_state Inner) (k : string) (v : R)
  : opt_state Inner :=
  match s with
  | InjectHyperparamsState c hp i => InjectHyperparamsState c (<[k := v]> hp) i
  | GradientAccumulatorState b hp a => GradientAccumulatorState b (<[k := v]> hp) a
  | OtherState _ => s
  end.

(** ** The training step *)

Class Prng (Key : Type) : Type := {
  random_split : Key -> Key * Key;      (* jax.random.split *)
  random_fold_in : Key -> nat -> Key    (* jax.random.fold_in *)
}.

(** [jax.value_and_grad(f, has_aux=True)] *)
Class Autodiff (Aux : Type) : Type := {
  value_and_grad : (pytree array -> R * Aux) -> pytree array -> (R * Aux) * pytree array
}.

Definition _GRAD_CLIP_EPS : R := (1 / 1000000)%R.

(** Modelled from the spec: [model_utils.l2_regularization] is not among
    the sources.  The spec takes its square root as "the L2 norm of the
    full gradient tree (treating it as one flattened vector)", so it is the
    sum of the squares of all entries of all leaves; the rank threshold 0
    that [update] passes keeps every leaf. *)
Definition l2_regularization (params : pytree array) (l2_decay_rank_threshold : nat) : R :=
  arr_sum (map (fun x => arr_sum (square x)) (tree_leaves params)).

(** Python's truth value of a float. *)
Definition truthy (x : R) : bool := if Req_dec_T x 0%R then false else true.

(** Lines 297-301 of [update]: the gradient that goes on to the optimizer.
    [jax.lax.cond] selects between two values that are both computed. *)
Definition clip_gradient (grad_clip : option R) (grad_norm : R) (grad : pytree array)
  : pytree array :=
  match grad_clip with
  | Some grad_clip =>
      if truthy grad_clip then
        let scaled_grad :=
          tree_map (fun x => map (fun v => (v / (grad_norm + _GRAD_CLIP_EPS) * grad_clip)%R) x)
                   grad in
        if Rgt_dec grad_norm grad_clip then scaled_grad else grad
      else grad
  | None => grad
  end.

(** [optax.apply_updates] *)
Definition apply_updates (params updates : pytree array) : result (pytree array) :=
  tree_map2 arr_add params updates.

Definition update {Inner Batch BatchStats Key MetricsState : Type}
    `{JaxRuntime} `{Prng Key} `{Autodiff (gmap string BatchStats)}
    (axis : axis_env cost_and_grad)
    (optimizer_state : opt_state Inner)
    (params : pytree array)
    (batch_stats : option BatchStats)
    (metrics_state : option MetricsState)
    (batch : Batch)
    (step : nat)
    (lr : R)
    (rng : Key)
    (local_device_index : nat)
    (training_cost : pytree array -> Batch -> option BatchStats -> Key ->
                     R * gmap string BatchStats)
    (grad_clip : option R)
    (optimizer_update_fn : pytree array -> opt_state Inner -> pytree array -> Batch ->
                           option BatchStats -> pytree array * opt_state Inner)
    (metrics_update_fn : MetricsState -> pytree array -> pytree array -> pytree array ->
                         result MetricsState)
  : result (opt_state Inner * pytree array * option BatchStats * R * option MetricsState * R) :=
  let rng := random_fold_in rng step in
  let rng := random_fold_in rng local_device_index in
  let (optimizer_state, injected) := _inject_learning_rate optimizer_state lr in
  _ <~ injected ;;
  let opt_cost := fun params => training_cost params batch batch_stats rng in
  let grad_fn := value_and_grad opt_cost in
  let '((cost_value, new_batch_stats), grad) := grad_fn params in
  let new_batch_stats := new_batch_stats !! "batch_stats" in
  averaged <~ lax_pmean axis (cost_value, grad) _get_axis_index_groups ;;
  let (cost_value, grad) := averaged in
  let grad_norm := sqrt (l2_regularization grad 0) in
  let grad := clip_gradient grad_clip grad_norm grad in
  hyperparams <~ hyperparams_of optimizer_state ;;
  let optimizer_state :=
    if hp_mem "train_loss" hyperparams
    then set_hyperparam optimizer_state "train_loss" cost_value
    else optimizer_state in
  let (model_updates, new_optimizer_state) :=
    optimizer_update_fn grad optimizer_state params batch new_batch_stats in
  new_params <~ apply_updates params model_updates ;;
  new_metrics_state <~
    match metrics_state with
    | Some metrics_state =>
        m <~ metrics_update_fn metrics_state grad params new_params ;; Ok (Some m)
    | None => Ok None
    end ;;
  Ok (new_optimizer_state, new_params, new_batch_stats, cost_value, new_metrics_state,
      grad_norm).

(** ** The training-metrics grabber *)

Record _MetricsLeafState : Type := {
  grad_ema : array;
  grad_sq_ema : array;
  param_norm : R;
  update_ema : array;
  update_sq_ema : array
}.

(** [config['k']] on the grabber's config. *)
Definition config_item (config : gmap string R) (k : string) : result R :=
  match config !! k with
  | Some v => Ok v
  | None => Raise (KeyError k)
  end.

Definition _update_param_stats (leaf_state : _MetricsLeafState)
    (param_gradient update new_param : array) (config : gmap string R)
  : result _MetricsLeafState :=
  ema_beta <~ config_item config "ema_beta" ;;
  let param_grad_sq := square param_gradient in
  let grad_sq_ema' :=
    arr_add (arr_scale ema_beta (grad_sq_ema leaf_state))
            (arr_scale (1 - ema_beta) param_grad_sq) in
  let grad_ema' :=
    arr_add (arr_scale ema_beta (grad_ema leaf_state))
            (arr_scale (1 - ema_beta) param_gradient) in
  let update_sq := square update in
  let update_ema' :=
    arr_add (arr_scale ema_beta (update_ema leaf_state))
            (arr_scale (1 - ema_beta) update) in
  let update_sq_ema' :=
    arr_add (arr_scale ema_beta (update_sq_ema leaf_state))
            (arr_scale (1 - ema_beta) update_sq) in
  let param_norm' := linalg_norm new_param in
  Ok {| grad_ema := grad_ema';
        grad_sq_ema := grad_sq_ema';
        param_norm := param_norm';
        update_ema := update_ema';
        update_sq_ema := update_sq_ema' |}.

Definition _validate_config (config : gmap string R) : result unit :=
  match config !! "ema_beta" with
  | None => Raise (ValueError "Eval config requires field ema_beta")
  | Some _ => Ok tt
  end.

Record TrainingMetricsGrabber : Type := {
  state : pytree _MetricsLeafState;
  config : gmap string R
}.

Definition _node_init (x : array) : _MetricsLeafState :=
  {| grad_ema := zeros_like x;
     grad_sq_ema := zeros_like x;
     param_norm := 0;
     update_ema := zeros_like x;
     update_sq_ema := zeros_like x |}.

(** [TrainingMetricsGrabber.create] *)
Definition create (model_params : pytree array) (config : gmap string R)
  : result TrainingMetricsGrabber :=
  _ <~ _validate_config config ;;
  let gradient_statistics := tree_map _node_init model_params in
  Ok {| state := gradient_statistics; config := config |}.

(** [_update_param_stats] on what [flatten_up_to] hands over: a leaf
    state, or, where the gradient tree ends above the state tree, a dict
    of leaf states, which has none of the attributes that are read. *)
Definition _update_param_stats_at (state : pytree _MetricsLeafState)
    (param_gradient update new_param : array) (config : gmap string R)
  : result _MetricsLeafState :=
  match state with
  | Leaf leaf_state => _update_param_stats leaf_state param_gradient update new_param config
  | Node _ =>
      ema_beta <~ config_item config "ema_beta" ;;
      Raise (AttributeError "grad_sq_ema")
  end.

(** [TrainingMetricsGrabber.update]; Python's [zip] stops at the shortest
    of its arguments. *)
Definition grabber_update (self : TrainingMetricsGrabber)
    (model_gradient old_params new_params : pytree array) : result TrainingMetricsGrabber :=
  let (grads_flat, treedef) := tree_flatten model_gradient in
  let new_params_flat := tree_leaves new_params in
  let old_params_flat := tree_leaves old_params in
  state_flat <~ flatten_up_to treedef (state self) ;;
  new_states_flat <~
    map_result
      (fun z =>
         let '(state, grad, old_param, new_param) := z in
         _update_param_stats_at state grad (arr_sub new_param old_param) new_param
           (config self))
      (zip (zip (zip state_flat grads_flat) old_params_flat) new_params_flat) ;;
  new_state <~ tree_unflatten treedef new_states_flat ;;
  Ok {| state := new_state; config := config self |}.


(** ** Evaluation *)

(** The scalars a metric computes to; [np.isnan] tells the non-numbers. *)
Class MetricScalar (V : Type) : Type := {
  isnan : V -> bool
}.

(** What [evaluate] needs of its collaborators: [data_utils.shard], the
    pmapped batch evaluation (with the [unreplicate] of its result), and
    CLU's [merge] and [compute] on the metrics collection it returns. *)
Class EvalEnv (Params BatchStats Batch Collection V : Type) : Type := {
  shard : Batch -> Batch;
  evaluate_batch_pmapped : Params -> BatchStats -> Batch -> Collection;
  merge : Collection -> Collection -> Collection;
  compute : Collection -> pydict V
}.

(** The [for batch in batch_iter] loop of [evaluate]. *)
Fixpoint evaluate_batches {Params BatchStats Batch Collection V : Type}
    `{EvalEnv Params BatchStats Batch Collection V}
    (params : Params) (batch_stats : BatchStats)
    (metrics : option Collection) (batch_iter : list Batch) : option Collection :=
  match batch_iter with
  | [] => metrics
  | batch :: rest =>
      let batch := shard batch in
      let computed_metrics := evaluate_batch_pmapped params batch_stats batch in
      let metrics :=
        match metrics with
        | None => computed_metrics
        | Some metrics => merge metrics computed_metrics
        end in
      evaluate_batches params batch_stats (Some metrics) rest
  end.

(** The [for key, val in metrics.items()] loop of [evaluate]. *)
Fixpoint raise_on_nan {V : Type} `{MetricScalar V} (items : pydict V) : result unit :=
  match items with
  | [] => Ok tt
  | (key, val) :: rest =>
      if isnan val then Raise (TrainingDivergedError ("NaN detected in " ++ key))
      else raise_on_nan rest
  end.

Definition evaluate {Params BatchStats Batch Collection V : Type}
    `{MetricScalar V} `{EvalEnv Params BatchStats Batch Collection V}
    (params : Params) (batch_stats : BatchStats) (batch_iter : list Batch)
  : result (option (pydict V)) :=
  let metrics := evaluate_batches params batch_stats None batch_iter in
  match metrics with
  | Some metrics =>
      let metrics := compute metrics in
      _ <~ raise_on_nan metrics ;;
      Ok (Some metrics)
  | None => Ok None
  end.

Definition _merge_and_apply_prefix {V : Type} (d1 d2 : pydict V) (prefix : string)
  : pydict V :=
  fold_left
    (fun d1 key =>
       match dict_get d2 key with
       | Some v => dict_set d1 (prefix ++ key) v
       | None => d1
       end)
    (dict_keys d2) d1.

(** The dataset object: the training iterator and the three evaluation
    epochs, each a finite sequence of batches. *)
Record Dataset (Batch : Type) : Type := {
  train_iterator_fn : list Batch;
  eval_train_epoch : option nat -> list Batch;
  valid_epoch : option nat -> list Batch;
  test_epoch : option nat -> list Batch
}.

Arguments train_iterator_fn {Batch} d.
Arguments eval_train_epoch {Batch} d _.
Arguments valid_epoch {Batch} d _.
Arguments test_epoch {Batch} d _.

(** The [for split_iter, split_name in zip(...)] loop of [eval_metrics]. *)
Fixpoint eval_splits {Params BatchStats Batch Collection V : Type}
    `{MetricScalar V} `{EvalEnv Params BatchStats Batch Collection V}
    (params : Params) (batch_stats : BatchStats)
    (splits : list (list Batch * string)) (metrics : pydict V) : result (pydict V) :=
  match splits with
  | [] => Ok metrics
  | (split_iter, split_name) :: rest =>
      split_metrics <~ evaluate params batch_stats split_iter ;;
      let metrics :=
        match split_metrics with
        | Some split_metrics =>
            _merge_and_apply_prefix metrics split_metrics (split_name ++ "/")
        | None => metrics
        end in
      eval_splits params batch_stats rest metrics
  end.

(** [eval_metrics], without the wall-clock time that its [utils.timed]
    decorator returns next to the report. *)
Definition eval_metrics {Params BatchStats Batch Collection V : Type}
    `{MetricScalar V} `{EvalEnv Params BatchStats Batch Collection V}
    (params : Params) (batch_stats : BatchStats) (dataset : Dataset Batch)
    (eval_num_batches eval_train_num_batches : option nat) : result (pydict V) :=
  let train_iter := eval_train_epoch dataset eval_train_num_batches in
  let valid_iter := valid_epoch dataset eval_num_batches in
  let test_iter := test_epoch dataset eval_num_batches in
  let metrics := [] in
  eval_splits params batch_stats
    (zip [train_iter; valid_iter; test_iter] ["train"; "valid"; "test"]) metrics.

(** ** Reports gathered from all hosts *)

(** The values a report holds: a scalar metric, the array of one metric
    over all processes that [process_allgather] returns, a float or an
    integer. *)
Inductive report_value (V : Type) : Type :=
| Scalar (v : V)
| Stacked (xs : list V)
| Float (x : R)
| Int (n : nat).

Arguments Scalar {V} v.
Arguments Stacked {V} xs.
Arguments Float {V} x.
Arguments Int {V} n.

(** [multihost_utils.process_allgather(report)]: for each metric of the
    report, the array of that metric over the processes, entry [i] coming
    from process [i]. *)
Class Multihost (V : Type) : Type := {
  gathered_values : string -> list V
}.

Definition process_allgather {V : Type} `{Multihost V} (report : pydict V)
  : pydict (report_value V) :=
  map (fun kv => (fst kv, Stacked (gathered_values (fst kv)))) report.

(** [f'{metric}-{i}'] *)
Definition host_key (metric : string) (i : nat) : string :=
  metric ++ "-" ++ str_of_nat i.

(** [enumerate] *)
Definition enumerate {A : Type} (l : list A) : list (nat * A) := imap (fun i x => (i, x)) l.

(** [{f'{metric}-{i}': x.item() for i, x in enumerate(xs)}] *)
Definition metric_reports {V : Type} (metric : string) (xs : list V) : pydict (report_value V) :=
  fold_left (fun d ix => dict_set d (host_key metric (fst ix)) (Scalar (snd ix)))
            (enumerate xs) [].

(** The body of the loop of [gather_multihost_report]. *)
Definition gather_metric {V : Type} (current_expert : nat)
    (all_reports : pydict (report_value V)) (metric : string)
  : result (pydict (report_value V)) :=
  value <~ dict_item all_reports metric ;;
  match value with
  | Stacked xs =>
      let all_reports := dict_update all_reports (metric_reports metric xs) in
      current <~ dict_item all_reports (host_key metric current_expert) ;;
      Ok (dict_set all_reports metric current)
  | _ => Raise (TypeError "object is not iterable")
  end.

Fixpoint gather_metrics {V : Type} (current_expert : nat)
    (metrics : list string) (all_reports : pydict (report_value V))
  : result (pydict (report_value V)) :=
  match metrics with
  | [] => Ok all_reports
  | metric :: rest =>
      all_reports <~ gather_metric current_expert all_reports metric ;;
      gather_metrics current_expert rest all_reports
  end.

Definition gather_multihost_report {V : Type} `{Multihost V}
    (report : pydict V) (current_expert : nat) : result (pydict (report_value V)) :=
  let all_reports := process_allgather report in
  gather_metrics current_expert (dict_keys report) all_reports.

(** ** Choosing the optimizer ([optimizer_lib/optimizers.py])

    [train] calls [get_optimizer] for the init and update functions of the
    optimizer, before it does anything that can be seen from outside.
    optax is an interface: a transformation is the pair of its
    init and update functions, and the constructors [get_optimizer] calls
    are the methods of [Optax]. *)

Module Optimizers.

(** [NotImplementedError], beside the exceptions of above. *)
Inductive raised : Type :=
| Builtin (e : exn)
| NotImplementedError (msg : string).

Inductive outcome (A : Type) : Type :=
| Returns (a : A)
| Raises (e : raised).

Arguments Returns {A} a.
Arguments Raises {A} e.

(** The fields of [hps] that [get_optimizer] reads. *)
Record HParams : Type := {
  optimizer : string;
  opt_hparams : gmap string R;
  l2_decay_factor : option R;
  output_shape : list nat
}.

Record Model (FlaxModule LossFn : Type) : Type := {
  flax_module_def : FlaxModule;
  loss_fn : LossFn
}.

Arguments flax_module_def {FlaxModule LossFn} m.
Arguments loss_fn {FlaxModule LossFn} m.

(** What the update function of a transformation is given as [params]:
    the parameters, or, for the Hessian-free optimizer, the pair of the
    variables dict and the batch. *)
Inductive update_params (Params Batch BatchStats : Type) : Type :=
| OfParams (params : Params)
| OfVariables (variables : pydict (Params + BatchStats)) (batch : option Batch).

Arguments OfParams {Params Batch BatchStats} params.
Arguments OfVariables {Params Batch BatchStats} variables batch.

Section GetOptimizer.
Context {Params Batch BatchStats Grads State FlaxModule LossFn : Type}.

Definition opt_init_fn : Type := Params -> State.
Definition opt_update_fn : Type :=
  Grads -> State -> update_params Params Batch BatchStats -> Grads * State.
Definition GradientTransformation : Type := opt_init_fn * opt_update_fn.

Class Optax : Type := {
  (* optax.chain of the transformations *)
  optax_chain : list GradientTransformation -> GradientTransformation;
  (* optax.add_decayed_weights(weight_decay) *)
  optax_add_decayed_weights : R -> GradientTransformation;
  (* optax.sgd(learning_rate, momentum, nesterov) *)
  optax_sgd : R -> option R -> bool -> GradientTransformation;
  (* optax.adamw(learning_rate, b1, b2, eps, weight_decay) *)
  optax_adamw : R -> R -> R -> R -> R -> GradientTransformation;
  (* hessian_free(flax_module_def, loss_fn, learning_rate, max_iter) *)
  hessian_free : FlaxModule -> LossFn -> R -> nat -> GradientTransformation;
  (* optax.inject_hyperparams(inner_factory, static_args), called with the keyword arguments *)
  optax_inject_hyperparams :
    forall Args : Type, (Args -> GradientTransformation) -> list string -> Args ->
                        GradientTransformation
}.

Context `{Optax}.

(** Weight decay first, then one of the SGD, momentum and Nesterov
    updates. *)
Definition sgd (learning_rate weight_decay : R) (momentum : option R) (nesterov : bool)
  : GradientTransformation :=
  optax_chain [optax_add_decayed_weights weight_decay;
               optax_sgd learning_rate momentum nesterov].

(** The update function with the signature the trainer calls. *)
Definition _wrap_update_fn (opt_name : string) (opt_update : opt_update_fn)
  : Grads -> State -> Params -> option Batch -> option BatchStats -> Grads * State :=
  fun grads optimizer_state params batch batch_stats =>
    if String.eqb opt_name "hessian_free" then
      let variables := [("params", inl params)] in
      let variables :=
        match batch_stats with
        | Some bs => dict_set variables "batch_stats" (inr bs)
        | None => variables
        end in
      opt_update grads optimizer_state (OfVariables variables batch)
    else opt_update grads optimizer_state (OfParams params).

(** [hps.opt_hparams[k]] *)
Definition opt_hparam (hps : HParams) (k : string) : outcome R :=
  match opt_hparams hps !! k with
  | Some v => Returns v
  | None => Raises (Builtin (KeyError k))
  end.

Definition outcome_bind {A B : Type} (m : outcome A) (k : A -> outcome B) : outcome B :=
  match m with
  | Returns a => k a
  | Raises e => Raises e
  end.

(** The transformation that the branch for [hps.optimizer] builds, [None]
    when no branch is taken.  The learning rate is 0 in all of them: the
    trainer injects it at every step. *)
Definition chosen_transformation (hps : HParams) (model : option (Model FlaxModule LossFn))
    (weight_decay : R) : outcome (option GradientTransformation) :=
  if String.eqb (optimizer hps) "sgd" then
    Returns (Some (optax_inject_hyperparams (R * R)
                     (fun kw => sgd (fst kw) (snd kw) None false) []
                     (0%R, weight_decay)))
  else if String.eqb (optimizer hps) "momentum" || String.eqb (optimizer hps) "nesterov" then
    outcome_bind (opt_hparam hps "momentum") (fun momentum =>
    Returns (Some (optax_inject_hyperparams (R * R * R * bool)
                     (fun kw => sgd (fst (fst (fst kw))) (snd (fst (fst kw)))
                                    (Some (snd (fst kw))) (snd kw)) []
                     (0%R, weight_decay, momentum,
                      String.eqb (optimizer hps) "nesterov"))))
  else if String.eqb (optimizer hps) "adam" then
    outcome_bind (opt_hparam hps "beta1") (fun b1 =>
    outcome_bind (opt_hparam hps "beta2") (fun b2 =>
    outcome_bind (opt_hparam hps "epsilon") (fun eps =>
    Returns (Some (optax_inject_hyperparams (R * R * R * R * R)
                     (fun kw => optax_adamw (fst (fst (fst (fst kw))))
                                            (snd (fst (fst (fst kw))))
                                            (snd (fst (fst kw)))
                                            (snd (fst kw)) (snd kw)) []
                     (0%R, b1, b2, eps, weight_decay))))))
  else if String.eqb (optimizer hps) "hessian_free" then
    match model with
    | None =>
        Raises (Builtin (ValueError
                           "Model info should be provided for hessian free optimizer."))
    | Some model =>
        Returns (Some (optax_inject_hyperparams (FlaxModule * LossFn * R * nat)
                         (fun kw => hessian_free (fst (fst (fst kw))) (snd (fst (fst kw)))
                                                 (snd (fst kw)) (snd kw))
                         ["flax_module_def"; "loss_fn"; "max_iter"]
                         (flax_module_def model, loss_fn model, 0%R,
                          fold_right Nat.mul 1 (output_shape hps))))
    end
  else Returns None.

Definition get_optimizer (hps : HParams) (model : option (Model FlaxModule LossFn))
  : outcome (opt_init_fn *
             (Grads -> State -> Params -> option Batch -> option BatchStats ->
              Grads * State)) :=
  let weight_decay := default 0%R (opt_hparams hps !! "weight_decay") in
  if negb (match l2_decay_factor hps with None => true | Some _ => false end
           || (if Req_dec_T weight_decay 0 then true else false)) then
    Raises (Builtin AssertionError)
  else
    outcome_bind (chosen_transformation hps model weight_decay) (fun chosen =>
    match chosen with
    | None =>
        Raises (NotImplementedError
                  ("Optimizer " ++ optimizer hps ++ " not implemented"))
    | Some (opt_init, opt_update) =>
        Returns (opt_init, _wrap_update_fn (optimizer hps) opt_update)
    end).

End GetOptimizer.

End Optimizers.

(** What [get_optimizer] returns or raises, as its callers see it. *)
Definition optimizer_result {A : Type} (o : Optimizers.outcome A) : result A :=
  match o with
  | Optimizers.Returns a => Ok a
  | Optimizers.Raises (Optimizers.Builtin e) => Raise e
  | Optimizers.Raises (Optimizers.NotImplementedError msg) => Raise (NotImplementedError msg)
  end.

(** ** The training loop *)

(** The tuple that a checkpoint holds and that
    [checkpoint.replicate_and_maybe_restore_checkpoint] returns. *)
Record train_state (OptState Params BatchStats MetricsState : Type) : Type := {
  optimizer_state : OptState;
  params : Params;
  batch_stats : BatchStats;
  metrics_state : option MetricsState;
  global_step : nat;
  sum_train_cost : R;
  preemption_count : nat
}.

Arguments optimizer_state {_ _ _ _} t.
Arguments params {_ _ _ _} t.
Arguments batch_stats {_ _ _ _} t.
Arguments metrics_state {_ _ _ _} t.
Arguments global_step {_ _ _ _} t.
Arguments sum_train_cost {_ _ _ _} t.
Arguments preemption_count {_ _ _ _} t.

(** The hyperparameters that [train] reads. *)
Record Hps : Type := {
  batch_size : nat;
  train_size : nat;
  optimizer : string;
  opt_hparams : gmap string R;
  l2_decay_factor : option R;
  output_shape : list nat;
  (* hps.get('opt_hparams.reinit_steps', []) *)
  reinit_steps : list nat;
  (* hps.get('opt_hparams.optimizers.<expert>.hps.learning_rate', default) *)
  expert_learning_rate : nat -> option R
}.

(** [hps], as [optimizers.get_optimizer] reads it. *)
Definition optimizer_hparams (hps : Hps) : Optimizers.HParams :=
  {| Optimizers.optimizer := optimizer hps;
     Optimizers.opt_hparams := opt_hparams hps;
     Optimizers.l2_decay_factor := l2_decay_factor hps;
     Optimizers.output_shape := output_shape hps |}.

(** What the loop does that can be seen from outside, in order: the
    dataset it builds, the update steps it runs, the cadence checks it
    makes, the checkpoints it writes and the reports it yields. *)
Inductive event (Key OptState Params BatchStats MetricsState V : Type) : Type :=
| BuildDataset (data_rng : Key)
| SaveCheckpoint (dir : string)
    (st : train_state OptState Params BatchStats MetricsState)
| RunUpdate (global_step : nat) (lr : R)
| CheckShouldEval (global_step : nat)
| Yield (report : pydict (report_value V))
| WaitForCheckpointSave.

Arguments BuildDataset {_ _ _ _ _ _} data_rng.
Arguments SaveCheckpoint {_ _ _ _ _ _} dir st.
Arguments RunUpdate {_ _ _ _ _ _} global_step lr.
Arguments CheckShouldEval {_ _ _ _ _ _} global_step.
Arguments Yield {_ _ _ _ _ _} report.
Arguments WaitForCheckpointSave {_ _ _ _ _ _}.

(** A computation that emits events and then returns or raises. *)
Definition traced (E A : Type) : Type := list E * result A.

Definition traced_ret {E A : Type} (a : A) : traced E A := ([], Ok a).

Definition traced_bind {E A B : Type} (m : traced E A) (k : A -> traced E B) : traced E B :=
  match m with
  | (es, Ok a) => let (es', r) := k a in (es ++ es', r)
  | (es, Raise e) => (es, Raise e)
  end.

Definition emit {E : Type} (e : E) : traced E unit := ([e], Ok tt).

Definition lift {E A : Type} (r : result A) : traced E A := ([], r).

Notation "x <<~ m ;; k" := (traced_bind m (fun x => k))
  (at level 60, m at next level, right associativity).

(** [expert_weights.sum(axis=0)] on the rows of a matrix. *)
Definition sum_axis0 (rows : list array) : array :=
  match rows with
  | [] => []
  | r :: rs => fold_left arr_add rs r
  end.

Definition add_expert_probs {V : Type} (report : pydict (report_value V))
    (expert_weights : list array) : pydict (report_value V) :=
  let total := arr_sum (map arr_sum expert_weights) in
  let probs := map (fun c => (c / total)%R) (sum_axis0 expert_weights) in
  let probs :=
    fold_left (fun d ip => dict_set d ("expert_prob-" ++ str_of_nat (fst ip)) (Float (snd ip)))
              (enumerate probs) [] in
  dict_update report probs.

Section TrainingLoop.

Context {Key OptState Params BatchStats MetricsState MetricsConfig Batch Collection V
         Callback : Type}.
Context `{JaxRuntime} `{Prng Key} `{MetricScalar V}.
Context `{EvalEnv Params BatchStats Batch Collection V}.

(** [itertools.islice(it, start, stop)] *)
Definition islice {A : Type} (it : list A) (start stop : nat) : list A :=
  firstn (stop - start) (skipn start it).

(** The rest of init2winit and the caller's objects, as [train] uses them. *)
Class TrainEnv : Type := {
  (* the model: its module and its loss function *)
  FlaxModule : Type;
  LossFn : Type;
  model : Optimizers.Model FlaxModule LossFn;
  (* optax, as optimizers.get_optimizer calls it *)
  optax :: @Optimizers.Optax Params Batch BatchStats Params OptState FlaxModule LossFn;
  (* jax.random.split(key, n) *)
  random_split_n : Key -> nat -> list Key;
  (* init_utils.initialize(...) on the init rng *)
  initialize : Key -> Params * BatchStats;
  (* schedules.get_schedule_fn(...) *)
  lr_fn : nat -> R;
  (* the init function that optimizers.get_optimizer(hps, model) returns,
     when it returns; its update function is inside update_pmapped *)
  optimizer_init_fn : Params -> OptState;
  (* whether optimizer_state.inner_state has an attribute current_expert *)
  has_current_expert : OptState -> bool;
  (* optimizer_state.inner_state.current_expert, of a state that has it *)
  current_expert : OptState -> nat;
  replace_current_expert : OptState -> nat -> OptState;
  (* optimizer_state.inner_state.expert_weights[0] *)
  expert_weights : OptState -> list array;
  (* the init function that make_training_metrics returns for a config *)
  metrics_init_fn : MetricsConfig -> Params -> MetricsState;
  (* checkpoint.replicate_and_maybe_restore_checkpoint *)
  replicate_and_maybe_restore_checkpoint :
    OptState -> Params -> BatchStats -> option MetricsState -> string -> option string ->
    train_state OptState Params BatchStats MetricsState * bool;
  dataset_builder : Key -> nat -> nat -> Dataset Batch;
  (* jax.pmap(update_fn, axis_name='batch') *)
  update_pmapped :
    OptState -> Params -> BatchStats -> option MetricsState -> Batch -> nat -> R -> Key ->
    result (OptState * Params * BatchStats * array * option MetricsState * array);
  (* unreplicate, multihost_utils.broadcast_one_to_all, replicate *)
  broadcast_one_to_all : Params -> bool -> Params;
  replicate_optimizer_state : OptState -> OptState;
  (* trainer_utils.should_eval *)
  should_eval : nat -> nat -> option (list nat) -> bool;
  (* truth value of batch_stats, and the pmapped _sync_batchnorm_stats *)
  batch_stats_nonempty : BatchStats -> bool;
  sync_batchnorm_stats_pmapped : BatchStats -> BatchStats;
  (* the per-process metric values that process_allgather sees at a step *)
  allgather_at : nat -> Multihost V;
  (* callbacks.get_callback(name)(model, params, batch_stats, dataset, ...) *)
  get_callback : Callback -> Params -> BatchStats -> Dataset Batch -> Key ->
                 (Params -> BatchStats -> nat -> pydict (report_value V));
  (* trainer_utils.check_for_early_stopping *)
  check_for_early_stopping :
    option string -> option R -> option string -> pydict (report_value V) -> bool;
  (* wall-clock readings: get_step_frequency(cur_step) and eval_time *)
  get_step_frequency : nat -> nat -> R;
  eval_time : nat -> R
}.

Context `{TrainEnv}.

Definition _maybe_sync_batchnorm_stats (batch_stats : BatchStats) : BatchStats :=
  if batch_stats_nonempty batch_stats then sync_batchnorm_stats_pmapped batch_stats
  else batch_stats.

Local Abbreviation tstate := (train_state OptState Params BatchStats MetricsState).
Local Abbreviation tevent := (event Key OptState Params BatchStats MetricsState V).
Local Abbreviation report_t := (pydict (report_value V)).

(** The local variables of [train] that change in the loop, besides the
    checkpointed tuple. *)
Record loop_vars : Type := {
  lv_state : tstate;
  lv_prev_eval_step : nat;
  lv_checkpointed_expert : nat;
  lv_grad_norm : option array
}.

(** [report.update(learning_rate=..., ..., train_cost=...)] *)
Definition report_update_summary (hps : Hps) (report : report_t) (lr : R)
    (global_step start_step prev_eval_step preemption_count : nat)
    (sum_train_cost : R) (grad_norm : option array) : result report_t :=
  let mean_train_cost :=
    (sum_train_cost / INR (Nat.max 1 (global_step - prev_eval_step)))%R in
  epoch <~ (if Nat.eqb (train_size hps) 0
            then Raise ZeroDivisionError
            else Ok (global_step * batch_size hps / train_size hps)) ;;
  grad_norm <~ match grad_norm with
               | Some g => Ok g
               | None => Raise (UnboundLocalError "grad_norm")
               end ;;
  Ok (dict_update report
        [("learning_rate", Float lr);
         ("global_step", Int global_step);
         ("epoch", Int epoch);
         ("steps_per_sec", Float (get_step_frequency global_step start_step));
         ("eval_time", Float (eval_time global_step));
         ("grad_norm", Float (np_mean grad_norm));
         ("preemption_count", Int preemption_count);
         ("train_cost", Float mean_train_cost)]).

(** The evaluation report up to the callbacks: [eval_metrics], and for the
    ['samuel'] optimizer the reports of all hosts. *)
Definition evaluation_report (hps : Hps) (dataset : Dataset Batch)
    (eval_num_batches eval_train_num_batches : option nat)
    (st : tstate) (checkpointed_expert : nat) : result report_t :=
  report <~ eval_metrics (params st) (batch_stats st) dataset
              eval_num_batches eval_train_num_batches ;;
  if String.eqb (optimizer hps) "samuel" then
    report <~ @gather_multihost_report V (allgather_at (global_step st)) report
                (current_expert (optimizer_state st)) ;;
    let report := add_expert_probs report (expert_weights (optimizer_state st)) in
    Ok (dict_update report
          [("current_expert", Int (current_expert (optimizer_state st)));
           ("checkpointed_expert", Int checkpointed_expert)])
  else Ok (map (fun kv => (fst kv, Scalar (snd kv))) report).

(** The [for eval_callback in eval_callbacks] loop. *)
Fixpoint run_callbacks
    (eval_callbacks : list (Params -> BatchStats -> nat -> report_t))
    (st : tstate) (report : report_t) : result report_t :=
  match eval_callbacks with
  | [] => Ok report
  | run_eval :: rest =>
      let callback_metrics := run_eval (params st) (batch_stats st) (global_step st) in
      if existsb (fun k => dict_mem k report) (dict_keys callback_metrics)
      then Raise (ValueError
             "There was a collision between the callback metricsand the standard eval metrics keys")
      else run_callbacks rest st (dict_update report callback_metrics)
  end.

Definition with_batch_stats (st : tstate) (bs : BatchStats) : tstate :=
  {| optimizer_state := optimizer_state st; params := params st; batch_stats := bs;
     metrics_state := metrics_state st; global_step := global_step st;
     sum_train_cost := sum_train_cost st; preemption_count := preemption_count st |}.

Definition with_sum_train_cost (st : tstate) (c : R) : tstate :=
  {| optimizer_state := optimizer_state st; params := params st;
     batch_stats := batch_stats st; metrics_state := metrics_state st;
     global_step := global_step st; sum_train_cost := c;
     preemption_count := preemption_count st |}.

Definition with_global_step (st : tstate) (n : nat) : tstate :=
  {| optimizer_state := optimizer_state st; params := params st;
     batch_stats := batch_stats st; metrics_state := metrics_state st;
     global_step := n; sum_train_cost := sum_train_cost st;
     preemption_count := preemption_count st |}.

(** The arguments of [train] that stay fixed during the loop. *)
Record train_args : Type := {
  train_dir : string;
  num_train_steps : nat;
  hps : Hps;
  eval_batch_size : option nat;
  eval_num_batches : option nat;
  eval_train_num_batches : option nat;
  eval_frequency : nat;
  checkpoint_steps : list nat;
  early_stopping_target_name : option string;
  early_stopping_target_value : option R;
  early_stopping_mode : option string;
  eval_steps : option (list nat);
  training_metrics_config : option MetricsConfig;
  callback_configs : option (list Callback);
  external_checkpoint_path : option string
}.

(** [os.path.join(train_dir, 'checkpoints')] *)
Definition checkpoint_dir (a : train_args) : string := train_dir a ++ "/checkpoints".

(** Lines 675-740: the evaluation that a cadence step or the end of
    training runs, up to the [yield] and the checkpoint after it. *)
Definition evaluate_and_yield (a : train_args) (dataset : Dataset Batch)
    (eval_callbacks : list (Params -> BatchStats -> nat -> report_t))
    (start_step : nat) (lr : R) (with_callbacks : bool) (lv : loop_vars)
  : traced tevent (tstate * report_t) :=
  let st := lv_state lv in
  let st := with_batch_stats st (_maybe_sync_batchnorm_stats (batch_stats st)) in
  report <<~ lift (evaluation_report (hps a) dataset (eval_num_batches a)
                     (eval_train_num_batches a) st (lv_checkpointed_expert lv)) ;;
  report <<~ lift (report_update_summary (hps a) report lr (global_step st) start_step
                     (lv_prev_eval_step lv) (preemption_count st) (sum_train_cost st)
                     (lv_grad_norm lv)) ;;
  report <<~ lift (if with_callbacks then run_callbacks eval_callbacks st report
                   else Ok report) ;;
  _ <<~ emit (Yield report) ;;
  _ <<~ (if Nat.eqb process_index 0 then emit (SaveCheckpoint (train_dir a) st)
         else traced_ret tt) ;;
  traced_ret (st, report).

(** One pass through the body of [for batch in train_iter]; the boolean
    tells whether the body ended in the early-stopping [return]. *)
Definition train_iteration (a : train_args) (dataset : Dataset Batch)
    (eval_callbacks : list (Params -> BatchStats -> nat -> report_t))
    (rng : Key) (start_step : nat) (lv : loop_vars) (batch : Batch)
  : traced tevent (loop_vars * bool) :=
  let st := lv_state lv in
  _ <<~ (if existsb (Nat.eqb (global_step st)) (checkpoint_steps a)
            && Nat.eqb process_index 0
         then emit (SaveCheckpoint (checkpoint_dir a) st)
         else traced_ret tt) ;;
  let batch := shard batch in
  let lr :=
    match expert_learning_rate (hps a) (current_expert (optimizer_state st)) with
    | Some lr => lr
    | None => lr_fn (global_step st)
    end in
  _ <<~ emit (RunUpdate (global_step st) lr) ;;
  updated <<~ lift (update_pmapped (optimizer_state st) (params st) (batch_stats st)
                      (metrics_state st) batch (global_step st) lr rng) ;;
  let '(optimizer_state', params', batch_stats', cost_val, metrics_state', grad_norm) :=
    updated in
  let '(optimizer_state', params', checkpointed_expert') :=
    if existsb (Nat.eqb (global_step st)) (reinit_steps (hps a)) then
      let current_expert' := current_expert optimizer_state' in
      let source := Nat.eqb process_index current_expert' in
      let params' := broadcast_one_to_all params' source in
      let optimizer_state' := optimizer_init_fn params' in
      let optimizer_state' := replace_current_expert optimizer_state' current_expert' in
      (replicate_optimizer_state optimizer_state', params', current_expert')
    else (optimizer_state', params', lv_checkpointed_expert lv) in
  let sum_train_cost' := (sum_train_cost st + np_mean cost_val)%R in
  let global_step' := global_step st + 1 in
  let st :=
    {| optimizer_state := optimizer_state'; params := params';
       batch_stats := batch_stats'; metrics_state := metrics_state';
       global_step := global_step'; sum_train_cost := sum_train_cost';
       preemption_count := preemption_count st |} in
  let lv :=
    {| lv_state := st; lv_prev_eval_step := lv_prev_eval_step lv;
       lv_checkpointed_expert := checkpointed_expert';
       lv_grad_norm := Some grad_norm |} in
  _ <<~ emit (CheckShouldEval global_step') ;;
  if should_eval global_step' (eval_frequency a) (eval_steps a) then
    yielded <<~ evaluate_and_yield a dataset eval_callbacks start_step lr true lv ;;
    let (st, report) := yielded in
    let lv :=
      {| lv_state := with_sum_train_cost st 0; lv_prev_eval_step := global_step st;
         lv_checkpointed_expert := lv_checkpointed_expert lv;
         lv_grad_norm := lv_grad_norm lv |} in
    let early_stopping_condition :=
      check_for_early_stopping (early_stopping_target_name a)
        (early_stopping_target_value a) (early_stopping_mode a) report in
    traced_ret (lv, early_stopping_condition)
  else traced_ret (lv, false).

(** [for batch in train_iter: ...] *)
Fixpoint train_loop (a : train_args) (dataset : Dataset Batch)
    (eval_callbacks : list (Params -> BatchStats -> nat -> report_t))
    (rng : Key) (start_step : nat) (train_iter : list Batch) (lv : loop_vars)
  : traced tevent (loop_vars * bool) :=
  match train_iter with
  | [] => traced_ret (lv, false)
  | batch :: rest =>
      step <<~ train_iteration a dataset eval_callbacks rng start_step lv batch ;;
      let (lv, returned) := step in
      if returned then traced_ret (lv, true)
      else train_loop a dataset eval_callbacks rng start_step rest lv
  end.

(** [train], run until its generator is exhausted.  The events are in the
    order in which the generator produces them; whoever stops consuming it
    after a [Yield] sees a prefix.  Logging is left out.

    Of the pair that [get_optimizer] returns the model keeps whether it
    was returned: the functions themselves are the environment's
    [optimizer_init_fn] and the update inside [update_pmapped].  The read
    of [inner_state.current_expert] on the fresh optimizer state raises
    [AttributeError] for a state without the attribute; the states that
    the loop reads it from afterwards are of the class of that state. *)
Definition train (a : train_args) (rng : Key) : traced tevent unit :=
  let (rng, init_rng) := random_split rng in
  let (rng, data_rng) := random_split rng in
  let rng := random_fold_in rng process_index in
  let eval_batch_size :=
    match eval_batch_size a with
    | None => batch_size (hps a)
    | Some n => n
    end in
  let callback_configs :=
    match callback_configs a with
    | None => []
    | Some l => l
    end in
  let (unreplicated_params, unreplicated_batch_stats) := initialize init_rng in
  _ <<~ lift (optimizer_result
                (Optimizers.get_optimizer (optimizer_hparams (hps a)) (Some model))) ;;
  let unreplicated_optimizer_state := optimizer_init_fn unreplicated_params in
  checkpointed_expert <<~
    lift (if has_current_expert unreplicated_optimizer_state
          then Ok (current_expert unreplicated_optimizer_state)
          else Raise (AttributeError "current_expert")) ;;
  let unreplicated_metrics_state :=
    match training_metrics_config a with
    | Some config => Some (metrics_init_fn config unreplicated_params)
    | None => None
    end in
  let (restored, is_restored) :=
    replicate_and_maybe_restore_checkpoint unreplicated_optimizer_state
      unreplicated_params unreplicated_batch_stats unreplicated_metrics_state
      (train_dir a) (external_checkpoint_path a) in
  let preemption_count :=
    if is_restored then preemption_count restored + 1 else preemption_count restored in
  let data_rng :=
    if is_restored then random_fold_in data_rng (global_step restored) else data_rng in
  _ <<~ lift (if Nat.eqb device_count 0
              then Raise ZeroDivisionError
              else if negb (Nat.eqb (batch_size (hps a) mod device_count) 0)
                   then Raise AssertionError
                   else if negb (Nat.eqb (eval_batch_size mod device_count) 0)
                        then Raise AssertionError
                        else Ok tt) ;;
  _ <<~ emit (BuildDataset data_rng) ;;
  let dataset := dataset_builder data_rng (batch_size (hps a)) eval_batch_size in
  let st :=
    {| optimizer_state := optimizer_state restored; params := params restored;
       batch_stats := batch_stats restored; metrics_state := metrics_state restored;
       global_step := global_step restored; sum_train_cost := sum_train_cost restored;
       preemption_count := preemption_count |} in
  let start_step := global_step st in
  let prev_eval_step := start_step in
  let train_iter := islice (train_iterator_fn dataset) (global_step st) (num_train_steps a) in
  let (rng, callback_rng) := random_split rng in
  let callback_rngs := random_split_n callback_rng (length callback_configs) in
  let eval_callbacks :=
    map (fun rc => get_callback (snd rc) (params st) (batch_stats st) dataset (fst rc))
        (zip callback_rngs callback_configs) in
  let lv :=
    {| lv_state := st; lv_prev_eval_step := prev_eval_step;
       lv_checkpointed_expert := checkpointed_expert; lv_grad_norm := None |} in
  looped <<~ train_loop a dataset eval_callbacks rng start_step train_iter lv ;;
  let (lv, returned) := looped in
  if returned then traced_ret tt
  else
    _ <<~ (if negb (Nat.eqb (lv_prev_eval_step lv) (num_train_steps a)) then
             yielded <<~ evaluate_and_yield a dataset eval_callbacks start_step
                           (lr_fn (global_step (lv_state lv))) false lv ;;
             traced_ret tt
           else traced_ret tt) ;;
    emit WaitForCheckpointSave.

End TrainingLoop.

Arguments TrainEnv : clear implicits.
Arguments loop_vars : clear implicits.
Arguments train_args : clear implicits.

(** ** The vocabulary of the properties

    What the properties of the second part are stated with. *)

(** *** Evaluation *)

Section EvaluationVocabulary.
Context {Params BatchStats Batch Collection V : Type}.
Context `{MetricScalar V} `{EvalEnv Params BatchStats Batch Collection V}.
Implicit Types (params : Params) (batch_stats : BatchStats).

(** The metrics of the batches of a non-empty iterator, merged in order:
    what the specification calls the merged metrics. *)
Definition merged_metrics params batch_stats (first : Batch) (rest : list Batch) : Collection :=
  fold_left (fun m b => merge m (evaluate_batch_pmapped params batch_stats (shard b)))
            rest (evaluate_batch_pmapped params batch_stats (shard first)).

(** Some scalar of the mapping is NaN. *)
Definition has_nan (metrics : pydict V) : Prop :=
  exists key val, In (key, val) metrics /\ isnan val = true.

(** What one split adds to the report. *)
Definition merge_split (metrics : pydict V) (split_metrics : option (pydict V))
    (split_name : string) : pydict V :=
  match split_metrics with
  | Some split_metrics => _merge_and_apply_prefix metrics split_metrics (split_name ++ "/")
  | None => metrics
  end.

(** [split_metrics[k]], nothing when the split has no metrics. *)
Definition split_get (split_metrics : option (pydict V)) (k : string) : option V :=
  match split_metrics with
  | Some d => dict_get d k
  | None => None
  end.

End EvaluationVocabulary.

(** *** Per-host keys *)

(** No character of the string is a dash. *)
Fixpoint dash_free (s : string) : Prop :=
  match s with
  | EmptyString => True
  | String c s' => c <> "-"%char /\ dash_free s'
  end.

Section GatherVocabulary.
Context {V : Type}.
Implicit Types (A : pydict (report_value V)) (m : string) (e : nat).

(** What the loop has established for a metric it has gone through. *)
Definition gathered_metric (gv : string -> list V) e A m : Prop :=
  (forall i x, gv m !! i = Some x -> dict_get A (host_key m i) = Some (Scalar x)) /\
  (exists x, gv m !! e = Some x /\ dict_get A m = Some (Scalar x)).

(** No metric of the report is spelled like the per-host key of a metric
    of the report. *)
Definition collision_free (gv : string -> list V) (metrics : list string) : Prop :=
  forall m m' i, In m metrics -> In m' metrics -> i < length (gv m') -> m <> host_key m' i.

End GatherVocabulary.

(** *** Exponential moving averages *)

Local Open Scope R_scope.




Local Close Scope R_scope.



(** *** Runs of the training loop *)

Section TrainVocabulary.
Context {Key OptState Params BatchStats MetricsState MetricsConfig Batch Collection V
         Callback : Type}.
Context `{JaxRuntime} `{Prng Key} `{MetricScalar V}.
Context `{EvalEnv Params BatchStats Batch Collection V}.
Context `{TrainEnv Key OptState Params BatchStats MetricsState MetricsConfig Batch V Callback}.

Local Abbreviation tstate := (train_state OptState Params BatchStats MetricsState).
Local Abbreviation tevent := (event Key OptState Params BatchStats MetricsState V).
Local Abbreviation report_t := (pydict (report_value V)).
Local Abbreviation targs := (train_args MetricsConfig Callback).

(** What a run shows of its steps: the seeds it builds datasets from, the
    values of [global_step] it runs [update] at, the values it passes to the
    cadence check, the states it saves and the reports it yields. *)
Definition dataset_seeds (es : list tevent) : list Key :=
  omap (fun e => match e with BuildDataset k => Some k | _ => None end) es.

Definition update_steps (es : list tevent) : list nat :=
  omap (fun e => match e with RunUpdate s _ => Some s | _ => None end) es.

Definition checked_steps (es : list tevent) : list nat :=
  omap (fun e => match e with CheckShouldEval s => Some s | _ => None end) es.

Definition saved_states (es : list tevent) : list tstate :=
  omap (fun e => match e with SaveCheckpoint _ st => Some st | _ => None end) es.

Definition yielded_reports (es : list tevent) : list report_t :=
  omap (fun e => match e with Yield r => Some r | _ => None end) es.

(** The events of a stretch of the run that starts at step [g] with the
    preemption counter [pc]: no dataset is built, [update] runs at the [n]
    steps from [g] on, the cadence check is made at the [n'] steps from
    [g + 1] on, and everything saved or yielded carries [pc]. *)
Definition run_shape (pc g n n' : nat) (es : list tevent) : Prop :=
  dataset_seeds es = [] /\
  update_steps es = seq g n /\
  checked_steps es = seq (g + 1) n' /\
  Forall (fun st => preemption_count st = pc) (saved_states es) /\
  Forall (fun r => dict_get r "preemption_count" = Some (Int pc)) (yielded_reports es).

(** The prologue of [train]: the data key that it splits off, what the
    checkpoint module returns, and the two assertions on the batch sizes. *)
Definition train_data_rng (rng : Key) : Key :=
  snd (random_split (fst (random_split rng))).

Definition train_restored (a : targs) (rng : Key) : tstate * bool :=
  let init_rng := snd (random_split rng) in
  let unreplicated_params := fst (initialize init_rng) in
  let unreplicated_batch_stats := snd (initialize init_rng) in
  replicate_and_maybe_restore_checkpoint (optimizer_init_fn unreplicated_params)
    unreplicated_params unreplicated_batch_stats
    match training_metrics_config a with
    | Some config => Some (metrics_init_fn config unreplicated_params)
    | None => None
    end
    (train_dir a) (external_checkpoint_path a).

(** Lines 503-505: the optimizer that [get_optimizer] returns, and the
    expert that its fresh state names. *)
Definition train_optimizer (a : targs) (rng : Key) : result nat :=
  _ <~ optimizer_result
         (Optimizers.get_optimizer (optimizer_hparams (hps a)) (Some model)) ;;
  let unreplicated_optimizer_state :=
    optimizer_init_fn (fst (initialize (snd (random_split rng)))) in
  if has_current_expert unreplicated_optimizer_state
  then Ok (current_expert unreplicated_optimizer_state)
  else Raise (AttributeError "current_expert").

Definition batch_sizes_ok (a : targs) : bool :=
  negb (Nat.eqb device_count 0)
  && Nat.eqb (batch_size (hps a) mod device_count) 0
  && Nat.eqb (match eval_batch_size a with
              | None => batch_size (hps a)
              | Some n => n
              end mod device_count) 0.

End TrainVocabulary.

(** ** Concrete environments

    Small instances of the interfaces, on which the definitions evaluate. *)

(** *** One step on one device *)

Local Open Scope R_scope.

(** A single process with a single device, a generator that ignores what
    is folded in, and a cost function whose value is 1 and whose gradient
    is (3, 4) everywhere. *)
Definition single_device : JaxRuntime :=
  {| local_device_count := 1; process_count := 1; process_index := 0; device_count := 1 |}.

Definition constant_prng : Prng unit :=
  {| random_split := fun k => (k, k); random_fold_in := fun k _ => k |}.

Definition example_grad : pytree array := Leaf [3; 4].

Definition example_autodiff : Autodiff (gmap string unit) :=
  {| value_and_grad := fun f p => (f p, example_grad) |}.

Definition lone_axis : axis_env cost_and_grad :=
  {| axis_index := O; axis_peers := fun _ => (0, Leaf []) |}.

Definition example_state : opt_state unit :=
  InjectHyperparamsState O (<["learning_rate" := 0]> ∅) tt.

Definition example_injected : opt_state unit :=
  InjectHyperparamsState O (<["learning_rate" := 1 / 10]> (<["learning_rate" := 0]> ∅)) tt.

(** The step with an optimizer that returns the gradient it is given as
    the update, and a metrics update that records the gradient it is
    given. *)
Definition example_update (grad_clip : option R) :=
  @update unit unit unit unit (pytree array) single_device constant_prng example_autodiff
    lone_axis example_state (Leaf [0; 0]) None (Some (Leaf [])) tt O (1 / 10) tt O
    (fun _ _ _ _ => (1, ∅)) grad_clip
    (fun g s _ _ _ => (g, s))
    (fun _ g _ _ => Ok g).

Local Close Scope R_scope.

(** *** Hosts and their reports *)

(** Two hosts that report a training and a validation loss. *)
Definition two_hosts : Multihost nat :=
  {| gathered_values := fun m => if String.eqb m "train/loss" then [5; 6] else [7; 8] |}.

(** One host, and a report in which a metric is named like the per-host
    key of another one. *)
Definition one_host : Multihost nat :=
  {| gathered_values := fun m => if String.eqb m "a-0" then [1] else [2] |}.

(** *** The test of the metrics grabber *)




(** *** A resumed run

    One device; the checkpoint module restores step 3 of 5 with one
    earlier preemption; evaluation every second step. *)

Definition toy_prng : Prng nat :=
  {| random_split := fun k => (2 * k + 1, 2 * k + 2);
     random_fold_in := fun k s => 3 * k + s + 1 |}.

(** A generator whose [fold_in] gives the key back. *)
Definition forgetful_prng : Prng nat :=
  {| random_split := fun k => (2 * k + 1, 2 * k + 2);
     random_fold_in := fun k _ => k |}.

Definition toy_scalar : MetricScalar nat := {| isnan := fun _ => false |}.

Definition toy_eval : EvalEnv unit unit unit unit nat :=
  {| shard := fun b => b;
     evaluate_batch_pmapped := fun _ _ _ => tt;
     merge := fun _ _ => tt;
     compute := fun _ => [("loss", 1)] |}.

Definition toy_dataset : Dataset unit :=
  {| train_iterator_fn := repeat tt 10;
     eval_train_epoch := fun _ => [tt];
     valid_epoch := fun _ => [tt];
     test_epoch := fun _ => [] |}.

Definition toy_restored : train_state unit unit unit unit :=
  {| optimizer_state := tt; params := tt; batch_stats := tt; metrics_state := None;
     global_step := 3; sum_train_cost := 0; preemption_count := 1 |}.

Definition toy_optax : @Optimizers.Optax unit unit unit unit unit unit unit :=
  {| Optimizers.optax_chain := fun _ => (fun _ => tt, fun g s _ => (g, s));
     Optimizers.optax_add_decayed_weights := fun _ => (fun _ => tt, fun g s _ => (g, s));
     Optimizers.optax_sgd := fun _ _ _ => (fun _ => tt, fun g s _ => (g, s));
     Optimizers.optax_adamw := fun _ _ _ _ _ => (fun _ => tt, fun g s _ => (g, s));
     Optimizers.hessian_free := fun _ _ _ _ => (fun _ => tt, fun g s _ => (g, s));
     Optimizers.optax_inject_hyperparams := fun _ inner _ args => inner args |}.

Definition toy_env (is_restored : bool) : TrainEnv nat unit unit unit unit unit unit nat unit :=
  {| FlaxModule := unit;
     LossFn := unit;
     model := {| Optimizers.flax_module_def := tt; Optimizers.loss_fn := tt |};
     optax := toy_optax;
     has_current_expert := fun _ => true;
     random_split_n := fun k n => repeat k n;
     initialize := fun _ => (tt, tt);
     lr_fn := fun _ => 0%R;
     optimizer_init_fn := fun _ => tt;
     current_expert := fun _ => 0;
     replace_current_expert := fun s _ => s;
     expert_weights := fun _ => [];
     metrics_init_fn := fun _ _ => tt;
     replicate_and_maybe_restore_checkpoint := fun _ _ _ _ _ _ =>
       (if is_restored then toy_restored
        else {| optimizer_state := tt; params := tt; batch_stats := tt;
                metrics_state := None; global_step := 0; sum_train_cost := 0;
                preemption_count := 0 |},
        is_restored);
     dataset_builder := fun _ _ _ => toy_dataset;
     update_pmapped := fun os p bs ms _ _ _ _ => Ok (os, p, bs, [1%R], ms, [1%R]);
     broadcast_one_to_all := fun p _ => p;
     replicate_optimizer_state := fun s => s;
     should_eval := fun step frequency _ => Nat.eqb (step mod frequency) 0;
     batch_stats_nonempty := fun _ => false;
     sync_batchnorm_stats_pmapped := fun bs => bs;
     allgather_at := fun _ => {| gathered_values := fun _ => [] |};
     get_callback := fun _ _ _ _ _ => fun _ _ _ => [];
     check_for_early_stopping := fun _ _ _ _ => false;
     get_step_frequency := fun _ _ => 0%R;
     eval_time := fun _ => 0%R |}.

Definition toy_args : train_args unit unit :=
  {| train_dir := "run";
     num_train_steps := 5;
     hps := {| batch_size := 8; train_size := 100; optimizer := "momentum";
               opt_hparams := {["momentum" := (9 / 10)%R]};
               l2_decay_factor := None; output_shape := [10];
               reinit_steps := []; expert_learning_rate := fun _ => None |};
     eval_batch_size := None;
     eval_num_batches := None;
     eval_train_num_batches := None;
     eval_frequency := 2;
     checkpoint_steps := [4];
     early_stopping_target_name := None;
     early_stopping_target_value := None;
     early_stopping_mode := None;
     eval_steps := None;
     training_metrics_config := None;
     callback_configs := None;
     external_checkpoint_path := None |}.

Definition toy_run (is_restored : bool) :=
  @train nat unit unit unit unit unit unit unit nat unit
    single_device toy_prng toy_scalar toy_eval (toy_env is_restored) toy_args 0.

(** *** Optimizer states up to the learning rate *)

(** The state with the ['learning_rate'] slot of its
    [InjectHyperparamsState] taken out. *)
Fixpoint without_learning_rate {Inner : Type} (s : opt_state Inner) : opt_state Inner :=
  match s with
  | InjectHyperparamsState count hyperparams inner_state =>
      InjectHyperparamsState count (delete "learning_rate" hyperparams) inner_state
  | GradientAccumulatorState base_state hyperparams accumulations =>
      GradientAccumulatorState (without_learning_rate base_state) hyperparams accumulations
  | OtherState x => OtherState x
  end.

(** *** Pytrees: the children of a node *)

(** The loop of [unflatten_from] over the children of a node. *)
Definition unflatten_children {A : Type} (cs : list (string * treedef)) (xs : list A)
  : option (list (string * pytree A) * list A) :=
  (fix go (cs : list (string * treedef)) (xs : list A)
     : option (list (string * pytree A) * list A) :=
     match cs with
     | [] => Some ([], xs)
     | c :: cs' =>
         match unflatten_from (snd c) xs with
         | Some (t, xs1) =>
             match go cs' xs1 with
             | Some (ts, xs2) => Some ((fst c, t) :: ts, xs2)
             | None => None
             end
         | None => None
         end
     end) cs xs.

(** *** Moving averages of a value and of its square *)



(** *** The prologue of [train]

    The values that [train] computes before its loop, by name. *)

Section TrainPrologue.
Context {Key OptState Params BatchStats MetricsState MetricsConfig Batch Collection V
         Callback : Type}.
Context `{JaxRuntime} `{Prng Key} `{MetricScalar V}.
Context `{EvalEnv Params BatchStats Batch Collection V}.
Context `{TrainEnv Key OptState Params BatchStats MetricsState MetricsConfig Batch V Callback}.

Local Abbreviation tstate := (train_state OptState Params BatchStats MetricsState).
Local Abbreviation tevent := (event Key OptState Params BatchStats MetricsState V).
Local Abbreviation report_t := (pydict (report_value V)).
Local Abbreviation targs := (train_args MetricsConfig Callback).
Local Abbreviation lvars := (loop_vars OptState Params BatchStats MetricsState).

(** The seed that the dataset is built from. *)
Definition train_seed (a : targs) (rng : Key) : Key :=
  if snd (train_restored a rng)
  then random_fold_in (train_data_rng rng) (global_step (fst (train_restored a rng)))
  else train_data_rng rng.

Definition train_eval_batch_size (a : targs) : nat :=
  match eval_batch_size a with
  | None => batch_size (hps a)
  | Some n => n
  end.

Definition train_dataset (a : targs) (rng : Key) : Dataset Batch :=
  dataset_builder (train_seed a rng) (batch_size (hps a)) (train_eval_batch_size a).

(** The state that the loop starts from: what the checkpoint module
    returned, with the preemption counter raised after a restore. *)
Definition train_start (a : targs) (rng : Key) : tstate :=
  let restored := fst (train_restored a rng) in
  {| optimizer_state := optimizer_state restored; params := params restored;
     batch_stats := batch_stats restored; metrics_state := metrics_state restored;
     global_step := global_step restored; sum_train_cost := sum_train_cost restored;
     preemption_count :=
       if snd (train_restored a rng) then preemption_count restored + 1
       else preemption_count restored |}.

(** The key that [update] is given, and the one the callbacks are seeded
    from. *)
Definition train_update_rng (rng : Key) : Key :=
  fst (random_split (random_fold_in (fst (random_split (fst (random_split rng))))
                                    process_index)).

Definition train_callback_rng (rng : Key) : Key :=
  snd (random_split (random_fold_in (fst (random_split (fst (random_split rng))))
                                    process_index)).

Definition train_callbacks (a : targs) (rng : Key)
  : list (Params -> BatchStats -> nat -> report_t) :=
  let callback_configs :=
    match callback_configs a with
    | None => []
    | Some l => l
    end in
  map (fun rc => get_callback (snd rc) (params (train_start a rng))
                   (batch_stats (train_start a rng)) (train_dataset a rng) (fst rc))
      (zip (random_split_n (train_callback_rng rng) (length callback_configs))
           callback_configs).

Definition train_loop_vars (a : targs) (rng : Key) : lvars :=
  {| lv_state := train_start a rng;
     lv_prev_eval_step := global_step (train_start a rng);
     lv_checkpointed_expert :=
       current_expert
         (optimizer_init_fn (fst (initialize (snd (random_split rng)))));
     lv_grad_norm := None |}.

(** The batches that the loop goes through. *)
Definition train_batches (a : targs) (rng : Key) : list Batch :=
  islice (train_iterator_fn (train_dataset a rng)) (global_step (train_start a rng))
         (num_train_steps a).

(** [train] from its two assertions on, once the optimizer is there. *)
Definition train_started (a : targs) (rng : Key) : traced tevent unit :=
  if batch_sizes_ok a then
    _ <<~ emit (BuildDataset (train_seed a rng)) ;;
    looped <<~ train_loop a (train_dataset a rng) (train_callbacks a rng)
                 (train_update_rng rng) (global_step (train_start a rng))
                 (train_batches a rng) (train_loop_vars a rng) ;;
    let (lv, returned) := looped in
    if returned then traced_ret tt
    else
      _ <<~ (if negb (Nat.eqb (lv_prev_eval_step lv) (num_train_steps a)) then
               yielded <<~ evaluate_and_yield a (train_dataset a rng) (train_callbacks a rng)
                             (global_step (train_start a rng))
                             (lr_fn (global_step (lv_state lv))) false lv ;;
               traced_ret tt
             else traced_ret tt) ;;
      emit WaitForCheckpointSave
  else ([], Raise (if Nat.eqb device_count 0 then ZeroDivisionError else AssertionError)).

(** The state that [evaluate_and_yield] evaluates, reports and saves:
    the state of the loop with its batch-norm statistics synchronised. *)
Definition synced (st : tstate) : tstate :=
  with_batch_stats st (_maybe_sync_batchnorm_stats (batch_stats st)).

(** The events of an evaluation that got as far as its [yield]. *)
Definition yield_events (a : targs) (st : tstate) (report : report_t) : list tevent :=
  Yield report :: (if Nat.eqb process_index 0 then [SaveCheckpoint (train_dir a) st] else []).

(** The events with which every pass through the loop body starts. *)
Definition update_events (a : targs) (st : tstate) (lr : R) : list tevent :=
  (if existsb (Nat.eqb (global_step st)) (checkpoint_steps a) && Nat.eqb process_index 0
   then [SaveCheckpoint (checkpoint_dir a) st] else []) ++ [RunUpdate (global_step st) lr].

(** The learning rate of a step. *)
Definition step_lr (a : targs) (st : tstate) : R :=
  match expert_learning_rate (hps a) (current_expert (optimizer_state st)) with
  | Some lr => lr
  | None => lr_fn (global_step st)
  end.

(** A checkpoint is written by process 0, into the training directory or,
    at a step of [checkpoint_steps], into its [checkpoints] directory. *)
Definition checkpoint_ok (a : targs) (e : tevent) : Prop :=
  match e with
  | SaveCheckpoint dir st =>
      process_index = 0 /\
      (dir = train_dir a \/
       (dir = checkpoint_dir a /\ In (global_step st) (checkpoint_steps a)))
  | _ => True
  end.

(** On process 0 every report is followed at once by the checkpoint of
    the state it reports on, and every checkpoint of [checkpoint_steps] by
    the update of its step. *)
Definition saves_in_place (a : targs) (es : list tevent) : Prop :=
  forall i,
    (forall report, es !! i = Some (Yield report) -> process_index = 0 ->
       exists st, es !! S i = Some (SaveCheckpoint (train_dir a) st) /\
                  dict_get report "global_step" = Some (Int (global_step st))) /\
    (forall st, es !! i = Some (SaveCheckpoint (checkpoint_dir a) st) ->
       exists lr, es !! S i = Some (RunUpdate (global_step st) lr)).

Definition is_wait (e : tevent) : bool :=
  match e with WaitForCheckpointSave => true | _ => false end.

End TrainPrologue.

(** *** Metrics with a NaN

    Scalars are numbers, 0 standing for NaN; every collection computes to
    a loss, an error rate that is NaN and an accuracy that is NaN. *)

Definition toy_nan_scalar : MetricScalar nat := {| isnan := fun v => Nat.eqb v 0 |}.

Definition toy_nan_eval : EvalEnv unit unit unit unit nat :=
  {| shard := fun b => b;
     evaluate_batch_pmapped := fun _ _ _ => tt;
     merge := fun _ _ => tt;
     compute := fun _ => [("loss", 1); ("error_rate", 0); ("accuracy", 0)] |}.

(** *** A run that does not start

    The resumed run of above, asked for two steps only, fewer than the
    checkpoint has done. *)


(** ** Gradient transformations ([optimizer_lib/transform.py])

    A transformation is the pair of its init and update functions; the
    update function returns the transformed updates and the new state, or
    raises.  Beyond the conventions of above: a division by zero and the
    square root of a negative number, which give an infinity or NaN in
    the code, are not modelled; the properties of the transformations
    carry the hypotheses that keep them away. *)

Module Transform.

Local Open Scope R_scope.

Record GradientTransformation (S : Type) : Type := {
  init_fn : pytree array -> S;
  update_fn : pytree array -> S -> option (pytree array) -> result (pytree array * S)
}.

Arguments init_fn {S} g params.
Arguments update_fn {S} g updates state params.

(** An [int32] value: the sum of two of them wraps around. *)
Definition int32 (z : Z) : Z := ((z + 2 ^ 31) mod 2 ^ 32 - 2 ^ 31)%Z.

(** The exponential moving average of the [order]-th moment. *)
Definition _update_moment (updates moments : pytree array) (decay : R) (order : nat)
  : result (pytree array) :=
  tree_map2 (zip_with (fun g t => (1 - decay) * g ^ order + decay * t)) updates moments.

Definition _bias_correction (moment : pytree array) (decay : R) (count : Z) : pytree array :=
  let beta := 1 - powerRZ decay count in
  tree_map (map (fun t => t / beta)) moment.

(** [t] is the count as a float plus one, a whole number: the two powers
    are powers with an integer exponent. *)
Definition _bias_corrected_decay (decay : R) (count : Z) : R :=
  let t := (count + 1)%Z in
  decay * (1 - powerRZ decay (t - 1)) / (1 - powerRZ decay t).

(** The quotient [u / (sqrt(v + eps_root) + eps)] of all the
    preconditioners. *)
Definition rescale (eps eps_root : R) (u v : array) : array :=
  zip_with (fun u v => u / (sqrt (v + eps_root) + eps)) u v.

Record PreconditionBySecondMomentCoordinateWiseState : Type := {
  precondition_count : Z;
  precondition_nu : pytree array
}.

Definition precondition_by_rms (decay eps eps_root : R) (debias : bool)
  : GradientTransformation PreconditionBySecondMomentCoordinateWiseState :=
  {| init_fn := fun params =>
       {| precondition_count := 0; precondition_nu := tree_map zeros_like params |};
     update_fn := fun updates state _ =>
       nu <~ _update_moment updates (precondition_nu state) decay 2 ;;
       let count := int32 (precondition_count state + 1) in
       let nu_hat := if negb debias then nu else _bias_correction nu decay count in
       updates <~ tree_map2 (rescale eps eps_root) updates nu_hat ;;
       Ok (updates, {| precondition_count := count; precondition_nu := nu |}) |}.

(** [jnp.sign] *)
Definition sign (x : R) : R :=
  if Rlt_dec 0 x then 1 else if Rlt_dec x 0 then -1 else 0.

Definition precondition_by_yogi (b2 eps eps_root initial_accumulator_value : R)
    (debias : bool)
  : GradientTransformation PreconditionBySecondMomentCoordinateWiseState :=
  {| init_fn := fun params =>
       {| precondition_count := 0;
          precondition_nu := tree_map (map (fun _ => initial_accumulator_value)) params |};
     update_fn := fun updates state _ =>
       nu <~ tree_map2 (zip_with (fun g v => v - (1 - b2) * sign (v - g ^ 2) * g ^ 2))
               updates (precondition_nu state) ;;
       let count := int32 (precondition_count state + 1) in
       let nu_hat := if negb debias then nu else _bias_correction nu b2 count in
       updates <~ tree_map2 (rescale eps eps_root) updates nu_hat ;;
       Ok (updates, {| precondition_count := count; precondition_nu := nu |}) |}.

Definition precondition_by_amsgrad (b2 eps eps_root : R)
  : GradientTransformation PreconditionBySecondMomentCoordinateWiseState :=
  {| init_fn := fun params =>
       {| precondition_count := 0; precondition_nu := tree_map zeros_like params |};
     update_fn := fun updates state _ =>
       nu <~ _update_moment updates (precondition_nu state) b2 2 ;;
       let count := int32 (precondition_count state + 1) in
       nu_hat <~ tree_map2 (zip_with Rmax) nu (precondition_nu state) ;;
       updates <~ tree_map2 (rescale eps eps_root) updates nu_hat ;;
       Ok (updates, {| precondition_count := count; precondition_nu := nu |}) |}.

Record ScaleByAMSGradState : Type := {
  amsgrad_mu : pytree array;
  amsgrad_nu : pytree array
}.

Definition scale_by_amsgrad (b1 b2 eps eps_root : R)
  : GradientTransformation ScaleByAMSGradState :=
  {| init_fn := fun params =>
       {| amsgrad_mu := tree_map zeros_like params;
          amsgrad_nu := tree_map zeros_like params |};
     update_fn := fun updates state _ =>
       mu <~ _update_moment updates (amsgrad_mu state) b1 1 ;;
       nu <~ _update_moment updates (amsgrad_nu state) b2 2 ;;
       nu_hat <~ tree_map2 (zip_with Rmax) nu (amsgrad_nu state) ;;
       updates <~ tree_map2 (rescale eps eps_root) mu nu_hat ;;
       Ok (updates, {| amsgrad_mu := mu; amsgrad_nu := nu |}) |}.

Record ScaleByAdamState : Type := {
  adam_count : Z;
  adam_mu : pytree array;
  adam_nu : pytree array
}.

Definition scale_by_adam (b1 b2 eps eps_root : R) (debias use_decay_bias_correction : bool)
  : GradientTransformation ScaleByAdamState :=
  {| init_fn := fun params =>
       {| adam_count := 0;
          adam_mu := tree_map zeros_like params;
          adam_nu := tree_map zeros_like params |};
     update_fn := fun updates state _ =>
       hats <~ (if use_decay_bias_correction then
                  if debias then
                    Raise (ValueError
                             "Adam error: decay bias correction and moment biascorrection cannot be combined.")
                  else Ok (_bias_corrected_decay b1 (adam_count state),
                           _bias_corrected_decay b2 (adam_count state))
                else Ok (b1, b2)) ;;
       let b1_hat := fst hats in
       let b2_hat := snd hats in
       mu <~ _update_moment updates (adam_mu state) b1_hat 1 ;;
       nu <~ _update_moment updates (adam_nu state) b2_hat 2 ;;
       let count := int32 (adam_count state + 1) in
       let mu_hat := if negb debias then mu else _bias_correction mu b1 count in
       let nu_hat := if negb debias then nu else _bias_correction nu b2 count in
       updates <~ tree_map2 (rescale eps eps_root) mu_hat nu_hat ;;
       Ok (updates, {| adam_count := count; adam_mu := mu; adam_nu := nu |}) |}.

(** [_sanitize_values] of a scalar; [None] stands for NaN and for the
    two infinities. *)
Definition _sanitize_values (x : option R) (replacement : R) : R := default replacement x.

(** [jnp.mean]: NaN for an array without entries. *)
Definition jnp_mean (x : array) : option R :=
  if Nat.eqb (length x) 0 then None else Some (np_mean x).

(** Over [1e8] entries the rows are summed first and then their sums. *)
Definition _reduce_mean (array : array) : option R :=
  let num_elements := length array in
  if (10 ^ 8 <? Z.of_nat num_elements)%Z then Some (arr_sum array / INR num_elements)
  else jnp_mean array.

Definition _reduce_rms (array : array) : option R :=
  let sq := square array in
  let sq_mean := _reduce_mean sq in
  option_map sqrt sq_mean.

Definition _clip_update (update : array) (clip_threshold : R) : array :=
  let mean_update := _sanitize_values (_reduce_rms update) 1 in
  let denom := Rmax 1 (mean_update / clip_threshold) in
  map (fun u => u / denom) update.

Definition clip_updates (clip_threshold : R) : GradientTransformation unit :=
  {| init_fn := fun _ => tt;
     update_fn := fun updates state _ =>
       Ok (tree_map (fun x => _clip_update x clip_threshold) updates, state) |}.

(** [np.argsort] is an interface: for a shape it returns the indices of
    the dimensions in the order of their sizes, and which of two
    dimensions of one size comes first is up to it. *)
Class Numpy : Type := {
  argsort : list nat -> list nat
}.

(** [xs[-k]] for [1 <= k <= len(xs)] *)
Definition from_end (xs : list nat) (k : nat) : nat := nth (length xs - k) xs O.

Definition _factored_dims `{Numpy} (shape : list nat) (factored : bool)
    (min_dim_size_to_factor : nat) : option (nat * nat) :=
  if negb factored || Nat.ltb (length shape) 2 then None
  else
    let sorted_dims := argsort shape in
    if Nat.ltb (nth (from_end sorted_dims 2) shape O) min_dim_size_to_factor then None
    else Some (from_end sorted_dims 2, from_end sorted_dims 1).

(** *** Runs of a transformation *)

(** The updates that a transformation returns for a sequence of
    gradients, and the state after them; the error of the first update
    that raises. *)
Fixpoint run {S : Type} (tx : GradientTransformation S) (state : S)
    (grads : list (pytree array)) : result (list (pytree array) * S) :=
  match grads with
  | [] => Ok ([], state)
  | g :: rest =>
      step <~ update_fn tx g state None ;;
      later <~ run tx (snd step) rest ;;
      Ok (fst step :: fst later, snd later)
  end.

(** Every entry of every leaf is at least 0. *)
Definition tree_nonneg (t : pytree array) : Prop :=
  Forall (Forall (fun v => 0 <= v)) (tree_leaves t).

(** Two trees of arrays of one structure whose leaves have the same
    sizes. *)
Definition same_shape (t1 t2 : pytree array) : Prop :=
  tree_map (@length R) t1 = tree_map (@length R) t2.

Local Close Scope R_scope.

End Transform.

(** * Part II: properties *)

(** ** Results and dictionaries *)

Lemma result_bind_Ok {A B : Type} (m : result A) (k : A -> result B) (b : B) :
  result_bind m k = Ok b <-> exists a, m = Ok a /\ k a = Ok b.
Proof.
  destruct m as [a|e]; simpl; split.
  - intros Hk; exists a; auto.
  - intros (a' & Ha & Hk); injection Ha as ->; exact Hk.
  - discriminate.
  - intros (a' & Ha & _); discriminate.
Qed.

Lemma string_app_inj (p a b : string) : (p ++ a)%string = (p ++ b)%string -> a = b.
Proof.
  induction p as [|c p IH]; simpl; [auto|].
  intros Heq. injection Heq as Heq. auto.
Qed.

Section DictFacts.
Context {V : Type}.
Implicit Types (d : pydict V) (k : string) (v : V).

Lemma dict_get_set_eq d k v : dict_get (dict_set d k v) k = Some v.
Proof.
  induction d as [|[k' v'] d IH]; simpl.
  - now rewrite String.eqb_refl.
  - destruct (String.eqb k' k) eqn:E; simpl; rewrite E; auto.
Qed.

Lemma dict_get_set_ne d k k' v : k <> k' -> dict_get (dict_set d k v) k' = dict_get d k'.
Proof.
  intros Hne. induction d as [|[k0 v0] d IH]; simpl.
  - destruct (String.eqb k k') eqn:E; auto.
    apply String.eqb_eq in E. contradiction.
  - destruct (String.eqb k0 k) eqn:E; simpl.
    + apply String.eqb_eq in E. subst k0.
      destruct (String.eqb k k') eqn:E'; auto.
      apply String.eqb_eq in E'. contradiction.
    + now rewrite IH.
Qed.

Lemma dict_get_In d k v : dict_get d k = Some v -> In (k, v) d.
Proof.
  induction d as [|[k' v'] d IH]; simpl; [discriminate|].
  destruct (String.eqb k' k) eqn:E.
  - apply String.eqb_eq in E. intros [= ->]. subst. now left.
  - auto.
Qed.

Lemma dict_get_None d k : dict_get d k = None <-> ~ In k (dict_keys d).
Proof.
  induction d as [|[k' v'] d IH]; simpl.
  - tauto.
  - destruct (String.eqb k' k) eqn:E.
    + apply String.eqb_eq in E. split; [discriminate | tauto].
    + apply String.eqb_neq in E. tauto.
Qed.

Lemma dict_get_is_Some d k : is_Some (dict_get d k) <-> In k (dict_keys d).
Proof.
  destruct (dict_get d k) as [v|] eqn:E.
  - split; [intros _|eauto].
    destruct (in_dec String.string_dec k (dict_keys d)) as [Hin|Hout]; [assumption|].
    apply dict_get_None in Hout. congruence.
  - split; [intros [v Hv]; discriminate|].
    intros Hin. apply dict_get_None in E. contradiction.
Qed.

Lemma dict_keys_set d k v :
  forall k', In k' (dict_keys (dict_set d k v)) <-> k' = k \/ In k' (dict_keys d).
Proof.
  intros k'. rewrite <- !dict_get_is_Some.
  destruct (String.string_dec k k') as [->|Hne].
  - rewrite dict_get_set_eq. split; [auto | intros _; eauto].
  - rewrite dict_get_set_ne by assumption. split; [auto|].
    intros [->|Hs]; [contradiction | assumption].
Qed.

(** [d.update(d2)]: the last binding of a key in [d2] wins, and the keys
    that [d2] does not have keep their value. *)
Lemma dict_get_update_other d d2 k :
  ~ In k (dict_keys d2) -> dict_get (dict_update d d2) k = dict_get d k.
Proof.
  unfold dict_update. revert d.
  induction d2 as [|[k2 v2] d2 IH]; intros d Hout; simpl in *; [reflexivity|].
  rewrite IH by tauto. apply dict_get_set_ne. tauto.
Qed.

Lemma dict_get_update_here d d2 k v :
  List.NoDup (dict_keys d2) -> In (k, v) d2 -> dict_get (dict_update d d2) k = Some v.
Proof.
  unfold dict_update. revert d.
  induction d2 as [|[k2 v2] d2 IH]; intros d Hnd Hin; simpl in *; [contradiction|].
  apply List.NoDup_cons_iff in Hnd as [Hfresh Hnd].
  destruct Hin as [[= -> ->]|Hin].
  - fold (dict_update (dict_set d k v) d2).
    rewrite dict_get_update_other by assumption. apply dict_get_set_eq.
  - now apply IH.
Qed.

End DictFacts.

(** ** Device groups *)

Lemma range_seq a n : range a (a + n) = seq a n.
Proof. unfold range. f_equal. lia. Qed.

Section Groups.
Context `{JaxRuntime}.

Lemma groups_unfold :
  _get_axis_index_groups =
  map (fun i => seq (i * local_device_count) local_device_count) (seq 0 process_count).
Proof.
  unfold _get_axis_index_groups. cbv zeta. unfold range at 2. rewrite Nat.sub_0_r.
  apply map_ext. intros i. apply range_seq.
Qed.

Lemma groups_length : length _get_axis_index_groups = process_count.
Proof. rewrite groups_unfold, length_map. apply length_seq. Qed.

Lemma groups_nth i :
  i < process_count ->
  nth i _get_axis_index_groups [] = seq (i * local_device_count) local_device_count.
Proof.
  intros Hi. rewrite groups_unfold.
  rewrite (nth_indep _ [] (seq (0 * local_device_count) local_device_count))
    by (rewrite length_map, length_seq; lia).
  rewrite (map_nth (fun i => seq (i * local_device_count) local_device_count)).
  now rewrite seq_nth.
Qed.

Lemma concat_blocks d p a :
  concat (map (fun i => seq (i * d) d) (seq a p)) = seq (a * d) (p * d).
Proof.
  revert a. induction p as [|p IH]; intros a; simpl; [reflexivity|].
  rewrite IH. replace (S a * d) with (a * d + d) by lia.
  now rewrite <- seq_app.
Qed.

Lemma groups_concat :
  concat _get_axis_index_groups = seq 0 (process_count * local_device_count).
Proof. rewrite groups_unfold. apply (concat_blocks local_device_count process_count 0). Qed.

Lemma groups_In g :
  In g _get_axis_index_groups <->
  exists i, i < process_count /\ g = seq (i * local_device_count) local_device_count.
Proof.
  rewrite groups_unfold, in_map_iff. split.
  - intros (i & <- & Hi). apply in_seq in Hi. exists i. split; [lia | reflexivity].
  - intros (i & Hi & ->). exists i. split; [reflexivity|]. apply in_seq. lia.
Qed.

Lemma block_host i k :
  In k (seq (i * local_device_count) local_device_count) -> host_of k = i.
Proof.
  rewrite in_seq. intros Hk. unfold host_of. symmetry.
  apply (Nat.div_unique k local_device_count i (k - i * local_device_count)); lia.
Qed.

Lemma groups_same_host g k k' :
  In g _get_axis_index_groups -> In k g -> In k' g -> host_of k' = host_of k.
Proof.
  intros Hg Hk Hk'. apply groups_In in Hg as (i & _ & ->).
  now rewrite (block_host i k), (block_host i k').
Qed.

End Groups.

(** ** The averaging in the training step *)

Section StepAveraging.
Context {Inner Batch BatchStats Key MetricsState : Type}.
Context `{JaxRuntime} `{Prng Key} `{Autodiff (gmap string BatchStats)}.

Lemma lax_pmean_same_host (axis axis' : axis_env cost_and_grad) (x : cost_and_grad) :
  axis_index axis = axis_index axis' ->
  (forall j, host_of j = host_of (axis_index axis) -> axis_peers axis j = axis_peers axis' j) ->
  lax_pmean axis x _get_axis_index_groups = lax_pmean axis' x _get_axis_index_groups.
Proof.
  intros Hidx Hpeers. unfold lax_pmean. rewrite <- Hidx.
  destruct (List.find _ _) as [g|] eqn:Hfind; [|reflexivity].
  apply find_some in Hfind as [Hg Hme].
  apply existsb_exists in Hme as (me & Hme & Heq).
  apply Nat.eqb_eq in Heq. subst me.
  replace (map (contribution axis' x) g) with (map (contribution axis x) g); [reflexivity|].
  apply map_ext_in. intros j Hj. unfold contribution. rewrite <- Hidx.
  destruct (Nat.eqb j (axis_index axis)); [reflexivity|].
  apply Hpeers. now apply (groups_same_host g).
Qed.

Lemma update_same_host (axis axis' : axis_env cost_and_grad)
    (optimizer_state : opt_state Inner) (params : pytree array)
    (batch_stats : option BatchStats) (metrics_state : option MetricsState)
    (batch : Batch) (step : nat) (lr : R) (rng : Key) (local_device_index : nat)
    training_cost grad_clip optimizer_update_fn metrics_update_fn :
  axis_index axis = axis_index axis' ->
  (forall j, host_of j = host_of (axis_index axis) -> axis_peers axis j = axis_peers axis' j) ->
  update axis optimizer_state params batch_stats metrics_state batch step lr rng
    local_device_index training_cost grad_clip optimizer_update_fn metrics_update_fn =
  update axis' optimizer_state params batch_stats metrics_state batch step lr rng
    local_device_index training_cost grad_clip optimizer_update_fn metrics_update_fn.
Proof.
  intros Hidx Hpeers. unfold update.
  destruct (_inject_learning_rate optimizer_state lr) as [s outcome].
  destruct outcome as [[]|e]; simpl; [|reflexivity].
  destruct (value_and_grad _ params) as [[cost aux] grad].
  now rewrite (lax_pmean_same_host axis axis').
Qed.

(** C9: [_get_axis_index_groups] returns [process_count] groups; group [i]
    is the contiguous list [i*num_d, ..., i*num_d + num_d - 1]; together the
    groups list every device index below [num_p*num_d] exactly once, so
    they are disjoint; all members of a group belong to one host; and the
    averaged cost and gradient of [update], taken over these groups, depend
    on no device of another host. *)
Theorem axis_index_groups_per_host :
  let num_d := local_device_count in
  let num_p := process_count in
  length _get_axis_index_groups = num_p /\
  (forall i, i < num_p -> nth i _get_axis_index_groups [] = seq (i * num_d) num_d) /\
  concat _get_axis_index_groups = seq 0 (num_p * num_d) /\
  (forall i j k, i < num_p -> j < num_p ->
     In k (nth i _get_axis_index_groups []) -> In k (nth j _get_axis_index_groups []) ->
     i = j) /\
  (forall g k k', In g _get_axis_index_groups -> In k g -> In k' g ->
     host_of k' = host_of k) /\
  (forall (axis axis' : axis_env cost_and_grad)
          (optimizer_state : opt_state Inner) (params : pytree array)
          (batch_stats : option BatchStats) (metrics_state : option MetricsState)
          (batch : Batch) (step : nat) (lr : R) (rng : Key) (local_device_index : nat)
          training_cost grad_clip optimizer_update_fn metrics_update_fn,
     axis_index axis = axis_index axis' ->
     (forall j, host_of j = host_of (axis_index axis) ->
        axis_peers axis j = axis_peers axis' j) ->
     update axis optimizer_state params batch_stats metrics_state batch step lr rng
       local_device_index training_cost grad_clip optimizer_update_fn metrics_update_fn =
     update axis' optimizer_state params batch_stats metrics_state batch step lr rng
       local_device_index training_cost grad_clip optimizer_update_fn metrics_update_fn).
Proof.
  cbv zeta. split; [apply groups_length|].
  split; [apply groups_nth|].
  split; [apply groups_concat|].
  split.
  - intros i j k Hi Hj Hki Hkj.
    rewrite groups_nth in Hki, Hkj by assumption.
    apply block_host in Hki, Hkj. congruence.
  - split; [apply groups_same_host | apply update_same_host].
Qed.

End StepAveraging.

(** The example in the comment of [_get_axis_index_groups]: 4 processes of
    8 devices. *)
Example groups_8_by_4 :
  @_get_axis_index_groups
    {| local_device_count := 8; process_count := 4; process_index := 0; device_count := 32 |}
  = [seq 0 8; seq 8 8; seq 16 8; seq 24 8].
Proof. reflexivity. Qed.

(** ** Learning-rate injection *)

Section Injection.
Context {Inner : Type}.
Implicit Types (s base : opt_state Inner) (hp : gmap string R) (lr : R).

Lemma hp_mem_true k hp : hp_mem k hp = true <-> is_Some (hp !! k).
Proof.
  unfold hp_mem. destruct (hp !! k) as [v|]; split; try discriminate; eauto.
  intros [v Hv]. discriminate.
Qed.

Lemma inject_accepted s lr :
  is_Some (learning_rate_slot s) ->
  snd (_inject_learning_rate s lr) = Ok tt /\
  learning_rate_slot (fst (_inject_learning_rate s lr)) = Some lr.
Proof.
  induction s as [count hp inner | base IH hp acc | x]; simpl; intros Hslot.
  - apply hp_mem_true in Hslot. rewrite Hslot. simpl.
    split; [reflexivity | apply lookup_insert_eq].
  - destruct (_inject_learning_rate base lr) as [base' outcome]. simpl in *. auto.
  - destruct Hslot as [v Hv]. discriminate.
Qed.

Lemma inject_raises_unchanged s lr e :
  snd (_inject_learning_rate s lr) = Raise e ->
  fst (_inject_learning_rate s lr) = s /\ exists msg, e = ValueError msg.
Proof.
  induction s as [count hp inner | base IH hp acc | x]; simpl.
  - destruct (hp_mem "learning_rate" hp); discriminate.
  - destruct (_inject_learning_rate base lr) as [base' outcome]. simpl in *.
    intros Hr. destruct (IH Hr) as [-> Hmsg]. auto.
  - intros [= <-]. eauto.
Qed.

(** C7: injecting [lr] into an [InjectHyperparamsState] that has a
    ['learning_rate'] slot makes that slot read [lr]; on a
    [GradientAccumulatorState] the injection is the injection into its
    [base_state], with the same guarantee; on any other state it raises the
    [ValueError] that the specification calls an unsupported-state error;
    and whenever it raises, the state is left as it was. *)
Theorem inject_learning_rate_contract :
  (forall count hp (inner : Inner) lr,
     is_Some (hp !! "learning_rate") ->
     _inject_learning_rate (InjectHyperparamsState count hp inner) lr =
       (InjectHyperparamsState count (<["learning_rate" := lr]> hp) inner, Ok tt) /\
     learning_rate_slot
       (fst (_inject_learning_rate (InjectHyperparamsState count hp inner) lr)) = Some lr) /\
  (forall base hp (acc : Inner) lr,
     _inject_learning_rate (GradientAccumulatorState base hp acc) lr =
       (GradientAccumulatorState (fst (_inject_learning_rate base lr)) hp acc,
        snd (_inject_learning_rate base lr)) /\
     (is_Some (learning_rate_slot base) ->
      snd (_inject_learning_rate (GradientAccumulatorState base hp acc) lr) = Ok tt /\
      learning_rate_slot
        (fst (_inject_learning_rate (GradientAccumulatorState base hp acc) lr)) = Some lr)) /\
  (forall (x : Inner) lr,
     exists msg, _inject_learning_rate (OtherState x) lr = (OtherState x, Raise (ValueError msg))) /\
  (forall s lr e,
     snd (_inject_learning_rate s lr) = Raise e ->
     fst (_inject_learning_rate s lr) = s /\ exists msg, e = ValueError msg).
Proof.
  repeat split.
  - simpl. apply hp_mem_true in H. now rewrite H.
  - now apply (inject_accepted (InjectHyperparamsState count hp inner)).
  - simpl. now destruct (_inject_learning_rate base lr).
  - now apply (inject_accepted (GradientAccumulatorState base hp acc)).
  - now apply (inject_accepted (GradientAccumulatorState base hp acc)).
  - simpl. eauto.
  - now apply (inject_raises_unchanged s lr e).
  - now apply (inject_raises_unchanged s lr e).
Qed.

End Injection.

(** ** Evaluation *)

Section Evaluation.
Context {Params BatchStats Batch Collection V : Type}.
Context `{MetricScalar V} `{EvalEnv Params BatchStats Batch Collection V}.
Implicit Types (params : Params) (batch_stats : BatchStats) (batch_iter : list Batch).

Lemma evaluate_batches_Some params batch_stats m batch_iter :
  evaluate_batches params batch_stats (Some m) batch_iter =
  Some (fold_left (fun m b => merge m (evaluate_batch_pmapped params batch_stats (shard b)))
                  batch_iter m).
Proof.
  revert m. induction batch_iter as [|b rest IH]; intros m; simpl; [reflexivity|].
  apply IH.
Qed.

Lemma evaluate_batches_cons params batch_stats first rest :
  evaluate_batches params batch_stats None (first :: rest) =
  Some (merged_metrics params batch_stats first rest).
Proof. simpl. apply evaluate_batches_Some. Qed.

Lemma raise_on_nan_Ok (items : pydict V) :
  raise_on_nan items = Ok tt <-> forall key val, In (key, val) items -> isnan val = false.
Proof.
  induction items as [|[k v] items IH]; simpl.
  - split; [intros _ ? ? [] | reflexivity].
  - destruct (isnan v) eqn:Hv.
    + split; [discriminate|]. intros Hall. specialize (Hall k v (or_introl eq_refl)). congruence.
    + rewrite IH. split.
      * intros Hall key val [[= <- <-]|Hin]; eauto.
      * intros Hall key val Hin. eauto.
Qed.

Lemma raise_on_nan_Raise (items : pydict V) e :
  raise_on_nan items = Raise e ->
  has_nan items /\ exists msg, e = TrainingDivergedError msg.
Proof.
  induction items as [|[k v] items IH]; simpl; [discriminate|].
  destruct (isnan v) eqn:Hv.
  - intros [= <-]. split; [|eauto]. exists k, v. split; [now left | assumption].
  - intros Hr. destruct (IH Hr) as [(key & val & Hin & Hnan) Hmsg].
    split; [|assumption]. exists key, val. split; [now right | assumption].
Qed.

Lemma raise_on_nan_cases (items : pydict V) :
  (raise_on_nan items = Ok tt /\ ~ has_nan items) \/
  (has_nan items /\ exists msg, raise_on_nan items = Raise (TrainingDivergedError msg)).
Proof.
  destruct (raise_on_nan items) as [[]|e] eqn:Hr.
  - left. split; [reflexivity|].
    intros (key & val & Hin & Hnan).
    rewrite (proj1 (raise_on_nan_Ok items) Hr key val Hin) in Hnan. discriminate.
  - right. destruct (raise_on_nan_Raise items e Hr) as [Hnan [msg ->]]. eauto.
Qed.

(** C4: [evaluate] raises, and what it raises is a [TrainingDivergedError],
    exactly when the iterator is not empty and some scalar that [compute]
    gives for the merged metrics is NaN; on a non-empty iterator with no
    NaN it returns the computed mapping. *)
Theorem evaluate_raises_iff_nan params batch_stats batch_iter :
  ((exists msg, evaluate params batch_stats batch_iter = Raise (TrainingDivergedError msg)) <->
   (exists first rest, batch_iter = first :: rest /\
      has_nan (compute (merged_metrics params batch_stats first rest)))) /\
  (forall e, evaluate params batch_stats batch_iter = Raise e -> is_diverged e = true) /\
  (forall first rest, batch_iter = first :: rest ->
     ~ has_nan (compute (merged_metrics params batch_stats first rest)) ->
     evaluate params batch_stats batch_iter =
       Ok (Some (compute (merged_metrics params batch_stats first rest)))).
Proof.
  unfold evaluate. destruct batch_iter as [|first rest].
  - simpl. split; [split|split].
    + intros [msg Hmsg]. discriminate.
    + intros (f & r & Hfr & _). discriminate.
    + discriminate.
    + discriminate.
  - rewrite evaluate_batches_cons.
    destruct (raise_on_nan_cases (compute (merged_metrics params batch_stats first rest)))
      as [[Hok Hnone] | [Hnan [msg Hmsg]]].
    + rewrite Hok. simpl. split; [split|split].
      * intros [msg Hmsg]. discriminate.
      * intros (f & r & [= <- <-] & Hnan). contradiction.
      * discriminate.
      * intros f r [= <- <-] _. reflexivity.
    + rewrite Hmsg. simpl. split; [split|split].
      * intros _. eauto.
      * intros _. eauto.
      * intros e [= <-]. reflexivity.
      * intros f r [= <- <-] Hno. contradiction.
Qed.

(** The splits of [eval_metrics] *)

Lemma merge_prefix_other (d1 d2 : pydict V) (prefix k' : string) (ks : list string) :
  (forall k, In k ks -> (prefix ++ k)%string <> k') ->
  dict_get
    (fold_left (fun d1 key => match dict_get d2 key with
                              | Some v => dict_set d1 (prefix ++ key) v
                              | None => d1
                              end) ks d1) k' = dict_get d1 k'.
Proof.
  revert d1. induction ks as [|k0 ks IH]; intros d1 Hne; simpl; [reflexivity|].
  rewrite IH by (intros k Hk; apply Hne; now right).
  destruct (dict_get d2 k0); [|reflexivity].
  apply dict_get_set_ne. apply Hne. now left.
Qed.

Lemma merge_prefix_here (d1 d2 : pydict V) (prefix k : string) (v : V) (ks : list string) :
  In k ks -> dict_get d2 k = Some v ->
  dict_get
    (fold_left (fun d1 key => match dict_get d2 key with
                              | Some v => dict_set d1 (prefix ++ key) v
                              | None => d1
                              end) ks d1) (prefix ++ k) = Some v.
Proof.
  revert d1. induction ks as [|k0 ks IH]; intros d1 Hin Hget; simpl; [contradiction|].
  destruct (in_dec String.string_dec k ks) as [Hks|Hks]; [now apply IH|].
  destruct Hin as [->|Hin]; [|contradiction].
  rewrite merge_prefix_other.
  - rewrite Hget. apply dict_get_set_eq.
  - intros k1 Hk1 Heq. apply string_app_inj in Heq. congruence.
Qed.

(** [_merge_and_apply_prefix d1 d2 prefix] maps [prefix + k] to [d2[k]] for
    the keys of [d2] and is [d1] elsewhere. *)
Lemma merge_and_apply_prefix_get (d1 d2 : pydict V) (prefix : string) :
  (forall k, dict_get (_merge_and_apply_prefix d1 d2 prefix) (prefix ++ k) =
             match dict_get d2 k with
             | Some v => Some v
             | None => dict_get d1 (prefix ++ k)
             end) /\
  (forall k', (forall k, (prefix ++ k)%string <> k') ->
              dict_get (_merge_and_apply_prefix d1 d2 prefix) k' = dict_get d1 k').
Proof.
  unfold _merge_and_apply_prefix. split.
  - intros k. destruct (dict_get d2 k) as [v|] eqn:Hget.
    + apply merge_prefix_here; [|assumption].
      apply dict_get_is_Some. eauto.
    + apply merge_prefix_other. intros k1 Hk1 Heq.
      apply string_app_inj in Heq. subst k1.
      apply dict_get_None in Hget. contradiction.
  - intros k' Hne. apply merge_prefix_other. auto.
Qed.

Lemma merge_prefix_keys (d1 d2 : pydict V) (prefix key : string) (ks : list string) :
  In key (dict_keys
    (fold_left (fun d1 key => match dict_get d2 key with
                              | Some v => dict_set d1 (prefix ++ key) v
                              | None => d1
                              end) ks d1)) ->
  In key (dict_keys d1) \/
  exists k, In k (dict_keys d2) /\ key = (prefix ++ k)%string.
Proof.
  revert d1. induction ks as [|k0 ks IH]; intros d1; simpl; [auto|].
  intros Hin. apply IH in Hin as [Hin|Hin]; [|auto].
  destruct (dict_get d2 k0) as [v|] eqn:Hget; [|auto].
  apply dict_keys_set in Hin as [->|Hin]; [|auto].
  right. exists k0. split; [|reflexivity]. apply dict_get_is_Some. eauto.
Qed.

Lemma merge_split_here (metrics : pydict V) (sm : option (pydict V)) (s k : string) :
  dict_get (merge_split metrics sm s) ((s ++ "/") ++ k) =
  match split_get sm k with
  | Some v => Some v
  | None => dict_get metrics ((s ++ "/") ++ k)
  end.
Proof.
  destruct sm as [d|]; simpl; [|reflexivity].
  apply merge_and_apply_prefix_get.
Qed.

Lemma merge_split_other (metrics : pydict V) (sm : option (pydict V)) (s key : string) :
  (forall k, ((s ++ "/") ++ k)%string <> key) ->
  dict_get (merge_split metrics sm s) key = dict_get metrics key.
Proof.
  destruct sm as [d|]; simpl; [|reflexivity].
  apply merge_and_apply_prefix_get.
Qed.

Lemma merge_split_keys (metrics : pydict V) (sm : option (pydict V)) (s key : string) :
  In key (dict_keys (merge_split metrics sm s)) ->
  In key (dict_keys metrics) \/
  exists k, is_Some (split_get sm k) /\ key = ((s ++ "/") ++ k)%string.
Proof.
  destruct sm as [d|]; simpl; [|auto].
  intros Hin. apply merge_prefix_keys in Hin as [Hin|(k & Hk & ->)]; [auto|].
  right. exists k. split; [|reflexivity]. now apply dict_get_is_Some.
Qed.

Lemma eval_metrics_unfold params batch_stats (dataset : Dataset Batch) n nt :
  eval_metrics params batch_stats dataset n nt =
  (train_m <~ evaluate params batch_stats (eval_train_epoch dataset nt) ;;
   valid_m <~ evaluate params batch_stats (valid_epoch dataset n) ;;
   test_m <~ evaluate params batch_stats (test_epoch dataset n) ;;
   Ok (merge_split (merge_split (merge_split [] train_m "train") valid_m "valid")
                   test_m "test")).
Proof.
  unfold eval_metrics. simpl.
  destruct (evaluate params batch_stats (eval_train_epoch dataset nt)) as [tr|e];
    simpl; [|reflexivity].
  destruct (evaluate params batch_stats (valid_epoch dataset n)) as [va|e];
    simpl; [|reflexivity].
  destruct (evaluate params batch_stats (test_epoch dataset n)) as [te|e];
    simpl; [|reflexivity].
  destruct tr, va, te; reflexivity.
Qed.

(** C5: on an iterator with no batches [evaluate] returns no metrics;
    [eval_metrics] runs [evaluate] on the train, valid and test iterators in
    that order; its report holds, under the key [split/k], the metric [k]
    of that split, and no other key; and a split whose iterator is empty
    has no key in the report. *)
Theorem eval_metrics_splits params batch_stats (dataset : Dataset Batch) n nt :
  evaluate params batch_stats [] = Ok None /\
  eval_metrics params batch_stats dataset n nt =
    (train_m <~ evaluate params batch_stats (eval_train_epoch dataset nt) ;;
     valid_m <~ evaluate params batch_stats (valid_epoch dataset n) ;;
     test_m <~ evaluate params batch_stats (test_epoch dataset n) ;;
     Ok (merge_split (merge_split (merge_split [] train_m "train") valid_m "valid")
                     test_m "test")) /\
  (forall report, eval_metrics params batch_stats dataset n nt = Ok report ->
     exists train_m valid_m test_m,
       evaluate params batch_stats (eval_train_epoch dataset nt) = Ok train_m /\
       evaluate params batch_stats (valid_epoch dataset n) = Ok valid_m /\
       evaluate params batch_stats (test_epoch dataset n) = Ok test_m /\
       (forall k, dict_get report ("train/" ++ k) = split_get train_m k) /\
       (forall k, dict_get report ("valid/" ++ k) = split_get valid_m k) /\
       (forall k, dict_get report ("test/" ++ k) = split_get test_m k) /\
       (forall key, In key (dict_keys report) ->
          exists k, (is_Some (split_get train_m k) /\ key = ("train/" ++ k)%string) \/
                    (is_Some (split_get valid_m k) /\ key = ("valid/" ++ k)%string) \/
                    (is_Some (split_get test_m k) /\ key = ("test/" ++ k)%string)) /\
       (eval_train_epoch dataset nt = [] -> forall k, dict_get report ("train/" ++ k) = None) /\
       (valid_epoch dataset n = [] -> forall k, dict_get report ("valid/" ++ k) = None) /\
       (test_epoch dataset n = [] -> forall k, dict_get report ("test/" ++ k) = None)).
Proof.
  split; [reflexivity|]. split; [apply eval_metrics_unfold|].
  intros report. rewrite eval_metrics_unfold.
  destruct (evaluate params batch_stats (eval_train_epoch dataset nt)) as [tr|e] eqn:Etr;
    simpl; [|discriminate].
  destruct (evaluate params batch_stats (valid_epoch dataset n)) as [va|e] eqn:Eva;
    simpl; [|discriminate].
  destruct (evaluate params batch_stats (test_epoch dataset n)) as [te|e] eqn:Ete;
    simpl; [|discriminate].
  intros [= <-]. exists tr, va, te.
  assert (Htrain : forall k,
    dict_get (merge_split (merge_split (merge_split [] tr "train") va "valid") te "test")
             ("train/" ++ k) = split_get tr k).
  { intros k.
    rewrite merge_split_other by (intros k'; simpl; discriminate).
    rewrite merge_split_other by (intros k'; simpl; discriminate).
    change ("train/" ++ k)%string with (("train" ++ "/") ++ k)%string.
    rewrite merge_split_here. simpl. now destruct (split_get tr k). }
  assert (Hvalid : forall k,
    dict_get (merge_split (merge_split (merge_split [] tr "train") va "valid") te "test")
             ("valid/" ++ k) = split_get va k).
  { intros k.
    rewrite merge_split_other by (intros k'; simpl; discriminate).
    change ("valid/" ++ k)%string with (("valid" ++ "/") ++ k)%string.
    rewrite merge_split_here.
    destruct (split_get va k); [reflexivity|].
    rewrite merge_split_other by (intros k'; simpl; discriminate). reflexivity. }
  assert (Htest : forall k,
    dict_get (merge_split (merge_split (merge_split [] tr "train") va "valid") te "test")
             ("test/" ++ k) = split_get te k).
  { intros k.
    change ("test/" ++ k)%string with (("test" ++ "/") ++ k)%string.
    rewrite merge_split_here.
    destruct (split_get te k); [reflexivity|].
    rewrite merge_split_other by (intros k'; simpl; discriminate).
    rewrite merge_split_other by (intros k'; simpl; discriminate). reflexivity. }
  repeat (split; [first [reflexivity | assumption]|]).
  split.
  { intros key Hin.
    apply merge_split_keys in Hin as [Hin|(k & Hk & ->)]; [|exists k; auto].
    apply merge_split_keys in Hin as [Hin|(k & Hk & ->)]; [|exists k; auto].
    apply merge_split_keys in Hin as [Hin|(k & Hk & ->)]; [|exists k; auto].
    destruct Hin. }
  split; [|split].
  - intros Hempty k. rewrite Htrain. rewrite Hempty in Etr.
    injection Etr as <-. reflexivity.
  - intros Hempty k. rewrite Hvalid. rewrite Hempty in Eva.
    injection Eva as <-. reflexivity.
  - intros Hempty k. rewrite Htest. rewrite Hempty in Ete.
    injection Ete as <-. reflexivity.
Qed.

End Evaluation.

(** ** Per-host keys *)

Lemma pretty_N_go_dash_free (x : N) (s : string) :
  dash_free s -> dash_free (pretty_N_go x s).
Proof.
  revert s. induction (N.lt_wf_0 x) as [x _ IH]; intros s Hs.
  destruct (decide (x = 0%N)) as [->|Hx].
  - now rewrite pretty_N_go_0.
  - rewrite pretty_N_go_step by lia. apply IH.
    + apply N.div_lt; lia.
    + simpl. split; [|assumption].
      unfold pretty_N_char. repeat case_match; discriminate.
Qed.

Lemma str_of_nat_dash_free (i : nat) : dash_free (str_of_nat i).
Proof.
  unfold str_of_nat, pretty, pretty_nat, pretty, pretty_N.
  case_decide.
  - simpl. split; [discriminate | exact I].
  - now apply pretty_N_go_dash_free.
Qed.

Lemma str_of_nat_inj (i j : nat) : str_of_nat i = str_of_nat j -> i = j.
Proof. apply pretty_nat_inj. Qed.

Lemma dash_free_no_dash (a d : string) : ~ dash_free (a ++ String "-" d).
Proof. induction a as [|c a IH]; simpl; intros [Hc Hd]; [congruence | auto]. Qed.

(** The last dash of a string splits it in one way only. *)
Lemma split_at_last_dash (a a' d d' : string) :
  dash_free d -> dash_free d' ->
  (a ++ String "-" d)%string = (a' ++ String "-" d')%string -> a = a' /\ d = d'.
Proof.
  intros Hd Hd'. revert a'.
  induction a as [|c a IH]; intros [|c' a']; simpl; intros Heq.
  - injection Heq as ->. auto.
  - injection Heq as <- ->. now apply dash_free_no_dash in Hd.
  - injection Heq as -> <-. now apply dash_free_no_dash in Hd'.
  - injection Heq as -> Heq. destruct (IH _ Heq) as [-> ->]. auto.
Qed.

Lemma host_key_inj (m m' : string) (i i' : nat) :
  host_key m i = host_key m' i' -> m = m' /\ i = i'.
Proof.
  unfold host_key. simpl. intros Heq.
  apply split_at_last_dash in Heq as [-> Heq]; auto using str_of_nat_dash_free.
  split; [reflexivity | now apply str_of_nat_inj].
Qed.

Lemma append_empty_r (s : string) : (s ++ "")%string = s.
Proof.
  induction s as [|c s IH]; [reflexivity|].
  change (String c (s ++ "") = String c s). now rewrite IH.
Qed.

Lemma host_key_ne_self (m : string) (i : nat) : m <> host_key m i.
Proof.
  unfold host_key. intros Heq.
  assert (Hpad : (m ++ "")%string = (m ++ ("-" ++ str_of_nat i))%string)
    by (rewrite append_empty_r; exact Heq).
  apply string_app_inj in Hpad. discriminate.
Qed.

(** ** Gathering the reports of all hosts *)

Section Gather.
Context {V : Type}.
Implicit Types (A : pydict (report_value V)) (m k : string) (xs : list V) (e : nat).

Lemma dict_set_fresh {W : Type} (d : pydict W) k (v : W) :
  ~ In k (dict_keys d) -> dict_set d k v = d ++ [(k, v)].
Proof.
  induction d as [|[k' v'] d IH]; simpl; intros Hout; [reflexivity|].
  destruct (String.eqb k' k) eqn:E.
  - apply String.eqb_eq in E. tauto.
  - rewrite IH by tauto. reflexivity.
Qed.

Lemma imap_keys_In {W : Type} (f : nat -> string) (g : V -> W) xs k :
  In k (dict_keys (imap (fun i x => (f i, g x)) xs)) -> exists i, i < length xs /\ k = f i.
Proof.
  revert f. induction xs as [|x xs IH]; intros f; simpl; [contradiction|].
  intros [<-|Hin].
  - exists 0. split; [lia | reflexivity].
  - apply (IH (fun i => f (S i))) in Hin as (i & Hi & ->).
    exists (S i). split; [lia | reflexivity].
Qed.

Lemma imap_keys_NoDup {W : Type} (f : nat -> string) (g : V -> W) xs :
  (forall i j, f i = f j -> i = j) ->
  List.NoDup (dict_keys (imap (fun i x => (f i, g x)) xs)).
Proof.
  revert f. induction xs as [|x xs IH]; intros f Hinj; simpl; constructor.
  - intros Hin. apply (imap_keys_In (fun i => f (S i))) in Hin as (i & _ & Heq).
    apply Hinj in Heq. discriminate.
  - apply (IH (fun i => f (S i))). intros i j Heq. apply Hinj in Heq. lia.
Qed.

Lemma imap_In_lookup {W : Type} (f : nat -> string) (g : V -> W) xs i x :
  xs !! i = Some x -> In (f i, g x) (imap (fun i x => (f i, g x)) xs).
Proof.
  intros Hi. apply list_elem_of_In.
  apply (elem_of_lookup_imap_2 (fun i x => (f i, g x)) xs x i Hi).
Qed.

Lemma metric_reports_fold m xs (f : nat -> nat) (d : pydict (report_value V)) :
  (forall i j, f i = f j -> i = j) ->
  (forall i, ~ In (host_key m (f i)) (dict_keys d)) ->
  fold_left (fun d ix => dict_set d (host_key m (fst ix)) (Scalar (snd ix)))
            (imap (fun i x => (f i, x)) xs) d =
  d ++ imap (fun i x => (host_key m (f i), Scalar x)) xs.
Proof.
  revert f d. induction xs as [|x xs IH]; intros f d Hinj Hfresh; simpl.
  - now rewrite app_nil_r.
  - rewrite dict_set_fresh by apply Hfresh.
    rewrite (IH (fun i => f (S i))).
    + now rewrite <- app_assoc.
    + intros i j Heq. apply Hinj in Heq. lia.
    + intros i. unfold dict_keys. rewrite map_app, in_app_iff. simpl.
      intros [Hin|[Heq|[]]].
      * now apply (Hfresh (S i)).
      * apply host_key_inj in Heq as [_ Heq]. apply Hinj in Heq. discriminate.
Qed.

Lemma metric_reports_eq m xs :
  metric_reports m xs = imap (fun i x => (host_key m i, Scalar x)) xs.
Proof.
  unfold metric_reports, enumerate.
  now rewrite (metric_reports_fold m xs (fun i => i) []) by auto.
Qed.

Lemma update_metric_reports_here A m xs i x :
  xs !! i = Some x ->
  dict_get (dict_update A (metric_reports m xs)) (host_key m i) = Some (Scalar x).
Proof.
  intros Hi. rewrite metric_reports_eq. apply dict_get_update_here.
  - apply imap_keys_NoDup. intros a b Heq. now apply host_key_inj in Heq.
  - now apply (imap_In_lookup (host_key m) Scalar).
Qed.

Lemma update_metric_reports_other A m xs k :
  (forall i, i < length xs -> k <> host_key m i) ->
  dict_get (dict_update A (metric_reports m xs)) k = dict_get A k.
Proof.
  intros Hne. rewrite metric_reports_eq. apply dict_get_update_other.
  intros Hin. apply imap_keys_In in Hin as (i & Hi & ->). now apply (Hne i).
Qed.

Lemma gather_metric_spec e A m xs x_e :
  dict_get A m = Some (Stacked xs) -> xs !! e = Some x_e ->
  exists A', gather_metric e A m = Ok A' /\
    dict_get A' m = Some (Scalar x_e) /\
    (forall i x, xs !! i = Some x -> dict_get A' (host_key m i) = Some (Scalar x)) /\
    (forall k, k <> m -> (forall i, i < length xs -> k <> host_key m i) ->
       dict_get A' k = dict_get A k).
Proof.
  intros Hm He. unfold gather_metric, dict_item. rewrite Hm. simpl.
  rewrite (update_metric_reports_here A m xs e x_e He). simpl.
  eexists. split; [reflexivity|]. split; [apply dict_get_set_eq|]. split.
  - intros i x Hi. rewrite dict_get_set_ne by apply host_key_ne_self.
    now apply update_metric_reports_here.
  - intros k Hk Hne. rewrite dict_get_set_ne by congruence.
    now apply update_metric_reports_other.
Qed.

Lemma gather_metrics_spec (gv : string -> list V) e (todo finished : list string) A :
  List.NoDup (finished ++ todo) ->
  (forall m, In m (finished ++ todo) -> e < length (gv m)) ->
  collision_free gv (finished ++ todo) ->
  (forall m, In m todo -> dict_get A m = Some (Stacked (gv m))) ->
  (forall m, In m finished -> gathered_metric gv e A m) ->
  exists A', gather_metrics e todo A = Ok A' /\
    forall m, In m (finished ++ todo) -> gathered_metric gv e A' m.
Proof.
  revert finished A. induction todo as [|m0 todo IH]; intros finished A Hnd He Hfree Htodo Hdone.
  - exists A. split; [reflexivity|]. now rewrite app_nil_r.
  - simpl.
    assert (Hm0 : In m0 (finished ++ m0 :: todo)) by (apply in_app_iff; right; now left).
    destruct (lookup_lt_is_Some_2 (gv m0) e (He m0 Hm0)) as [x_e Hx].
    destruct (gather_metric_spec e A m0 (gv m0) x_e (Htodo m0 (or_introl eq_refl)) Hx)
      as (A1 & -> & Hself & Hhosts & Hother).
    simpl.
    assert (Hassoc : (finished ++ [m0]) ++ todo = finished ++ m0 :: todo)
      by now rewrite <- app_assoc.
    destruct (IH (finished ++ [m0]) A1) as (A' & HA' & Hall).
    + now rewrite Hassoc.
    + now rewrite Hassoc.
    + now rewrite Hassoc.
    + intros m Hm.
      assert (Hin : In m (finished ++ m0 :: todo)) by (apply in_app_iff; right; now right).
      rewrite Hother; [apply Htodo; now right | | ].
      * intros ->. apply NoDup_remove_2 in Hnd. apply Hnd.
        apply in_app_iff. now right.
      * intros i Hi. now apply Hfree.
    + intros m Hm. apply in_app_iff in Hm as [Hm|[<-|[]]].
      * assert (Hin : In m (finished ++ m0 :: todo)) by (apply in_app_iff; now left).
        assert (Hne : m <> m0).
        { intros ->. apply NoDup_remove_2 in Hnd. apply Hnd. apply in_app_iff. now left. }
        destruct (Hdone m Hm) as [Hh (x & Hxe & Hcanon)]. split.
        -- intros i x' Hi. rewrite Hother; [now apply Hh | | ].
           ++ intros Heq. apply (Hfree m0 m i); auto.
              now apply lookup_lt_Some in Hi.
           ++ intros j Hj Heq. apply host_key_inj in Heq as [Heq _]. contradiction.
        -- exists x. split; [assumption|]. rewrite Hother; [assumption | assumption |].
           intros j Hj. now apply Hfree.
      * split; [assumption|]. exists x_e. auto.
    + exists A'. split; [assumption|]. now rewrite <- Hassoc.
Qed.

Lemma process_allgather_get `{Multihost V} (report : pydict V) m :
  In m (dict_keys report) ->
  dict_get (process_allgather report) m = Some (Stacked (gathered_values m)).
Proof.
  unfold process_allgather.
  induction report as [|[k v] report IH]; simpl; [contradiction|].
  destruct (String.eqb k m) eqn:E.
  - apply String.eqb_eq in E. now subst.
  - apply String.eqb_neq in E. intros [Heq|Hin]; [contradiction | auto].
Qed.

End Gather.

(** C6 (as amended): for a report whose keys are distinct and are not
    spelled like a per-host key ["m-i"] of a metric of the report, and a
    current expert [e] that is the index of a host,
    [gather_multihost_report] returns a mapping in which ["m-i"] holds host
    [i]'s value of [m] for every metric [m] and host [i], and in which [m]
    itself holds the value of ["m-e"]. *)
Theorem gather_multihost_report_per_host {V : Type} `{Multihost V}
    (report : pydict V) (e : nat) :
  List.NoDup (dict_keys report) ->
  (forall m, In m (dict_keys report) -> e < length (gathered_values m)) ->
  collision_free gathered_values (dict_keys report) ->
  exists d, gather_multihost_report report e = Ok d /\
    forall m, In m (dict_keys report) ->
      (forall i x, gathered_values m !! i = Some x ->
         dict_get d (host_key m i) = Some (Scalar x)) /\
      dict_get d m = dict_get d (host_key m e) /\
      (exists x, gathered_values m !! e = Some x /\ dict_get d m = Some (Scalar x)).
Proof.
  intros Hnd He Hfree. unfold gather_multihost_report.
  destruct (gather_metrics_spec gathered_values e (dict_keys report) []
              (process_allgather report)) as (d & Hd & Hall); simpl; auto.
  - intros m Hm. now apply process_allgather_get.
  - intros m [].
  - exists d. split; [assumption|]. intros m Hm.
    destruct (Hall m Hm) as [Hhosts (x & Hx & Hcanon)].
    split; [assumption|]. split; [|eauto].
    now rewrite Hcanon, (Hhosts e x Hx).
Qed.

Lemma gather_multihost_report_per_host_witness :
  exists d,
    @gather_multihost_report nat two_hosts [("train/loss", 6); ("valid/loss", 8)] 1 = Ok d /\
    forall m, In m ["train/loss"; "valid/loss"] ->
      (forall i x, @gathered_values nat two_hosts m !! i = Some x ->
         dict_get d (host_key m i) = Some (Scalar x)) /\
      dict_get d m = dict_get d (host_key m 1) /\
      (exists x, @gathered_values nat two_hosts m !! 1 = Some x /\
                 dict_get d m = Some (Scalar x)).
Proof.
  apply (@gather_multihost_report_per_host nat two_hosts
           [("train/loss", 6); ("valid/loss", 8)] 1).
  - repeat constructor; simpl; intuition discriminate.
  - intros m [<-|[<-|[]]]; simpl; lia.
  - intros m m' i Hm Hm' Hi Heq.
    assert (Hi2 : i = 0 \/ i = 1).
    { destruct Hm' as [<-|[<-|[]]]; simpl in Hi; lia. }
    destruct Hm as [<-|[<-|[]]], Hm' as [<-|[<-|[]]], Hi2 as [-> | ->];
      vm_compute in Heq; discriminate.
Defined.

(** C6, counterexample: with the metrics ["a-0"] and ["a"] on one host, the
    key ["a-0"] ends up with host 0's value of ["a"], which is not the
    value of ["a-0-0"]; with the two metrics in the other order the loop
    finds a number where it expects the values of the hosts and raises;
    and a current expert that is not the index of a host has no per-host
    key to copy. *)
Lemma gather_multihost_report_collision :
  (exists d,
    @gather_multihost_report nat one_host [("a-0", 1); ("a", 2)] 0 = Ok d /\
    d = [("a-0", Scalar 2); ("a", Scalar 2); ("a-0-0", Scalar 1)] /\
    dict_get d (host_key "a-0" 0) = Some (Scalar 1) /\
    dict_get d "a-0" = Some (Scalar 2) /\
    dict_get d "a-0" <> dict_get d (host_key "a-0" 0)) /\
  @gather_multihost_report nat one_host [("a", 2); ("a-0", 1)] 0 =
    Raise (TypeError "object is not iterable") /\
  @gather_multihost_report nat one_host [("a", 2)] 1 = Raise (KeyError "a-1").
Proof.
  split; [|split; reflexivity].
  eexists. split; [vm_compute; reflexivity|].
  split; [reflexivity|].
  split; [vm_compute; reflexivity|].
  split; [vm_compute; reflexivity|].
  vm_compute. discriminate.
Qed.

(** ** Pytrees and arrays *)

Lemma tree_leaves_map {A B : Type} (f : A -> B) (t : pytree A) :
  tree_leaves (tree_map f t) = map f (tree_leaves t).
Proof.
  induction t as [a|cs IH] using pytree_induction; simpl; [reflexivity|].
  induction IH as [|c cs Hc _ IHcs]; simpl; [reflexivity|].
  now rewrite map_app, Hc, IHcs.
Qed.

Lemma tree_structure_map {A B : Type} (f : A -> B) (t : pytree A) :
  tree_structure (tree_map f t) = tree_structure t.
Proof.
  unfold tree_structure.
  induction t as [a|cs IH] using pytree_induction; simpl; [reflexivity|].
  f_equal. induction IH as [|c cs Hc _ IHcs]; simpl; [reflexivity|].
  now rewrite Hc, IHcs.
Qed.

Lemma treedef_eqb_refl (td : treedef) : treedef_eqb td td = true.
Proof.
  induction td as [a|cs IH] using pytree_induction; simpl; [reflexivity|].
  induction IH as [|c cs Hc _ IHcs]; [reflexivity|].
  simpl. now rewrite String.eqb_refl, Hc, IHcs.
Qed.

Lemma treedef_eqb_eq (t1 t2 : treedef) : treedef_eqb t1 t2 = true -> t1 = t2.
Proof.
  revert t2. induction t1 as [[]|cs IH] using pytree_induction; intros [[]|cs2]; simpl;
    try discriminate; [reflexivity|].
  intros Heq. f_equal. revert cs2 Heq.
  induction IH as [|[k1 c1] cs Hc _ IHcs]; intros [|[k2 c2] cs2]; try discriminate;
    [reflexivity|].
  simpl in *. intros Heq.
  apply andb_prop in Heq as [Heq Hrest]. apply andb_prop in Heq as [Hk Hsub].
  apply String.eqb_eq in Hk. subst k2.
  now rewrite (Hc c2 Hsub), (IHcs cs2 Hrest).
Qed.

(** Unflattening the leaves of a tree along its own structure gives the
    tree back, whatever leaves follow, also after a map over the leaves. *)
Lemma unflatten_from_leaves {A B : Type} (f : A -> B) (t : pytree A) (rest : list B) :
  unflatten_from (tree_structure t) (map f (tree_leaves t) ++ rest) =
  Some (tree_map f t, rest).
Proof.
  revert rest. unfold tree_structure.
  induction t as [a|cs IH] using pytree_induction; intros rest; simpl; [reflexivity|].
  match goal with
  | |- match ?go with _ => _ end = _ =>
      assert (Hgo : go = Some (map (fun c => (fst c, tree_map f (snd c))) cs, rest))
  end; [|now rewrite Hgo].
  revert rest. induction IH as [|c cs Hc _ IHcs]; intros rest; simpl; [reflexivity|].
  rewrite map_app, <- app_assoc, Hc. now rewrite IHcs.
Qed.

Lemma tree_unflatten_leaves {A B : Type} (f : A -> B) (t : pytree A) :
  tree_unflatten (tree_structure t) (map f (tree_leaves t)) = Ok (tree_map f t).
Proof.
  unfold tree_unflatten.
  rewrite <- (app_nil_r (map f (tree_leaves t))).
  now rewrite unflatten_from_leaves.
Qed.

(** Arrays *)

Lemma arr_sum_scale (c : R) (f : R -> R) (x : array) :
  arr_sum (map (fun v => (c * f v)%R) x) = (c * arr_sum (map f x))%R.
Proof.
  unfold arr_sum. induction x as [|v x IH]; simpl; [ring|]. rewrite IH. ring.
Qed.

Lemma arr_sum_square_nonneg (x : array) : (0 <= arr_sum (square x))%R.
Proof.
  unfold arr_sum, square. induction x as [|v x IH]; simpl; [lra|]. nra.
Qed.

Lemma arr_sum_nonneg (x : array) : Forall (fun v => (0 <= v)%R) x -> (0 <= arr_sum x)%R.
Proof.
  unfold arr_sum. induction 1 as [|v x Hv _ IH]; simpl; lra.
Qed.

Lemma l2_regularization_nonneg (t : pytree array) (n : nat) :
  (0 <= l2_regularization t n)%R.
Proof.
  unfold l2_regularization. apply arr_sum_nonneg.
  apply List.Forall_forall. intros v Hv. apply in_map_iff in Hv as (x & <- & _).
  apply arr_sum_square_nonneg.
Qed.

(** ** Gradient clipping *)

Local Open Scope R_scope.

Lemma sum_scale {A : Type} (c : R) (f : A -> R) (l : list A) :
  arr_sum (map (fun v => c * f v) l) = c * arr_sum (map f l).
Proof.
  unfold arr_sum. induction l as [|v l IH]; simpl; [ring|]. rewrite IH. ring.
Qed.

Lemma tree_map_ext {A B : Type} (f g : A -> B) (t : pytree A) :
  (forall a, f a = g a) -> tree_map f t = tree_map g t.
Proof.
  intros Hfg. induction t as [a|cs IH] using pytree_induction; simpl.
  - now rewrite Hfg.
  - f_equal. induction IH as [|c cs Hc _ IHcs]; simpl; [reflexivity|].
    now rewrite Hc, IHcs.
Qed.

Lemma eps_pos : 0 < _GRAD_CLIP_EPS.
Proof. unfold _GRAD_CLIP_EPS. lra. Qed.

Lemma truthy_true (x : R) : truthy x = true <-> x <> 0.
Proof. unfold truthy. destruct (Req_dec_T x 0); split; congruence. Qed.

Lemma clip_gradient_none (g : R) (grad : pytree array) : clip_gradient None g grad = grad.
Proof. reflexivity. Qed.

Lemma clip_gradient_zero (g : R) (grad : pytree array) : clip_gradient (Some 0) g grad = grad.
Proof.
  unfold clip_gradient. destruct (truthy 0) eqn:E; [|reflexivity].
  apply truthy_true in E. congruence.
Qed.

Lemma clip_gradient_below (t g : R) (grad : pytree array) :
  g <= t -> clip_gradient (Some t) g grad = grad.
Proof.
  intros Hle. unfold clip_gradient.
  destruct (truthy t); [|reflexivity].
  destruct (Rgt_dec g t); [lra | reflexivity].
Qed.

Lemma clip_gradient_above (t g : R) (grad : pytree array) :
  t <> 0 -> g > t ->
  clip_gradient (Some t) g grad = tree_map (arr_scale (t / (g + _GRAD_CLIP_EPS))) grad.
Proof.
  intros Ht Hgt. unfold clip_gradient.
  apply truthy_true in Ht. rewrite Ht.
  destruct (Rgt_dec g t); [|contradiction].
  apply tree_map_ext. intros x. unfold arr_scale.
  apply map_ext. intros v. unfold Rdiv. ring.
Qed.

Lemma l2_regularization_scale (c : R) (grad : pytree array) (n : nat) :
  l2_regularization (tree_map (arr_scale c) grad) n = c * c * l2_regularization grad n.
Proof.
  unfold l2_regularization. rewrite tree_leaves_map, map_map.
  rewrite <- sum_scale. f_equal. apply map_ext. intros x.
  unfold square, arr_scale. rewrite map_map.
  rewrite <- (sum_scale (c * c) (fun v => v * v)). f_equal.
  apply map_ext. intros v. ring.
Qed.

(** The norm of the rescaled gradient: [t * g / (g + eps)], which lies
    within [eps] below the threshold. *)
Lemma clipped_norm (t : R) (grad : pytree array) :
  let g := sqrt (l2_regularization grad 0) in
  0 < t -> g > t ->
  sqrt (l2_regularization (tree_map (arr_scale (t / (g + _GRAD_CLIP_EPS))) grad) 0) =
    t / (g + _GRAD_CLIP_EPS) * g /\
  t - _GRAD_CLIP_EPS < t / (g + _GRAD_CLIP_EPS) * g < t.
Proof.
  intros g Ht Hgt. pose proof eps_pos as Heps.
  assert (Ha : 0 < g + _GRAD_CLIP_EPS) by lra.
  assert (Hc : 0 < t / (g + _GRAD_CLIP_EPS)) by (apply Rdiv_lt_0_compat; lra).
  split.
  - rewrite l2_regularization_scale.
    rewrite sqrt_mult; [|nra|apply l2_regularization_nonneg].
    rewrite sqrt_square by lra. reflexivity.
  - assert (Heq : t / (g + _GRAD_CLIP_EPS) * g =
                  t - t * _GRAD_CLIP_EPS / (g + _GRAD_CLIP_EPS)) by (field; lra).
    rewrite Heq.
    assert (Hfrac : 0 < t * _GRAD_CLIP_EPS / (g + _GRAD_CLIP_EPS) < _GRAD_CLIP_EPS).
    { split.
      - apply Rdiv_lt_0_compat; nra.
      - apply (Rmult_lt_reg_r (g + _GRAD_CLIP_EPS)); [assumption|].
        unfold Rdiv. rewrite Rmult_assoc, Rinv_l by lra. nra. }
    lra.
Qed.

Local Close Scope R_scope.

(** ** The gradient that the optimizer and the metrics receive *)

Section Step.
Context {Inner Batch BatchStats Key MetricsState : Type}.
Context `{JaxRuntime} `{Prng Key} `{Autodiff (gmap string BatchStats)}.

(** [update] after a successful injection and averaging: everything
    downstream works on the clipped gradient. *)
Lemma update_unfold (axis : axis_env cost_and_grad)
    (optimizer_state : opt_state Inner) (params : pytree array)
    (batch_stats : option BatchStats) (metrics_state : option MetricsState)
    (batch : Batch) (step : nat) (lr : R) (rng : Key) (local_device_index : nat)
    training_cost grad_clip optimizer_update_fn
    (metrics_update_fn : MetricsState -> pytree array -> pytree array -> pytree array ->
                         result MetricsState)
    s1 cost0 aux grad0 cost grad hp :
  _inject_learning_rate optimizer_state lr = (s1, Ok tt) ->
  value_and_grad
    (fun p => training_cost p batch batch_stats
                (random_fold_in (random_fold_in rng step) local_device_index))
    params = ((cost0, aux), grad0) ->
  lax_pmean axis (cost0, grad0) _get_axis_index_groups = Ok (cost, grad) ->
  hyperparams_of s1 = Ok hp ->
  update axis optimizer_state params batch_stats metrics_state batch step lr rng
    local_device_index training_cost grad_clip optimizer_update_fn metrics_update_fn =
  (let grad_norm := sqrt (l2_regularization grad 0) in
   let clipped := clip_gradient grad_clip grad_norm grad in
   let s2 := if hp_mem "train_loss" hp then set_hyperparam s1 "train_loss" cost else s1 in
   let new_batch_stats := aux !! "batch_stats" in
   let (model_updates, new_optimizer_state) :=
     optimizer_update_fn clipped s2 params batch new_batch_stats in
   new_params <~ apply_updates params model_updates ;;
   new_metrics_state <~
     match metrics_state with
     | Some ms => m <~ metrics_update_fn ms clipped params new_params ;; Ok (Some m)
     | None => Ok None
     end ;;
   Ok (new_optimizer_state, new_params, new_batch_stats, cost, new_metrics_state, grad_norm)).
Proof.
  intros Hinject Hgrad Hmean Hhp. unfold update.
  rewrite Hinject. simpl. rewrite Hgrad, Hmean. simpl. rewrite Hhp. simpl.
  reflexivity.
Qed.

(** C1 (as amended): when a metrics accumulator is configured, its update
    function is called with the gradient that the optimizer is given, the
    old params and the new params; that gradient is the rescaled one on a
    step where clipping is configured and triggered, and the averaged
    gradient otherwise. *)
Theorem metrics_update_gets_optimizer_gradient (axis : axis_env cost_and_grad)
    (optimizer_state : opt_state Inner) (params : pytree array)
    (batch_stats : option BatchStats) (ms : MetricsState)
    (batch : Batch) (step : nat) (lr : R) (rng : Key) (local_device_index : nat)
    training_cost grad_clip optimizer_update_fn
    (metrics_update_fn : MetricsState -> pytree array -> pytree array -> pytree array ->
                         result MetricsState)
    s1 cost0 aux grad0 cost grad hp model_updates new_optimizer_state new_params :
  let grad_norm := sqrt (l2_regularization grad 0) in
  let clipped := clip_gradient grad_clip grad_norm grad in
  let s2 := if hp_mem "train_loss" hp then set_hyperparam s1 "train_loss" cost else s1 in
  _inject_learning_rate optimizer_state lr = (s1, Ok tt) ->
  value_and_grad
    (fun p => training_cost p batch batch_stats
                (random_fold_in (random_fold_in rng step) local_device_index))
    params = ((cost0, aux), grad0) ->
  lax_pmean axis (cost0, grad0) _get_axis_index_groups = Ok (cost, grad) ->
  hyperparams_of s1 = Ok hp ->
  optimizer_update_fn clipped s2 params batch (aux !! "batch_stats") =
    (model_updates, new_optimizer_state) ->
  apply_updates params model_updates = Ok new_params ->
  update axis optimizer_state params batch_stats (Some ms) batch step lr rng
    local_device_index training_cost grad_clip optimizer_update_fn metrics_update_fn =
    (m <~ metrics_update_fn ms clipped params new_params ;;
     Ok (new_optimizer_state, new_params, aux !! "batch_stats", cost, Some m, grad_norm)) /\
  (forall t, grad_clip = Some t -> t <> 0%R -> (grad_norm > t)%R ->
     clipped = tree_map (arr_scale (t / (grad_norm + _GRAD_CLIP_EPS))) grad) /\
  (forall t, grad_clip = Some t -> (grad_norm <= t)%R -> clipped = grad) /\
  (grad_clip = None -> clipped = grad).
Proof.
  intros grad_norm clipped s2 Hinject Hgrad Hmean Hhp Hopt Happly.
  split; [|split; [|split]].
  - rewrite (update_unfold _ _ _ _ _ _ _ _ _ _ _ _ _ _ s1 cost0 aux grad0 cost grad hp)
      by assumption.
    cbv zeta. fold grad_norm. fold clipped. fold s2. rewrite Hopt. simpl.
    rewrite Happly. simpl.
    destruct (metrics_update_fn ms clipped params new_params); reflexivity.
  - intros t -> Ht Hgt. now apply clip_gradient_above.
  - intros t -> Hle. now apply clip_gradient_below.
  - intros ->. reflexivity.
Qed.

(** C2 (as amended): with a clip threshold [t] that the code takes as
    configured ([t] is not zero) and the gradient norm [g]: if [g <= t] the
    gradient passed to the optimizer is the averaged gradient itself; if
    [g > t] every leaf is scaled by [t / (g + eps)], [eps = 1e-6]; and for
    a positive [t] the norm of the scaled tree is [t * g / (g + eps)], less
    than [eps] below [t]. *)
Theorem clip_gradient_threshold (t : R) (grad : pytree array) :
  let g := sqrt (l2_regularization grad 0) in
  let clipped := clip_gradient (Some t) g grad in
  t <> 0%R ->
  ((g <= t)%R -> clipped = grad) /\
  ((g > t)%R ->
     clipped = tree_map (arr_scale (t / (g + _GRAD_CLIP_EPS))) grad /\
     _GRAD_CLIP_EPS = (1 / 1000000)%R /\
     ((0 < t)%R ->
        sqrt (l2_regularization clipped 0) = (t / (g + _GRAD_CLIP_EPS) * g)%R /\
        (t - _GRAD_CLIP_EPS < sqrt (l2_regularization clipped 0) < t)%R)) /\
  (forall (axis : axis_env cost_and_grad)
          (optimizer_state : opt_state Inner) (params : pytree array)
          (batch_stats : option BatchStats) (metrics_state : option MetricsState)
          (batch : Batch) (step : nat) (lr : R) (rng : Key) (local_device_index : nat)
          training_cost optimizer_update_fn
          (metrics_update_fn : MetricsState -> pytree array -> pytree array ->
                               pytree array -> result MetricsState)
          s1 cost0 aux grad0 hp cost,
     _inject_learning_rate optimizer_state lr = (s1, Ok tt) ->
     value_and_grad
       (fun p => training_cost p batch batch_stats
                   (random_fold_in (random_fold_in rng step) local_device_index))
       params = ((cost0, aux), grad0) ->
     lax_pmean axis (cost0, grad0) _get_axis_index_groups = Ok (cost, grad) ->
     hyperparams_of s1 = Ok hp ->
     update axis optimizer_state params batch_stats metrics_state batch step lr rng
       local_device_index training_cost (Some t) optimizer_update_fn metrics_update_fn =
     (let s2 := if hp_mem "train_loss" hp then set_hyperparam s1 "train_loss" cost
                else s1 in
      let (model_updates, new_optimizer_state) :=
        optimizer_update_fn clipped s2 params batch (aux !! "batch_stats") in
      new_params <~ apply_updates params model_updates ;;
      new_metrics_state <~
        match metrics_state with
        | Some ms => m <~ metrics_update_fn ms clipped params new_params ;; Ok (Some m)
        | None => Ok None
        end ;;
      Ok (new_optimizer_state, new_params, aux !! "batch_stats", cost,
          new_metrics_state, g))).
Proof.
  intros g clipped Ht. split; [|split].
  - intros Hle. now apply clip_gradient_below.
  - intros Hgt.
    assert (Hclip : clipped = tree_map (arr_scale (t / (g + _GRAD_CLIP_EPS))) grad)
      by now apply clip_gradient_above.
    split; [assumption|]. split; [reflexivity|].
    intros Hpos. rewrite Hclip.
    destruct (clipped_norm t grad Hpos Hgt) as [Hnorm Hbounds].
    fold g in Hnorm, Hbounds. rewrite Hnorm. auto.
  - intros. now apply (update_unfold _ _ _ _ _ _ _ _ _ _ _ _ _ _ s1 cost0 aux grad0 cost grad hp).
Qed.

End Step.

(** ** One step on one device *)

Local Open Scope R_scope.

Lemma hp_mem_insert k v (hp : gmap string R) : hp_mem k (<[k := v]> hp) = true.
Proof. unfold hp_mem. now rewrite lookup_insert_eq. Qed.

Lemma hp_mem_insert_ne k k' v (hp : gmap string R) :
  k <> k' -> hp_mem k' (<[k := v]> hp) = hp_mem k' hp.
Proof. intros Hne. unfold hp_mem. now rewrite lookup_insert_ne. Qed.

Lemma hp_mem_empty k : hp_mem k (∅ : gmap string R) = false.
Proof. unfold hp_mem. now rewrite lookup_empty. Qed.

Lemma example_grad_norm : sqrt (l2_regularization example_grad 0) = 5.
Proof.
  unfold l2_regularization, example_grad. simpl.
  replace (3 * 3 + (4 * 4 + 0) + 0) with (5 * 5) by lra.
  apply sqrt_square. lra.
Qed.

Lemma example_pmean :
  @lax_pmean lone_axis (1, example_grad) (@_get_axis_index_groups single_device) =
  Ok (1, example_grad).
Proof.
  unfold lax_pmean, example_grad. simpl. do 2 f_equal; [lra|].
  do 2 f_equal; [lra|]. f_equal. lra.
Qed.

Lemma example_update_eq (grad_clip : option R) :
  example_update grad_clip =
  (let clipped := clip_gradient grad_clip 5 example_grad in
   new_params <~ apply_updates (Leaf [0; 0]) clipped ;;
   Ok (example_injected, new_params, None, 1, Some clipped, 5)).
Proof.
  unfold example_update.
  rewrite (update_unfold _ _ _ _ _ _ _ _ _ _ _ _ _ _
             example_injected 1 ∅ example_grad 1 example_grad
             (<["learning_rate" := 1 / 10]> (<["learning_rate" := 0]> ∅))).
  - cbv zeta. rewrite example_grad_norm.
    rewrite hp_mem_insert_ne, hp_mem_insert_ne, hp_mem_empty by discriminate.
    rewrite lookup_empty.
    destruct (apply_updates (Leaf [0; 0]) (clip_gradient grad_clip 5 example_grad));
      reflexivity.
  - unfold example_state. simpl. now rewrite hp_mem_insert.
  - reflexivity.
  - apply example_pmean.
  - reflexivity.
Qed.

Lemma example_clipped :
  clip_gradient (Some 1) 5 example_grad =
  Leaf [1 / (5 + _GRAD_CLIP_EPS) * 3; 1 / (5 + _GRAD_CLIP_EPS) * 4].
Proof. rewrite clip_gradient_above by lra. reflexivity. Qed.

Lemma metrics_update_gets_optimizer_gradient_witness :
  example_update (Some 1) =
  Ok (example_injected,
      Leaf [0 + 1 / (5 + _GRAD_CLIP_EPS) * 3; 0 + 1 / (5 + _GRAD_CLIP_EPS) * 4],
      None, 1,
      Some (Leaf [1 / (5 + _GRAD_CLIP_EPS) * 3; 1 / (5 + _GRAD_CLIP_EPS) * 4]), 5).
Proof.
  destruct (@metrics_update_gets_optimizer_gradient unit unit unit unit (pytree array)
              single_device constant_prng example_autodiff
              lone_axis example_state (Leaf [0; 0]) None (Leaf []) tt O (1 / 10) tt O
              (fun _ _ _ _ => (1, ∅)) (Some 1)
              (fun g s _ _ _ => (g, s)) (fun _ g _ _ => Ok g)
              example_injected 1 ∅ example_grad 1 example_grad
              (<["learning_rate" := 1 / 10]> (<["learning_rate" := 0]> ∅))
              (clip_gradient (Some 1) 5 example_grad) example_injected
              (Leaf [0 + 1 / (5 + _GRAD_CLIP_EPS) * 3; 0 + 1 / (5 + _GRAD_CLIP_EPS) * 4]))
    as [Hupdate _].
  - unfold example_state. simpl. now rewrite hp_mem_insert.
  - reflexivity.
  - apply example_pmean.
  - reflexivity.
  - rewrite example_grad_norm.
    rewrite hp_mem_insert_ne, hp_mem_insert_ne, hp_mem_empty by discriminate.
    reflexivity.
  - rewrite example_clipped. reflexivity.
  - unfold example_update. etransitivity; [exact Hupdate|].
    rewrite example_grad_norm, example_clipped. reflexivity.
Defined.

(** C1, counterexample: the averaged gradient is (3, 4), of norm 5; with
    the threshold 1 the metrics update is given (3, 4) / (5 + eps), not the
    unclipped (3, 4). *)
Lemma metrics_update_sees_clipped_gradient :
  @lax_pmean lone_axis (1, example_grad) (@_get_axis_index_groups single_device) =
    Ok (1, example_grad) /\
  sqrt (l2_regularization example_grad 0) > 1 /\
  example_update (Some 1) =
    Ok (example_injected,
        Leaf [0 + 1 / (5 + _GRAD_CLIP_EPS) * 3; 0 + 1 / (5 + _GRAD_CLIP_EPS) * 4],
        None, 1,
        Some (Leaf [1 / (5 + _GRAD_CLIP_EPS) * 3; 1 / (5 + _GRAD_CLIP_EPS) * 4]), 5) /\
  Leaf [1 / (5 + _GRAD_CLIP_EPS) * 3; 1 / (5 + _GRAD_CLIP_EPS) * 4] <> example_grad.
Proof.
  split; [apply example_pmean|].
  split; [rewrite example_grad_norm; lra|].
  split.
  - rewrite example_update_eq. cbv zeta. rewrite example_clipped. reflexivity.
  - unfold example_grad. intros [= Heq _]. revert Heq. unfold _GRAD_CLIP_EPS. lra.
Qed.

Lemma clip_gradient_threshold_witness :
  clip_gradient (Some 1) (sqrt (l2_regularization example_grad 0)) example_grad =
    Leaf [1 / (5 + _GRAD_CLIP_EPS) * 3; 1 / (5 + _GRAD_CLIP_EPS) * 4] /\
  1 - _GRAD_CLIP_EPS <
    sqrt (l2_regularization
            (clip_gradient (Some 1) (sqrt (l2_regularization example_grad 0)) example_grad) 0)
    < 1.
Proof.
  destruct (@clip_gradient_threshold unit unit unit unit (pytree array)
              single_device constant_prng example_autodiff 1 example_grad)
    as (_ & Habove & _); [lra|].
  destruct Habove as (Hclipped & _ & Hnorm); [rewrite example_grad_norm; lra|].
  destruct Hnorm as [_ Hbounds]; [lra|].
  split; [|exact Hbounds].
  rewrite Hclipped, example_grad_norm. reflexivity.
Defined.

(** C2, counterexample: a threshold that is not positive.  With the
    threshold -1 the gradient (3, 4) is rescaled, and the norm of the
    result, which is not negative, is not within eps of the threshold; with
    the threshold 0 the gradient, of norm 5 > 0, is not rescaled at all. *)
Lemma clip_gradient_threshold_not_positive :
  (sqrt (l2_regularization example_grad 0) > -1 /\
   clip_gradient (Some (-1)) (sqrt (l2_regularization example_grad 0)) example_grad =
     tree_map (arr_scale (-1 / (5 + _GRAD_CLIP_EPS))) example_grad /\
   sqrt (l2_regularization
           (clip_gradient (Some (-1)) (sqrt (l2_regularization example_grad 0))
                          example_grad) 0)
     > -1 + _GRAD_CLIP_EPS) /\
  (sqrt (l2_regularization example_grad 0) > 0 /\
   clip_gradient (Some 0) (sqrt (l2_regularization example_grad 0)) example_grad =
     example_grad /\
   example_grad <> tree_map (arr_scale (0 / (5 + _GRAD_CLIP_EPS))) example_grad).
Proof.
  rewrite example_grad_norm. split; split; try lra.
  - split; [rewrite clip_gradient_above by lra; reflexivity|].
    match goal with |- sqrt ?x > _ => pose proof (sqrt_pos x) end.
    unfold _GRAD_CLIP_EPS. lra.
  - split; [apply clip_gradient_zero|].
    unfold example_grad. simpl. intros [= Heq _]. revert Heq. lra.
Qed.

Local Close Scope R_scope.

(** ** Exponential moving averages *)

Local Open Scope R_scope.

Lemma arr_sum_cons (v : R) (l : list R) : arr_sum (v :: l) = v + arr_sum l.
Proof. reflexivity. Qed.




Lemma nth_zip_with_plus (a b : array) (k : nat) :
  (k < length a)%nat -> (k < length b)%nat ->
  nth k (zip_with Rplus a b) 0 = nth k a 0 + nth k b 0.
Proof.
  revert b k. induction a as [|x a IH]; intros [|y b] [|k]; simpl; intros Ha Hb;
    try lia; [reflexivity|].
  apply IH; lia.
Qed.





Local Close Scope R_scope.

(** ** The training-metrics grabber *)

Lemma lookup_map {A B : Type} (f : A -> B) (l : list A) (i : nat) :
  map f l !! i = option_map f (l !! i).
Proof.
  revert i. induction l as [|a l IH]; intros [|i]; simpl; auto.
Qed.

Lemma tree_leaves_structure_length {A : Type} (t : pytree A) :
  length (tree_leaves (tree_structure t)) = length (tree_leaves t).
Proof. unfold tree_structure. now rewrite tree_leaves_map, length_map. Qed.

Lemma same_structure_length {A B : Type} (t1 : pytree A) (t2 : pytree B) :
  tree_structure t1 = tree_structure t2 -> length (tree_leaves t1) = length (tree_leaves t2).
Proof.
  intros Heq. rewrite <- (tree_leaves_structure_length t1), Heq.
  apply tree_leaves_structure_length.
Qed.

(** As many leaves as a structure asks for always unflatten, to a tree with
    that structure and those leaves. *)
Lemma unflatten_from_length {A : Type} (td : treedef) (xs rest : list A) :
  length xs = length (tree_leaves td) ->
  exists t, unflatten_from td (xs ++ rest) = Some (t, rest) /\
            tree_leaves t = xs /\ tree_structure t = tree_structure td.
Proof.
  revert xs rest. unfold tree_structure.
  induction td as [[]|cs IH] using pytree_induction; intros xs rest Hlen.
  - destruct xs as [|x [|y xs]]; try discriminate. exists (Leaf x). auto.
  - simpl in Hlen.
    assert (Hgo : exists ts,
      (fix go (cs : list (string * treedef)) (xs : list A)
         : option (list (string * pytree A) * list A) :=
         match cs with
         | [] => Some ([], xs)
         | c :: cs' =>
             match unflatten_from (snd c) xs with
             | Some (t, xs1) =>
                 match go cs' xs1 with
                 | Some (ts, xs2) => Some ((fst c, t) :: ts, xs2)
                 | None => None
                 end
             | None => None
             end
         end) cs (xs ++ rest) = Some (ts, rest) /\
      flat_map (fun c => tree_leaves (snd c)) ts = xs /\
      map (fun c => (fst c, tree_map (fun _ => tt) (snd c))) ts =
      map (fun c => (fst c, tree_map (fun _ => tt) (snd c))) cs).
    { revert xs Hlen. induction IH as [|c cs Hc _ IHcs]; intros xs Hlen.
      - destruct xs; [|discriminate]. exists []. auto.
      - simpl in Hlen. rewrite length_app in Hlen.
        destruct (Hc (take (length (tree_leaves (snd c))) xs)
                    (drop (length (tree_leaves (snd c))) xs ++ rest))
          as (t & Ht & Hleaves & Hstruct).
        { rewrite length_take. lia. }
        destruct (IHcs (drop (length (tree_leaves (snd c))) xs))
          as (ts & Hts & Htleaves & Htstruct).
        { rewrite length_drop. lia. }
        exists ((fst c, t) :: ts).
        rewrite <- (take_drop (length (tree_leaves (snd c))) xs) at 1.
        rewrite <- app_assoc, Ht, Hts. simpl.
        rewrite Hleaves, Htleaves, take_drop, Hstruct, Htstruct. auto. }
    destruct Hgo as (ts & Hts & Hleaves & Hstruct).
    exists (Node ts). simpl. rewrite Hts. simpl. rewrite Hleaves, Hstruct. auto.
Qed.

Lemma tree_unflatten_length {A B : Type} (t0 : pytree B) (xs : list A) :
  length xs = length (tree_leaves t0) ->
  exists t, tree_unflatten (tree_structure t0) xs = Ok t /\
            tree_leaves t = xs /\ tree_structure t = tree_structure t0.
Proof.
  intros Hlen. rewrite <- tree_leaves_structure_length in Hlen.
  destruct (unflatten_from_length (tree_structure t0) xs [] Hlen) as (t & Ht & Hl & Hs).
  exists t. unfold tree_unflatten. rewrite app_nil_r in Ht. rewrite Ht.
  split; [reflexivity|]. split; [assumption|].
  rewrite Hs. unfold tree_structure. apply (tree_structure_map (fun _ => tt)).
Qed.

(** Flattening a tree up to its own structure gives its leaves. *)
Lemma flatten_up_to_structure {A : Type} (t : pytree A) :
  flatten_up_to (tree_structure t) t = Ok (map Leaf (tree_leaves t)).
Proof.
  unfold tree_structure.
  induction t as [a|cs IH] using pytree_induction; simpl; [reflexivity|].
  induction IH as [|c cs Hc _ IHcs]; simpl; [reflexivity|].
  rewrite String.eqb_refl, Hc. cbn [result_bind]. rewrite IHcs. cbn [result_bind].
  now rewrite map_app.
Qed.

Lemma flatten_up_to_same {A B : Type} (t0 : pytree B) (t : pytree A) :
  tree_structure t = tree_structure t0 ->
  flatten_up_to (tree_structure t0) t = Ok (map Leaf (tree_leaves t)).
Proof. intros Heq. rewrite <- Heq. apply flatten_up_to_structure. Qed.

Lemma map_result_as_leaf {A : Type} (l : list A) : map_result as_leaf (map Leaf l) = Ok l.
Proof. induction l as [|a l IH]; simpl; [reflexivity|]. now rewrite IH. Qed.

(** When all that [flatten_up_to] returns are leaves, the tree has the
    structure it was flattened up to. *)
Lemma flatten_up_to_leaves {A : Type} (td : treedef) :
  forall (t : pytree A) (l : list A),
  flatten_up_to td t = Ok (map Leaf l) ->
  tree_structure t = td /\ l = tree_leaves t.
Proof.
  unfold tree_structure.
  induction td as [[]|cs IH] using pytree_induction; intros t l.
  - simpl. intros [= Heq]. destruct l as [|a [|b l]]; try discriminate.
    injection Heq as ->. auto.
  - destruct t as [a|ts]; [discriminate|]. simpl. intros Hgo.
    enough (Hboth : map (fun c => (fst c, tree_map (fun _ => tt) (snd c))) ts = cs /\
                    l = flat_map (fun c => tree_leaves (snd c)) ts)
      by (destruct Hboth as [-> ->]; auto).
    revert ts l Hgo.
    induction IH as [|c cs Hc _ IHcs]; intros [|x ts] l; simpl; try discriminate.
    + intros [= Heq]. destruct l; [auto | discriminate].
    + destruct (String.eqb (fst c) (fst x)) eqn:Hk; [|discriminate].
      apply String.eqb_eq in Hk.
      destruct (flatten_up_to (snd c) (snd x)) as [l1|e] eqn:H1; cbn [result_bind];
        [|discriminate].
      match goal with
      | |- context [result_bind ?go _] => destruct go as [r|e] eqn:Hr
      end; cbn [result_bind]; [|discriminate].
      intros [= Heq].
      assert (Hsplit : l1 = map Leaf (take (length l1) l) /\
                       r = map Leaf (drop (length l1) l)).
      { assert (Hlen : length (l1 ++ r) = length (map (@Leaf A) l)) by now rewrite Heq.
        rewrite length_app, length_map in Hlen.
        rewrite <- (take_drop (length l1) l), map_app in Heq.
        apply app_inj_1 in Heq; [tauto|].
        rewrite length_map, length_take. lia. }
      destruct Hsplit as [Hl1 Hr1]. rewrite Hl1 in H1. rewrite Hr1 in Hr.
      destruct (Hc (snd x) _ H1) as [Hs1 Hleaves1].
      destruct (IHcs ts _ Hr) as [Hs2 Hleaves2].
      split.
      * rewrite Hs1, Hs2, <- Hk. now destruct c.
      * rewrite <- Hleaves1, <- Hleaves2. now rewrite take_drop.
Qed.

Lemma map_result_as_leaf_inv {A : Type} (ts : list (pytree A)) (l : list A) :
  map_result as_leaf ts = Ok l -> ts = map Leaf l.
Proof.
  revert l. induction ts as [|[a|cs] ts IH]; intros l; simpl.
  - now intros [= <-].
  - destruct (map_result as_leaf ts) as [l'|e]; cbn [result_bind]; [|discriminate].
    intros [= <-]. simpl. now rewrite (IH l' eq_refl).
  - discriminate.
Qed.

(** [grabber_update] on a gradient of the structure of the state: every
    subtree that [flatten_up_to] hands over is a leaf state. *)
Lemma map_result_update_at (cfg : gmap string R) (ss : list _MetricsLeafState) :
  forall (gs os ns : list array),
  map_result
    (fun z : pytree _MetricsLeafState * array * array * array =>
       let '(state, grad, old_param, new_param) := z in
       _update_param_stats_at state grad (arr_sub new_param old_param) new_param cfg)
    (zip (zip (zip (map Leaf ss) gs) os) ns) =
  map_result
    (fun z : _MetricsLeafState * array * array * array =>
       let '(state, grad, old_param, new_param) := z in
       _update_param_stats state grad (arr_sub new_param old_param) new_param cfg)
    (zip (zip (zip ss gs) os) ns).
Proof.
  induction ss as [|s ss IH]; intros [|g gs] [|o os] [|n ns]; simpl; try reflexivity.
  now rewrite IH.
Qed.

Lemma grabber_update_same (G : TrainingMetricsGrabber)
    (g old_params new_params : pytree array) :
  tree_structure (state G) = tree_structure g ->
  grabber_update G g old_params new_params =
  (new_states_flat <~
     map_result
       (fun z : _MetricsLeafState * array * array * array =>
          let '(state, grad, old_param, new_param) := z in
          _update_param_stats state grad (arr_sub new_param old_param) new_param (config G))
       (zip (zip (zip (tree_leaves (state G)) (tree_leaves g)) (tree_leaves old_params))
            (tree_leaves new_params)) ;;
   new_state <~ tree_unflatten (tree_structure g) new_states_flat ;;
   Ok {| state := new_state; config := config G |}).
Proof.
  intros Hst. unfold grabber_update, tree_flatten.
  rewrite (flatten_up_to_same g (state G) Hst). cbn [result_bind].
  now rewrite map_result_update_at.
Qed.





Lemma create_ok (beta : R) (model_params : pytree array) (config0 : gmap string R) :
  config0 !! "ema_beta" = Some beta ->
  create model_params config0 =
  Ok {| state := tree_map _node_init model_params; config := config0 |}.
Proof. intros Hb. unfold create, _validate_config. now rewrite Hb. Qed.

Lemma same_shape_structure (t1 t2 : pytree array) :
  tree_map length t1 = tree_map length t2 -> tree_structure t1 = tree_structure t2.
Proof.
  intros Heq.
  rewrite <- (tree_structure_map length t1), <- (tree_structure_map length t2).
  now rewrite Heq.
Qed.





(** ** The training loop *)

Section TrainingLoopFacts.

Context {Key OptState Params BatchStats MetricsState MetricsConfig Batch Collection V
         Callback : Type}.
Context `{JaxRuntime} `{Prng Key} `{MetricScalar V}.
Context `{EvalEnv Params BatchStats Batch Collection V}.
Context `{TrainEnv Key OptState Params BatchStats MetricsState MetricsConfig Batch V Callback}.

Local Abbreviation tstate := (train_state OptState Params BatchStats MetricsState).
Local Abbreviation tevent := (event Key OptState Params BatchStats MetricsState V).
Local Abbreviation report_t := (pydict (report_value V)).
Local Abbreviation targs := (train_args MetricsConfig Callback).
Local Abbreviation lvars := (loop_vars OptState Params BatchStats MetricsState).
Implicit Types (es : list tevent).

Lemma traced_bind_events {E A B : Type} (m : traced E A) (k : A -> traced E B) :
  fst (traced_bind m k) =
  fst m ++ match snd m with Ok a => fst (k a) | Raise _ => [] end.
Proof.
  destruct m as [es [a|e]]; simpl; [|now rewrite app_nil_r].
  now destruct (k a).
Qed.

Lemma traced_bind_result {E A B : Type} (m : traced E A) (k : A -> traced E B) :
  snd (traced_bind m k) = match snd m with Ok a => snd (k a) | Raise e => Raise e end.
Proof. destruct m as [es [a|e]]; simpl; [|reflexivity]. now destruct (k a). Qed.

Lemma traced_bind_ret_l {E A B : Type} (x : A) (k : A -> traced E B) :
  traced_bind ([], Ok x) k = k x.
Proof. simpl. now destruct (k x). Qed.

(** Reports *)

Lemma report_update_summary_keys (h : Hps) (report : report_t) lr
    global_step start_step prev_eval_step preemption_count sum_train_cost grad_norm r :
  report_update_summary h report lr global_step start_step prev_eval_step
    preemption_count sum_train_cost grad_norm = Ok r ->
  dict_get r "global_step" = Some (Int global_step) /\
  dict_get r "preemption_count" = Some (Int preemption_count).
Proof.
  unfold report_update_summary.
  destruct (Nat.eqb (train_size h) 0); [discriminate|]. unfold result_bind.
  destruct grad_norm as [g|]; [|discriminate].
  intros [= <-].
  split; repeat (rewrite dict_get_set_ne by discriminate); apply dict_get_set_eq.
Qed.

Lemma run_callbacks_keeps (eval_callbacks : list (Params -> BatchStats -> nat -> report_t))
    (st : tstate) (report r : report_t) k v :
  run_callbacks eval_callbacks st report = Ok r ->
  dict_get report k = Some v -> dict_get r k = Some v.
Proof.
  revert report. induction eval_callbacks as [|run_eval rest IH]; intros report; simpl.
  - now intros [= <-].
  - destruct (existsb _ _) eqn:Hcol; [discriminate|].
    intros Hr Hk. apply (IH _ Hr).
    rewrite dict_get_update_other; [assumption|].
    intros Hin.
    assert (Hex : existsb (fun k => dict_mem k report)
                    (dict_keys (run_eval (params st) (batch_stats st) (global_step st))) = true).
    { apply existsb_exists. exists k. split; [assumption|].
      unfold dict_mem. now rewrite Hk. }
    congruence.
Qed.

Lemma run_shape_app pc g n1 n2 n2' es1 es2 :
  run_shape pc g n1 n1 es1 -> run_shape pc (g + n1) n2 n2' es2 ->
  run_shape pc g (n1 + n2) (n1 + n2') (es1 ++ es2).
Proof.
  intros (Hd1 & Hu1 & Hc1 & Hs1 & Hy1) (Hd2 & Hu2 & Hc2 & Hs2 & Hy2).
  unfold run_shape, dataset_seeds, update_steps, checked_steps, saved_states,
    yielded_reports in *.
  rewrite !omap_app, Hd1, Hd2, Hu1, Hu2, Hc1, Hc2, !seq_app.
  replace (g + n1 + 1) with (g + 1 + n1) by lia.
  repeat split; auto using Forall_app_2.
Qed.

Lemma evaluate_and_yield_shape (a : targs) (dataset : Dataset Batch)
    (eval_callbacks : list (Params -> BatchStats -> nat -> report_t))
    (start_step : nat) (lr : R) (with_callbacks : bool) (lv : lvars) :
  let res := evaluate_and_yield a dataset eval_callbacks start_step lr with_callbacks lv in
  run_shape (preemption_count (lv_state lv)) (global_step (lv_state lv)) 0 0 (fst res) /\
  (forall st report, snd res = Ok (st, report) ->
     global_step st = global_step (lv_state lv) /\
     preemption_count st = preemption_count (lv_state lv)).
Proof.
  unfold evaluate_and_yield, run_shape, lift, emit, traced_ret.
  destruct (evaluation_report _ _ _ _ _ _) as [report0|e]; simpl;
    [|split; [repeat split; auto | discriminate]].
  destruct (report_update_summary _ _ _ _ _ _ _ _ _) as [report1|e] eqn:Hsum; simpl;
    [|split; [repeat split; auto | discriminate]].
  apply report_update_summary_keys in Hsum as [_ Hpc].
  assert (Hcb : forall r,
            (if with_callbacks
             then run_callbacks eval_callbacks
                    (with_batch_stats (lv_state lv)
                       (_maybe_sync_batchnorm_stats (batch_stats (lv_state lv)))) report1
             else Ok report1) = Ok r ->
            dict_get r "preemption_count" = Some (Int (preemption_count (lv_state lv)))).
  { intros r. destruct with_callbacks.
    - intros Hr. now apply (run_callbacks_keeps _ _ _ _ _ _ Hr).
    - now intros [= <-]. }
  destruct (if with_callbacks then _ else _) as [report2|e]; simpl;
    [|split; [repeat split; auto | discriminate]].
  specialize (Hcb report2 eq_refl).
  destruct (Nat.eqb process_index 0); simpl;
    (split; [repeat split; auto | now intros st report [= <- <-]]).
Qed.

Lemma train_iteration_shape (a : targs) (dataset : Dataset Batch)
    (eval_callbacks : list (Params -> BatchStats -> nat -> report_t))
    (rng : Key) (start_step : nat) (lv : lvars) (batch : Batch) :
  let res := train_iteration a dataset eval_callbacks rng start_step lv batch in
  let g := global_step (lv_state lv) in
  let pc := preemption_count (lv_state lv) in
  exists n', n' <= 1 /\
    run_shape pc g 1 n' (fst res) /\
    (forall lv' b, snd res = Ok (lv', b) ->
       n' = 1 /\ global_step (lv_state lv') = g + 1 /\
       preemption_count (lv_state lv') = pc) /\
    (yielded_reports (fst res) <> [] ->
       should_eval (g + 1) (eval_frequency a) (eval_steps a) = true).
Proof.
  cbv zeta.
  remember (train_iteration a dataset eval_callbacks rng start_step lv batch) as res eqn:Hres.
  unfold train_iteration in Hres.
  destruct (existsb _ (checkpoint_steps a) && _);
    (destruct (update_pmapped _ _ _ _ _ _ _ _) as [updated|e];
     [ destruct updated as [[[[[os ps] bs] cost_val] ms] grad_norm];
       destruct (existsb _ (reinit_steps _));
       (destruct (should_eval _ _ _) eqn:Hshould;
        [ cbn [traced_bind emit lift traced_ret] in Hres;
          match type of Hres with
          | context [evaluate_and_yield ?a ?d ?c ?s ?l ?w ?v] =>
              pose proof (evaluate_and_yield_shape a d c s l w v) as Hshape;
              destruct (evaluate_and_yield a d c s l w v) as [es1 [[st report]|e]]
          end;
          cbv zeta in Hshape; cbn [fst snd lv_state global_step preemption_count] in Hshape;
          destruct Hshape as [(Hd1 & Hu1 & Hc1 & Hs1 & Hy1) Hst];
          cbn [traced_bind emit lift traced_ret] in Hres; subst res;
          exists 1; (split; [lia|]);
          unfold run_shape, dataset_seeds, update_steps, checked_steps, saved_states,
            yielded_reports in *;
          cbn [fst snd app omap list_omap];
          rewrite ?app_nil_r, ?omap_app, ?Hd1, ?Hu1, ?Hc1, ?Nat.add_1_r;
          cbn [app seq]
        | cbn [traced_bind emit lift traced_ret] in Hres; subst res;
          exists 1; (split; [lia|]);
          unfold run_shape, dataset_seeds, update_steps, checked_steps, saved_states,
            yielded_reports;
          cbn [fst snd app omap list_omap]; rewrite ?Nat.add_1_r ])
     | cbn [traced_bind emit lift traced_ret] in Hres; subst res;
       exists 0; (split; [lia|]);
       unfold run_shape, dataset_seeds, update_steps, checked_steps, saved_states,
         yielded_reports;
       cbn [fst snd app omap list_omap] ]).
  all: try (split; [repeat split; auto|]).
  all: try (split; [| solve [auto | intros Hne; now contradiction Hne]]).
  all: try discriminate.
  all: try (intros lv' b [= <- <-]; cbn; try destruct (Hst _ _ eq_refl) as [-> ->];
            repeat split; lia).
Qed.

Lemma train_loop_shape (a : targs) (dataset : Dataset Batch)
    (eval_callbacks : list (Params -> BatchStats -> nat -> report_t))
    (rng : Key) (start_step : nat) (train_iter : list Batch) :
  forall lv : lvars,
  let res := train_loop a dataset eval_callbacks rng start_step train_iter lv in
  let g := global_step (lv_state lv) in
  let pc := preemption_count (lv_state lv) in
  exists n n', n' <= n /\ n <= length train_iter /\
    run_shape pc g n n' (fst res) /\
    (forall lv' b, snd res = Ok (lv', b) ->
       n' = n /\ global_step (lv_state lv') = g + n /\
       preemption_count (lv_state lv') = pc).
Proof.
  induction train_iter as [|batch rest IH]; intros lv; cbv zeta.
  - exists 0, 0. simpl. split; [lia|]. split; [lia|].
    split; [repeat split; auto|].
    intros lv' b [= <- <-]. repeat split; lia.
  - remember (train_loop a dataset eval_callbacks rng start_step (batch :: rest) lv)
      as res eqn:Hres.
    cbn [train_loop] in Hres.
    destruct (train_iteration_shape a dataset eval_callbacks rng start_step lv batch)
      as (n1' & Hn1 & Hshape1 & Hok1 & _).
    destruct (train_iteration a dataset eval_callbacks rng start_step lv batch)
      as [es1 [[lv1 [|]]|e]]; cbn [fst snd] in Hshape1, Hok1.
    + destruct (Hok1 lv1 true eq_refl) as (-> & Hg1 & Hpc1).
      cbn [traced_bind traced_ret] in Hres. subst res. cbn [fst snd].
      exists 1, 1. rewrite app_nil_r. simpl length.
      split; [lia|]. split; [lia|]. split; [assumption|].
      intros lv' b [= <- <-]. auto.
    + destruct (Hok1 lv1 false eq_refl) as (-> & Hg1 & Hpc1).
      destruct (IH lv1) as (n2 & n2' & Hle2 & Hlen2 & Hshape2 & Hok2).
      cbn [traced_bind] in Hres.
      destruct (train_loop a dataset eval_callbacks rng start_step rest lv1)
        as [es2 r2]; cbn [fst snd] in Hshape2, Hok2. subst res. cbn [fst snd].
      exists (1 + n2), (1 + n2'). simpl length.
      split; [lia|]. split; [lia|]. split.
      * apply run_shape_app; [assumption|]. rewrite <- Hg1, <- Hpc1. assumption.
      * intros lv' b Hr. destruct (Hok2 lv' b Hr) as (-> & Hg2 & Hpc2).
        repeat split; lia.
    + cbn [traced_bind] in Hres. subst res. cbn [fst snd].
      exists 1, n1'. simpl length.
      split; [lia|]. split; [lia|]. split; [assumption | discriminate].
Qed.

Lemma islice_length {A : Type} (it : list A) (start stop : nat) :
  length (islice it start stop) <= stop - start.
Proof. unfold islice. rewrite length_firstn. lia. Qed.

Lemma train_shape (a : targs) (rng : Key) :
  let restored := fst (train_restored a rng) in
  let is_restored := snd (train_restored a rng) in
  let S := global_step restored in
  let pc := if is_restored then preemption_count restored + 1
            else preemption_count restored in
  let seed := if is_restored then random_fold_in (train_data_rng rng) S
              else train_data_rng rng in
  let es := fst (train a rng) in
  (forall e, train_optimizer a rng = Raise e -> train a rng = ([], Raise e)) /\
  (batch_sizes_ok a = false -> es = []) /\
  ((exists expert, train_optimizer a rng = Ok expert) -> batch_sizes_ok a = true ->
     dataset_seeds es = [seed] /\
     exists n n', n' <= n /\ n <= num_train_steps a - S /\
       update_steps es = seq S n /\
       checked_steps es = seq (S + 1) n' /\
       Forall (fun st => preemption_count st = pc) (saved_states es) /\
       Forall (fun r => dict_get r "preemption_count" = Some (Int pc))
              (yielded_reports es)).
Proof.
  cbv zeta. unfold train_restored, train_data_rng, batch_sizes_ok, train_optimizer.
  remember (train a rng) as res eqn:Hres. unfold train in Hres.
  destruct (random_split rng) as [rng1 init_rng]. cbn [fst snd] in *.
  destruct (random_split rng1) as [rng2 data_rng]. cbn [fst snd] in *.
  destruct (initialize init_rng) as [unreplicated_params unreplicated_batch_stats].
  cbn [fst snd] in *.
  destruct (optimizer_result _) as [fns|e0]; cbn [result_bind];
    [|cbn in Hres; subst res; split; [now intros e [= <-]|];
      split; [reflexivity | now intros [expert Hexpert]]].
  unfold lift at 1 in Hres. rewrite traced_bind_ret_l in Hres.
  destruct (has_current_expert (optimizer_init_fn unreplicated_params));
    [|cbn in Hres; subst res; split; [now intros e [= <-]|];
      split; [reflexivity | now intros [expert Hexpert]]].
  unfold lift at 1 in Hres. rewrite traced_bind_ret_l in Hres.
  split; [discriminate|].
  destruct (replicate_and_maybe_restore_checkpoint _ _ _ _ _ _) as [restored is_restored].
  cbn [fst snd] in *.
  destruct (Nat.eqb device_count 0);
    [cbn in Hres; subst res; split; [reflexivity | discriminate]|].
  destruct (Nat.eqb (batch_size (hps a) mod device_count) 0);
    [|cbn in Hres; subst res; split; [reflexivity | discriminate]].
  destruct (Nat.eqb (_ mod device_count) 0);
    [|cbn in Hres; subst res; split; [reflexivity | discriminate]].
  split; [discriminate|]. intros _ _.
  cbn [negb lift traced_bind emit] in Hres.
  destruct (random_split (random_fold_in rng2 process_index)) as [rng3 callback_rng].
  match type of Hres with
  | context [train_loop ?a ?d ?c ?r ?s ?it ?lv] =>
      pose proof (train_loop_shape a d c r s it lv) as Hloop;
      pose proof (islice_length (train_iterator_fn d) s (num_train_steps a)) as Hlen;
      destruct (train_loop a d c r s it lv) as [es1 [[lv1 returned]|e]]
  end;
    cbv zeta in Hloop; cbn [fst snd lv_state global_step preemption_count] in Hloop, Hlen;
    destruct Hloop as (n & n' & Hle & Hn & (Hd & Hu & Hc & Hs & Hy) & Hok).
  - destruct (Hok lv1 returned eq_refl) as (-> & Hg1 & Hpc1).
    cbn [traced_bind] in Hres. destruct returned.
    + cbn [traced_ret] in Hres. subst res. cbn [fst].
      unfold dataset_seeds, update_steps, checked_steps, saved_states, yielded_reports in *.
      rewrite !omap_app, Hd, Hu, Hc. cbn [omap list_omap app]. rewrite ?app_nil_r.
      split; [reflexivity|]. exists n, n. repeat split; auto; lia.
    + destruct (negb (Nat.eqb (lv_prev_eval_step lv1) (num_train_steps a))).
      * match type of Hres with
        | context [evaluate_and_yield ?a ?d ?c ?s ?l ?w ?v] =>
            pose proof (evaluate_and_yield_shape a d c s l w v) as Hfinal;
            destruct (evaluate_and_yield a d c s l w v) as [es2 [[st report]|e]]
        end;
          cbv zeta in Hfinal; cbn [fst snd] in Hfinal;
          destruct Hfinal as [(Hd2 & Hu2 & Hc2 & Hs2 & Hy2) _];
          cbn [traced_bind traced_ret emit] in Hres; subst res; cbn [fst];
          unfold dataset_seeds, update_steps, checked_steps, saved_states,
            yielded_reports in *;
          rewrite !omap_app, Hd, Hu, Hc, Hd2, Hu2, Hc2;
          cbn [omap list_omap app seq]; rewrite ?app_nil_r;
          rewrite Hpc1 in Hs2, Hy2;
          (split; [reflexivity|]); exists n, n;
          repeat split; auto using Forall_app_2; lia.
      * cbn [traced_bind traced_ret emit] in Hres. subst res. cbn [fst].
        unfold dataset_seeds, update_steps, checked_steps, saved_states,
          yielded_reports in *.
        rewrite !omap_app, Hd, Hu, Hc. cbn [omap list_omap app]. rewrite ?app_nil_r.
        split; [reflexivity|]. exists n, n. repeat split; auto; lia.
  - cbn [traced_bind] in Hres. subst res. cbn [fst].
    unfold dataset_seeds, update_steps, checked_steps, saved_states, yielded_reports in *.
    rewrite !omap_app, Hd, Hu, Hc. cbn [omap list_omap app].
    split; [reflexivity|]. exists n, n'. repeat split; auto; lia.
Qed.


(** C10: the cadence check is made on the incremented [global_step]: one
    pass through the loop body at step [g] runs [update] at [g] and checks
    at most [g + 1], and yields only if the check of [g + 1] says so; in a
    whole run the checked values are consecutive from the starting step
    plus one, so none of them is below it and none is 0. *)
Theorem cadence_check_after_increment (a : targs) (rng : Key) :
  let start_step := global_step (fst (train_restored a rng)) in
  let es := fst (train a rng) in
  (exists n, checked_steps es = seq (start_step + 1) n) /\
  Forall (fun s => start_step + 1 <= s) (checked_steps es) /\
  ~ In 0 (checked_steps es) /\
  (forall dataset eval_callbacks rng' start (lv : lvars) batch,
     let step_events :=
       fst (train_iteration a dataset eval_callbacks rng' start lv batch) in
     let g := global_step (lv_state lv) in
     update_steps step_events = [g] /\
     (checked_steps step_events = [] \/ checked_steps step_events = [g + 1]) /\
     (yielded_reports step_events <> [] ->
        should_eval (g + 1) (eval_frequency a) (eval_steps a) = true)).
Proof.
  cbv zeta.
  assert (Hchecked : exists n, checked_steps (fst (train a rng)) =
                               seq (global_step (fst (train_restored a rng)) + 1) n).
  { destruct (train_shape a rng) as (Hraised & Hbad & Hshape).
    cbv zeta in Hraised, Hbad, Hshape.
    destruct (train_optimizer a rng) as [expert|e] eqn:Hoptimizer.
    - destruct (batch_sizes_ok a).
      + destruct (Hshape (ex_intro _ expert eq_refl) eq_refl)
          as (_ & n & n' & _ & _ & _ & Hc & _). eauto.
      + rewrite (Hbad eq_refl). exists 0. reflexivity.
    - rewrite (Hraised e eq_refl). exists 0. reflexivity. }
  destruct Hchecked as [n Hc]. split; [eauto|]. rewrite Hc. split; [|split].
  - apply List.Forall_forall. intros s Hs. apply in_seq in Hs. lia.
  - intros Hin. apply in_seq in Hin. lia.
  - intros dataset eval_callbacks rng' start lv batch.
    destruct (train_iteration_shape a dataset eval_callbacks rng' start lv batch)
      as (n1 & Hn1 & (_ & Hu & Hc1 & _) & _ & Hyield).
    split; [exact Hu|]. split; [|exact Hyield].
    rewrite Hc1. destruct n1 as [|[|n1]]; [now left | now right | lia].
Qed.

End TrainingLoopFacts.

(** ** A resumed run *)

Example toy_run_steps :
  update_steps (fst (toy_run true)) = [3; 4] /\
  checked_steps (fst (toy_run true)) = [4; 5] /\
  dataset_seeds (fst (toy_run true)) = [16] /\
  dataset_seeds (fst (toy_run false)) = [4] /\
  update_steps (fst (toy_run false)) = [0; 1; 2; 3; 4] /\
  map preemption_count (saved_states (fst (toy_run true))) = [2; 2; 2] /\
  map (fun r => dict_get r "global_step") (yielded_reports (fst (toy_run true))) =
    [Some (Int 4); Some (Int 5)].
Proof. repeat split; reflexivity. Qed.


(** C8, counterexample: with a generator whose [fold_in] gives the key
    back, the run that restores step 3 builds its dataset from the seed
    of the run that restores nothing. *)
Lemma restored_seed_can_repeat :
  let run is_restored :=
    fst (@train nat unit unit unit unit unit unit unit nat unit
           single_device forgetful_prng toy_scalar toy_eval (toy_env is_restored)
           toy_args 0) in
  @train_restored nat unit unit unit unit unit unit nat unit
    forgetful_prng (toy_env true) toy_args 0 = (toy_restored, true) /\
  global_step toy_restored = 3 /\
  dataset_seeds (run true) = [4] /\
  dataset_seeds (run false) = [4].
Proof. repeat split; reflexivity. Qed.

(** * Part III: further properties of the code *)

(** ** Evaluation: which error, and which keys *)

Section EvaluationErrors.
Context {Params BatchStats Batch Collection V : Type}.
Context `{MetricScalar V} `{EvalEnv Params BatchStats Batch Collection V}.
Implicit Types (params : Params) (batch_stats : BatchStats) (batch_iter : list Batch).

Lemma raise_on_nan_first (pre post : pydict V) (key : string) (val : V) :
  Forall (fun kv => isnan (snd kv) = false) pre ->
  isnan val = true ->
  raise_on_nan (pre ++ (key, val) :: post) =
    Raise (TrainingDivergedError ("NaN detected in " ++ key)).
Proof.
  intros Hpre Hval. induction Hpre as [|[k v] pre Hv _ IH]; simpl.
  - now rewrite Hval.
  - simpl in Hv. now rewrite Hv.
Qed.

(** Some entry of a mapping is NaN exactly when the mapping splits at its
    first NaN entry. *)
Lemma has_nan_first (items : pydict V) :
  has_nan items ->
  exists pre key val post,
    items = pre ++ (key, val) :: post /\
    Forall (fun kv => isnan (snd kv) = false) pre /\ isnan val = true.
Proof.
  induction items as [|[k v] items IH]; intros (key & val & Hin & Hnan).
  - destruct Hin.
  - destruct (isnan v) eqn:Hv.
    + exists [], k, v, items. repeat split; auto.
    + destruct IH as (pre & key' & val' & post & -> & Hpre & Hval).
      { destruct Hin as [[= -> ->]|Hin]; [congruence|]. exists key, val. auto. }
      exists ((k, v) :: pre), key', val', post. repeat split; auto.
Qed.

(** X1: the error of [evaluate] names the first metric, in the order in
    which [compute] lists them, whose value is NaN; the metrics after it
    are not looked at, and the name does not say which batches or split
    the value came from. *)
Theorem evaluate_names_first_nan params batch_stats (first : Batch) (rest : list Batch)
    (pre post : pydict V) (key : string) (val : V) :
  compute (merged_metrics params batch_stats first rest) = pre ++ (key, val) :: post ->
  Forall (fun kv => isnan (snd kv) = false) pre ->
  isnan val = true ->
  evaluate params batch_stats (first :: rest) =
    Raise (TrainingDivergedError ("NaN detected in " ++ key)) /\
  forall post' : pydict V,
    raise_on_nan (pre ++ (key, val) :: post') = raise_on_nan (pre ++ (key, val) :: post).
Proof.
  intros Hcompute Hpre Hval. split.
  - unfold evaluate. rewrite evaluate_batches_cons, Hcompute.
    now rewrite raise_on_nan_first.
  - intros post'. now rewrite !raise_on_nan_first.
Qed.

(** X2: [eval_metrics] raises exactly when [evaluate] raises on one of the
    three splits, and then with the error of the first of them in the order
    train, valid, test: a split after the failing one has no effect.  What
    it raises is always a [TrainingDivergedError]. *)
Theorem eval_metrics_first_failure params batch_stats (dataset : Dataset Batch) n nt :
  let train_r := evaluate params batch_stats (eval_train_epoch dataset nt) in
  let valid_r := evaluate params batch_stats (valid_epoch dataset n) in
  let test_r := evaluate params batch_stats (test_epoch dataset n) in
  (forall e, eval_metrics params batch_stats dataset n nt = Raise e <->
     train_r = Raise e \/
     ((exists m, train_r = Ok m) /\ valid_r = Raise e) \/
     ((exists m, train_r = Ok m) /\ (exists m, valid_r = Ok m) /\ test_r = Raise e)) /\
  (forall e, eval_metrics params batch_stats dataset n nt = Raise e ->
     exists key, e = TrainingDivergedError ("NaN detected in " ++ key)) /\
  ((exists report, eval_metrics params batch_stats dataset n nt = Ok report) <->
   (exists m, train_r = Ok m) /\ (exists m, valid_r = Ok m) /\ (exists m, test_r = Ok m)).
Proof.
  cbv zeta. rewrite eval_metrics_unfold.
  assert (Hmsg : forall batch_iter e, evaluate params batch_stats batch_iter = Raise e ->
            exists key, e = TrainingDivergedError ("NaN detected in " ++ key)).
  { intros batch_iter e. unfold evaluate.
    destruct batch_iter as [|first rest]; [discriminate|].
    rewrite evaluate_batches_cons.
    destruct (raise_on_nan_cases (compute (merged_metrics params batch_stats first rest)))
      as [[Hok _] | [Hnan _]].
    - rewrite Hok. discriminate.
    - destruct (has_nan_first _ Hnan) as (pre & key & val & post & -> & Hpre & Hval).
      rewrite raise_on_nan_first by assumption. simpl. intros [= <-]. eauto. }
  destruct (evaluate params batch_stats (eval_train_epoch dataset nt)) as [tr|e1] eqn:Etr;
    simpl.
  2:{ split; [|split].
      - intros e. split; [intros [= <-]; auto|].
        intros [[= <-]|[[[m Hm] _]|[[m Hm] _]]]; [reflexivity | discriminate | discriminate].
      - intros e [= <-]. eauto.
      - split; [intros [r Hr]; discriminate | intros [[m Hm] _]; discriminate]. }
  destruct (evaluate params batch_stats (valid_epoch dataset n)) as [va|e2] eqn:Eva;
    simpl.
  2:{ split; [|split].
      - intros e. split; [intros [= <-]; eauto 6|].
        intros [Hr|[[_ [= <-]]|(_ & [m Hm] & _)]]; [discriminate | reflexivity | discriminate].
      - intros e [= <-]. eauto.
      - split; [intros [r Hr]; discriminate | intros (_ & [m Hm] & _); discriminate]. }
  destruct (evaluate params batch_stats (test_epoch dataset n)) as [te|e3] eqn:Ete;
    simpl.
  - split; [|split].
    + intros e. split; [discriminate|].
      intros [Hr|[[_ Hr]|(_ & _ & Hr)]]; discriminate.
    + discriminate.
    + split; eauto 7.
  - split; [|split].
    + intros e. split; [intros [= <-]; eauto 8|].
      intros [Hr|[[_ Hr]|(_ & _ & [= <-])]]; [discriminate | discriminate | reflexivity].
    + intros e [= <-]. eauto.
    + split; [intros [r Hr]; discriminate | intros (_ & _ & [m Hm]); discriminate].
Qed.

(** The keys of a merge, in order. *)
Lemma dict_keys_set_fresh {W : Type} (d : pydict W) (k : string) (v : W) :
  ~ In k (dict_keys d) -> dict_keys (dict_set d k v) = dict_keys d ++ [k].
Proof.
  induction d as [|[k' v'] d IH]; simpl; intros Hout; [reflexivity|].
  destruct (String.eqb k' k) eqn:E.
  - apply String.eqb_eq in E. tauto.
  - simpl. rewrite IH by tauto. reflexivity.
Qed.

Lemma dict_keys_set_present {W : Type} (d : pydict W) (k : string) (v : W) :
  In k (dict_keys d) -> dict_keys (dict_set d k v) = dict_keys d.
Proof.
  induction d as [|[k' v'] d IH]; simpl; intros Hin; [contradiction|].
  destruct (String.eqb k' k) eqn:E; [reflexivity|].
  apply String.eqb_neq in E. simpl. rewrite IH by tauto. reflexivity.
Qed.

Lemma merge_prefix_key_order (d1 d2 : pydict V) (prefix : string) (ks : list string) :
  List.NoDup ks ->
  (forall k, In k ks -> In k (dict_keys d2)) ->
  dict_keys
    (fold_left (fun d1 key => match dict_get d2 key with
                              | Some v => dict_set d1 (prefix ++ key) v
                              | None => d1
                              end) ks d1) =
  dict_keys d1 ++
  List.filter (fun key => negb (dict_mem key d1)) (map (String.append prefix) ks).
Proof.
  revert d1. induction ks as [|k0 ks IH]; intros d1 Hnd Hin; simpl.
  - now rewrite app_nil_r.
  - apply List.NoDup_cons_iff in Hnd as [Hfresh Hnd].
    destruct (dict_get d2 k0) as [v|] eqn:Hget.
    2:{ apply dict_get_None in Hget. exfalso. apply Hget, Hin. now left. }
    rewrite IH; [| assumption | intros k Hk; apply Hin; now right].
    assert (Hfilter :
      List.filter (fun key => negb (dict_mem key (dict_set d1 (prefix ++ k0) v)))
                  (map (String.append prefix) ks) =
      List.filter (fun key => negb (dict_mem key d1)) (map (String.append prefix) ks)).
    { apply filter_ext_in. intros key Hkey. unfold dict_mem.
      apply in_map_iff in Hkey as (k & <- & Hk).
      rewrite dict_get_set_ne; [reflexivity|].
      intros Heq. apply string_app_inj in Heq. congruence. }
    rewrite Hfilter. unfold dict_mem at 2.
    destruct (dict_get d1 (prefix ++ k0)) as [v0|] eqn:Hd1; simpl.
    + rewrite dict_keys_set_present by (apply dict_get_is_Some; eauto). reflexivity.
    + rewrite dict_keys_set_fresh by (now apply dict_get_None).
      now rewrite <- app_assoc.
Qed.

(** X3: [_merge_and_apply_prefix d1 d2 prefix] holds [d2[k]] under
    [prefix + k] for every key [k] of [d2], overwriting what [d1] had
    there, and what [d1] holds under every other key; the keys of [d1]
    keep their places and the new keys follow in the order of [d2]. *)
Theorem merge_and_apply_prefix_lookup (d1 d2 : pydict V) (prefix : string) :
  List.NoDup (dict_keys d2) ->
  let merged := _merge_and_apply_prefix d1 d2 prefix in
  (forall k v, dict_get d2 k = Some v -> dict_get merged (prefix ++ k) = Some v) /\
  (forall key, (forall k, In k (dict_keys d2) -> key <> (prefix ++ k)%string) ->
     dict_get merged key = dict_get d1 key) /\
  (forall key, In key (dict_keys merged) <->
     In key (dict_keys d1) \/ exists k, In k (dict_keys d2) /\ key = (prefix ++ k)%string) /\
  dict_keys merged =
    dict_keys d1 ++
    List.filter (fun key => negb (dict_mem key d1))
                (map (String.append prefix) (dict_keys d2)).
Proof.
  intros Hnd merged.
  assert (Hhere : forall k v, dict_get d2 k = Some v ->
                              dict_get merged (prefix ++ k) = Some v).
  { intros k v Hk. unfold merged.
    rewrite (proj1 (merge_and_apply_prefix_get d1 d2 prefix) k). now rewrite Hk. }
  assert (Hother : forall key,
            (forall k, In k (dict_keys d2) -> key <> (prefix ++ k)%string) ->
            dict_get merged key = dict_get d1 key).
  { intros key Hne. unfold merged, _merge_and_apply_prefix.
    apply merge_prefix_other. intros k Hk Heq. now apply (Hne k Hk). }
  split; [exact Hhere|]. split; [exact Hother|]. split.
  - intros key. split.
    + apply merge_prefix_keys.
    + intros [Hin|(k & Hk & ->)]; apply dict_get_is_Some.
      * destruct (in_dec String.string_dec key (map (String.append prefix) (dict_keys d2)))
          as [Hpre|Hnot].
        -- apply in_map_iff in Hpre as (k & <- & Hk).
           apply dict_get_is_Some in Hk as [v Hv]. rewrite (Hhere k v Hv). eauto.
        -- rewrite Hother; [now apply dict_get_is_Some|].
           intros k Hk ->. apply Hnot. apply in_map_iff. eauto.
      * apply dict_get_is_Some in Hk as [v Hv]. rewrite (Hhere k v Hv). eauto.
  - unfold merged, _merge_and_apply_prefix. now apply merge_prefix_key_order.
Qed.

End EvaluationErrors.

Lemma merge_and_apply_prefix_lookup_witness :
  let merged :=
    _merge_and_apply_prefix [("train/loss", 1); ("valid/loss", 2)]
                            [("loss", 3); ("error_rate", 4)] "valid/" in
  (forall k v, dict_get [("loss", 3); ("error_rate", 4)] k = Some v ->
               dict_get merged ("valid/" ++ k) = Some v) /\
  dict_keys merged = ["train/loss"; "valid/loss"; "valid/error_rate"].
Proof.
  destruct (@merge_and_apply_prefix_lookup nat
              [("train/loss", 1); ("valid/loss", 2)] [("loss", 3); ("error_rate", 4)]
              "valid/") as (Hhere & _ & _ & Hkeys).
  - repeat constructor; simpl; intuition discriminate.
  - split; [exact Hhere | exact Hkeys].
Defined.

Lemma evaluate_names_first_nan_witness :
  @evaluate unit unit unit unit nat toy_nan_scalar toy_nan_eval tt tt [tt; tt] =
    Raise (TrainingDivergedError "NaN detected in error_rate").
Proof.
  destruct (@evaluate_names_first_nan unit unit unit unit nat toy_nan_scalar toy_nan_eval
              tt tt tt [tt] [("loss", 1)] [("accuracy", 0)] "error_rate" 0)
    as [Hraise _].
  - reflexivity.
  - repeat constructor.
  - reflexivity.
  - exact Hraise.
Defined.
(** ** Learning-rate injection: what it leaves alone *)

Section InjectionMore.
Context {Inner : Type}.
Implicit Types (s base : opt_state Inner) (hp : gmap string R) (lr : R).

Lemma inject_forgets s lr :
  without_learning_rate (fst (_inject_learning_rate s lr)) = without_learning_rate s.
Proof.
  induction s as [count hp inner | base IH hp acc | x]; simpl.
  - destruct (hp_mem "learning_rate" hp); simpl; [|reflexivity].
    now rewrite delete_insert_eq.
  - destruct (_inject_learning_rate base lr) as [base' outcome]. simpl in *.
    now rewrite IH.
  - reflexivity.
Qed.

Lemma inject_outcome_independent s lr lr' :
  snd (_inject_learning_rate s lr) = snd (_inject_learning_rate s lr').
Proof.
  induction s as [count hp inner | base IH hp acc | x]; simpl.
  - now destruct (hp_mem "learning_rate" hp).
  - destruct (_inject_learning_rate base lr) as [b1 o1],
             (_inject_learning_rate base lr') as [b2 o2]. exact IH.
  - reflexivity.
Qed.

Lemma inject_twice s lr1 lr2 :
  _inject_learning_rate (fst (_inject_learning_rate s lr1)) lr2 = _inject_learning_rate s lr2.
Proof.
  induction s as [count hp inner | base IH hp acc | x]; simpl.
  - destruct (hp_mem "learning_rate" hp) eqn:Hmem; simpl.
    + rewrite hp_mem_insert. now rewrite insert_insert_eq.
    + now rewrite Hmem.
  - destruct (_inject_learning_rate base lr1) as [b1 o1]. simpl in *.
    now rewrite IH.
  - reflexivity.
Qed.

Lemma inject_no_slot s lr :
  learning_rate_slot s = None -> fst (_inject_learning_rate s lr) = s.
Proof.
  induction s as [count hp inner | base IH hp acc | x]; simpl; intros Hslot.
  - unfold hp_mem. now rewrite Hslot.
  - destruct (_inject_learning_rate base lr) as [b1 o1]. simpl in *.
    now rewrite IH.
  - reflexivity.
Qed.

(** X4: [_inject_learning_rate] touches nothing but the ['learning_rate']
    slot: the state with that slot taken out is the same before and
    after; whether it raises does not depend on the rate; a second
    injection overrides the first; and an [InjectHyperparamsState] whose
    hyperparameters have no ['learning_rate'] is accepted and left as it
    is, without an error. *)
Theorem inject_learning_rate_only :
  (forall s lr,
     without_learning_rate (fst (_inject_learning_rate s lr)) = without_learning_rate s) /\
  (forall s lr lr', snd (_inject_learning_rate s lr) = snd (_inject_learning_rate s lr')) /\
  (forall s lr1 lr2,
     _inject_learning_rate (fst (_inject_learning_rate s lr1)) lr2 =
     _inject_learning_rate s lr2) /\
  (forall count hp (inner : Inner) lr,
     hp !! "learning_rate" = None ->
     _inject_learning_rate (InjectHyperparamsState count hp inner) lr =
       (InjectHyperparamsState count hp inner, Ok tt)) /\
  (forall s lr, learning_rate_slot s = None -> fst (_inject_learning_rate s lr) = s).
Proof.
  split; [exact inject_forgets|]. split; [exact inject_outcome_independent|].
  split; [exact inject_twice|]. split; [|exact inject_no_slot].
  intros count hp inner lr Hnone. simpl. unfold hp_mem. now rewrite Hnone.
Qed.

End InjectionMore.

(** ** The training step: errors, and what the optimizer is given *)

Section StepMore.
Context {Inner Batch BatchStats Key MetricsState : Type}.
Context `{JaxRuntime} `{Prng Key} `{Autodiff (gmap string BatchStats)}.

(** X5: [update] on an optimizer state that the injection does not accept
    raises the injection's error, a [ValueError], whatever the other
    arguments are; and when [metrics_state] is [None] the metrics update
    function plays no role and the new metrics state is [None]. *)
Theorem update_unsupported_state (axis : axis_env cost_and_grad)
    (optimizer_state : opt_state Inner) (params : pytree array)
    (batch_stats : option BatchStats) (metrics_state : option MetricsState)
    (batch : Batch) (step : nat) (lr : R) (rng : Key) (local_device_index : nat)
    training_cost grad_clip optimizer_update_fn
    (metrics_update_fn metrics_update_fn' :
       MetricsState -> pytree array -> pytree array -> pytree array -> result MetricsState) :
  (forall e, snd (_inject_learning_rate optimizer_state lr) = Raise e ->
     update axis optimizer_state params batch_stats metrics_state batch step lr rng
       local_device_index training_cost grad_clip optimizer_update_fn metrics_update_fn =
     Raise e /\ exists msg, e = ValueError msg) /\
  (forall x : Inner, exists msg,
     update axis (OtherState x) params batch_stats metrics_state batch step lr rng
       local_device_index training_cost grad_clip optimizer_update_fn metrics_update_fn =
     Raise (ValueError msg)) /\
  update axis optimizer_state params batch_stats None batch step lr rng
    local_device_index training_cost grad_clip optimizer_update_fn metrics_update_fn =
  update axis optimizer_state params batch_stats None batch step lr rng
    local_device_index training_cost grad_clip optimizer_update_fn metrics_update_fn' /\
  (forall os p bs c ms gn,
     update axis optimizer_state params batch_stats None batch step lr rng
       local_device_index training_cost grad_clip optimizer_update_fn metrics_update_fn =
     Ok (os, p, bs, c, ms, gn) -> ms = None).
Proof.
  split; [|split; [|split]].
  - intros e He. split; [|now apply (inject_raises_unchanged optimizer_state lr e)].
    unfold update. destruct (_inject_learning_rate optimizer_state lr) as [s1 outcome].
    simpl in He. now subst outcome.
  - intros x. unfold update. simpl. eauto.
  - unfold update. destruct (_inject_learning_rate optimizer_state lr) as [s1 [[]|e]];
      [|reflexivity].
    reflexivity.
  - intros os p bs c ms gn. unfold update.
    destruct (_inject_learning_rate optimizer_state lr) as [s1 [[]|e]]; simpl;
      [|discriminate].
    destruct (value_and_grad _ params) as [[cost0 aux] grad0].
    destruct (lax_pmean _ _ _) as [[cost grad]|e]; simpl; [|discriminate].
    destruct (hyperparams_of s1) as [hp|e]; simpl; [|discriminate].
    destruct (optimizer_update_fn _ _ _ _ _) as [model_updates new_optimizer_state].
    destruct (apply_updates params model_updates) as [new_params|e]; simpl; [|discriminate].
    now intros [= _ _ _ _ <- _].
Qed.

Lemma hyperparams_of_set (s : opt_state Inner) (hp : gmap string R) (k : string) (v : R) :
  hyperparams_of s = Ok hp -> hyperparams_of (set_hyperparam s k v) = Ok (<[k := v]> hp).
Proof. destruct s; simpl; intros [= <-]; reflexivity. Qed.

Lemma learning_rate_slot_set (s : opt_state Inner) (k : string) (v : R) :
  k <> "learning_rate" ->
  learning_rate_slot (set_hyperparam s k v) = learning_rate_slot s.
Proof. intros Hne. destruct s; simpl; [now rewrite lookup_insert_ne | reflexivity..]. Qed.

(** X6: the state that [update] hands to the optimizer holds the injected
    learning rate, and, when its hyperparameters have a ['train_loss']
    slot, the cost averaged over the devices of the host in that slot; a
    state without the slot is handed on as the injection left it. *)
Theorem update_injects_train_loss (axis : axis_env cost_and_grad)
    (optimizer_state : opt_state Inner) (params : pytree array)
    (batch_stats : option BatchStats) (metrics_state : option MetricsState)
    (batch : Batch) (step : nat) (lr : R) (rng : Key) (local_device_index : nat)
    training_cost grad_clip optimizer_update_fn
    (metrics_update_fn : MetricsState -> pytree array -> pytree array -> pytree array ->
                         result MetricsState)
    s1 cost0 aux grad0 cost grad hp :
  _inject_learning_rate optimizer_state lr = (s1, Ok tt) ->
  value_and_grad
    (fun p => training_cost p batch batch_stats
                (random_fold_in (random_fold_in rng step) local_device_index))
    params = ((cost0, aux), grad0) ->
  lax_pmean axis (cost0, grad0) _get_axis_index_groups = Ok (cost, grad) ->
  hyperparams_of s1 = Ok hp ->
  exists s2,
    update axis optimizer_state params batch_stats metrics_state batch step lr rng
      local_device_index training_cost grad_clip optimizer_update_fn metrics_update_fn =
    (let grad_norm := sqrt (l2_regularization grad 0) in
     let clipped := clip_gradient grad_clip grad_norm grad in
     let (model_updates, new_optimizer_state) :=
       optimizer_update_fn clipped s2 params batch (aux !! "batch_stats") in
     new_params <~ apply_updates params model_updates ;;
     new_metrics_state <~
       match metrics_state with
       | Some ms => m <~ metrics_update_fn ms clipped params new_params ;; Ok (Some m)
       | None => Ok None
       end ;;
     Ok (new_optimizer_state, new_params, aux !! "batch_stats", cost, new_metrics_state,
         grad_norm)) /\
    (is_Some (hp !! "train_loss") -> hyperparams_of s2 = Ok (<["train_loss" := cost]> hp)) /\
    (hp !! "train_loss" = None -> s2 = s1) /\
    learning_rate_slot s2 = learning_rate_slot s1 /\
    (is_Some (learning_rate_slot optimizer_state) -> learning_rate_slot s2 = Some lr).
Proof.
  intros Hinject Hgrad Hmean Hhp.
  exists (if hp_mem "train_loss" hp then set_hyperparam s1 "train_loss" cost else s1).
  split; [now apply (update_unfold _ _ _ _ _ _ _ _ _ _ _ _ _ _ s1 cost0 aux grad0 cost grad hp)|].
  assert (Hslot : learning_rate_slot
                    (if hp_mem "train_loss" hp then set_hyperparam s1 "train_loss" cost
                     else s1) = learning_rate_slot s1).
  { destruct (hp_mem "train_loss" hp); [|reflexivity].
    now apply learning_rate_slot_set. }
  split; [|split; [|split; [exact Hslot|]]].
  - intros Hsome. apply hp_mem_true in Hsome. rewrite Hsome.
    now apply hyperparams_of_set.
  - intros Hnone. unfold hp_mem. now rewrite Hnone.
  - intros Hsome. rewrite Hslot.
    destruct (inject_accepted optimizer_state lr Hsome) as [_ Hlr].
    now rewrite Hinject in Hlr.
Qed.

End StepMore.

Local Open Scope R_scope.

Lemma update_injects_train_loss_witness :
  exists s2 : opt_state unit,
    hyperparams_of s2 =
      Ok (<["train_loss" := 1]>
            (<["learning_rate" := 1 / 10]> (<["train_loss" := 0]> (<["learning_rate" := 0]> ∅)))) /\
    learning_rate_slot s2 = Some (1 / 10).
Proof.
  destruct (@update_injects_train_loss unit unit unit unit (pytree array)
              single_device constant_prng example_autodiff
              lone_axis
              (InjectHyperparamsState O (<["train_loss" := 0]> (<["learning_rate" := 0]> ∅)) tt)
              (Leaf [0; 0]) None (Some (Leaf [])) tt O (1 / 10) tt O
              (fun _ _ _ _ => (1, ∅)) None
              (fun g s _ _ _ => (g, s)) (fun _ g _ _ => Ok g)
              (InjectHyperparamsState O
                 (<["learning_rate" := 1 / 10]>
                    (<["train_loss" := 0]> (<["learning_rate" := 0]> ∅))) tt)
              1 ∅ example_grad 1 example_grad
              (<["learning_rate" := 1 / 10]>
                 (<["train_loss" := 0]> (<["learning_rate" := 0]> ∅))))
    as (s2 & _ & Hloss & _ & _ & Hlr).
  - simpl. rewrite hp_mem_insert_ne, hp_mem_insert by discriminate. reflexivity.
  - reflexivity.
  - apply example_pmean.
  - reflexivity.
  - exists s2. split.
    + apply Hloss. rewrite lookup_insert_ne by discriminate.
      rewrite lookup_insert_eq. eauto.
    + apply Hlr. simpl. rewrite lookup_insert_ne by discriminate.
      rewrite lookup_insert_eq. eauto.
Defined.

Local Close Scope R_scope.

(** ** Pytrees: structure and leaves determine the tree *)

Lemma unflatten_from_node {A : Type} (cs : list (string * treedef)) (xs : list A) :
  unflatten_from (Node cs) xs =
  match unflatten_children cs xs with
  | Some (ts, xs') => Some (Node ts, xs')
  | None => None
  end.
Proof. reflexivity. Qed.

Lemma unflatten_children_cons {A : Type} (c : string * treedef)
    (cs : list (string * treedef)) (xs : list A) :
  unflatten_children (c :: cs) xs =
  match unflatten_from (snd c) xs with
  | Some (t, xs1) =>
      match unflatten_children cs xs1 with
      | Some (ts, xs2) => Some ((fst c, t) :: ts, xs2)
      | None => None
      end
  | None => None
  end.
Proof. reflexivity. Qed.

(** What [unflatten_from] returns has the structure asked for, and its
    leaves are the front of the list given. *)
Lemma unflatten_from_inv {A : Type} (td : treedef) :
  forall (xs : list A) (t : pytree A) (rest : list A),
  unflatten_from td xs = Some (t, rest) ->
  xs = tree_leaves t ++ rest /\ tree_structure t = td.
Proof.
  induction td as [[]|cs IH] using pytree_induction; intros xs t rest.
  - simpl. destruct xs as [|x xs]; [discriminate|]. intros [= <- <-]. auto.
  - rewrite unflatten_from_node.
    assert (Hgo : forall (xs : list A) ts rest,
              unflatten_children cs xs = Some (ts, rest) ->
              xs = flat_map (fun c => tree_leaves (snd c)) ts ++ rest /\
              map (fun c => (fst c, tree_structure (snd c))) ts = cs).
    { clear xs t rest. induction IH as [|c cs Hc _ IHcs]; intros xs ts rest.
      - intros [= <- <-]. auto.
      - rewrite unflatten_children_cons.
        destruct (unflatten_from (snd c) xs) as [[t xs1]|] eqn:Ht; [|discriminate].
        destruct (unflatten_children cs xs1) as [[ts' xs2]|] eqn:Hts; [|discriminate].
        intros [= <- <-].
        destruct (Hc _ _ _ Ht) as [-> Hst].
        destruct (IHcs _ _ _ Hts) as [-> Hsts].
        simpl. rewrite <- app_assoc, Hst, Hsts. split; [reflexivity|].
        now destruct c. }
    destruct (unflatten_children cs xs) as [[ts xs']|] eqn:Hts; [|discriminate].
    intros [= <- <-]. destruct (Hgo _ _ _ Hts) as [-> Hsts].
    split; [reflexivity|]. unfold tree_structure in *. simpl. now rewrite Hsts.
Qed.

Lemma tree_unflatten_inv {A : Type} (td : treedef) (xs : list A) (t : pytree A) :
  tree_unflatten td xs = Ok t -> tree_leaves t = xs /\ tree_structure t = td.
Proof.
  unfold tree_unflatten.
  destruct (unflatten_from td xs) as [[t' [|x rest]]|] eqn:Hun; try discriminate.
  intros [= <-]. destruct (unflatten_from_inv td xs t' [] Hun) as [-> Hst].
  now rewrite app_nil_r.
Qed.


Lemma tree_map_id {A : Type} (t : pytree A) : tree_map (fun a => a) t = t.
Proof.
  induction t as [a|cs IH] using pytree_induction; simpl; [reflexivity|].
  f_equal. induction IH as [|[k c] cs Hc _ IHcs]; simpl; [reflexivity|].
  simpl in Hc. now rewrite Hc, IHcs.
Qed.

Lemma tree_eq_of_leaves {A : Type} (t1 t2 : pytree A) :
  tree_structure t1 = tree_structure t2 -> tree_leaves t1 = tree_leaves t2 -> t1 = t2.
Proof.
  intros Hst Hl.
  pose proof (unflatten_from_leaves (fun a => a) t1 []) as H1.
  pose proof (unflatten_from_leaves (fun a => a) t2 []) as H2.
  rewrite map_id, tree_map_id in H1, H2. rewrite Hst, Hl, H2 in H1.
  now injection H1.
Qed.

Lemma treedef_eqb_neq (t1 t2 : treedef) : t1 <> t2 -> treedef_eqb t1 t2 = false.
Proof.
  intros Hne. destruct (treedef_eqb t1 t2) eqn:E; [|reflexivity].
  apply treedef_eqb_eq in E. contradiction.
Qed.

(** ** The training-metrics grabber: configuration, errors, variances *)

Local Open Scope R_scope.


Lemma map_result_error {A B : Type} (f : A -> result B) (l : list A) (e : exn) :
  l <> [] -> (forall a, f a = Raise e) -> map_result f l = Raise e.
Proof. intros Hne He. destruct l as [|a l]; [contradiction|]. simpl. now rewrite He. Qed.









(** X7: [create] refuses a config without ['ema_beta'] with a
    [ValueError], and otherwise builds a state shaped like the parameters
    whose moving averages are all zero; it does not look at the value of
    ['ema_beta'].  A grabber whose config lacks ['ema_beta'] all the same
    raises [KeyError] on [update] as soon as the trees have a leaf, and
    is returned as it is when they have none. *)
Theorem grabber_config_checked (model_params : pytree array) (config0 : gmap string R) :
  (config0 !! "ema_beta" = None ->
   create model_params config0 = Raise (ValueError "Eval config requires field ema_beta")) /\
  (forall beta, config0 !! "ema_beta" = Some beta ->
   exists G, create model_params config0 = Ok G /\
     config G = config0 /\
     tree_structure (state G) = tree_structure model_params /\
     forall j p, tree_leaves model_params !! j = Some p ->
       tree_leaves (state G) !! j =
         Some {| grad_ema := zeros_like p; grad_sq_ema := zeros_like p; param_norm := 0;
                 update_ema := zeros_like p; update_sq_ema := zeros_like p |}) /\
  (forall (G : TrainingMetricsGrabber) (g old_params new_params : pytree array),
     config G !! "ema_beta" = None ->
     tree_structure g = tree_structure (state G) ->
     tree_structure old_params = tree_structure (state G) ->
     tree_structure new_params = tree_structure (state G) ->
     (tree_leaves (state G) <> [] ->
        grabber_update G g old_params new_params = Raise (KeyError "ema_beta")) /\
     (tree_leaves (state G) = [] -> grabber_update G g old_params new_params = Ok G)).
Proof.
  split; [|split].
  - intros Hnone. unfold create, _validate_config. now rewrite Hnone.
  - intros beta Hb. rewrite (create_ok beta) by assumption.
    eexists. split; [reflexivity|]. simpl. split; [reflexivity|].
    split; [apply tree_structure_map|].
    intros j p Hp. rewrite tree_leaves_map, lookup_map, Hp. reflexivity.
  - intros G g old_params new_params Hnone Hg Ho Hn.
    pose proof (same_structure_length g (state G) Hg) as Hlg.
    pose proof (same_structure_length old_params (state G) Ho) as Hlo.
    pose proof (same_structure_length new_params (state G) Hn) as Hln.
    rewrite grabber_update_same by congruence. split.
    + intros Hne. rewrite (map_result_error _ _ (KeyError "ema_beta")).
      * reflexivity.
      * destruct (tree_leaves (state G)) as [|s ss]; [contradiction|].
        destruct (tree_leaves g) as [|gj gs]; [discriminate|].
        destruct (tree_leaves old_params) as [|oj os]; [discriminate|].
        destruct (tree_leaves new_params) as [|nj ns]; discriminate.
      * intros [[[s gj] oj] nj]. unfold _update_param_stats, config_item.
        now rewrite Hnone.
    + intros Hempty. rewrite Hempty. simpl.
      destruct (tree_unflatten_length g (@nil _MetricsLeafState)) as (t & Ht & Hl & Hs).
      { rewrite Hlg, Hempty. reflexivity. }
      rewrite Ht. simpl. f_equal.
      assert (t = state G) as ->.
      { apply tree_eq_of_leaves; [congruence | now rewrite Hl, Hempty]. }
      now destruct G.
Qed.





Local Close Scope R_scope.
(** ** The expert probabilities of a report *)

Local Open Scope R_scope.

Lemma arr_sum_arr_add (a b : array) :
  length a = length b -> arr_sum (arr_add a b) = arr_sum a + arr_sum b.
Proof.
  unfold arr_add, arr_sum. revert b.
  induction a as [|x a IH]; intros [|y b]; simpl; intros Hlen; try discriminate; [ring|].
  rewrite IH by lia. ring.
Qed.

(** Summing the rows of a matrix of [n] columns, from the row [r] on. *)
Lemma fold_arr_add_columns (n : nat) (rows : list array) (r : array) :
  length r = n -> Forall (fun row => length row = n) rows ->
  length (fold_left arr_add rows r) = n /\
  arr_sum (fold_left arr_add rows r) = arr_sum r + arr_sum (map arr_sum rows) /\
  forall i, (i < n)%nat ->
    nth i (fold_left arr_add rows r) 0 =
    nth i r 0 + arr_sum (map (fun row => nth i row 0) rows).
Proof.
  intros Hr Hrows. revert r Hr.
  induction Hrows as [|row rows Hrow _ IH]; intros r Hr; cbn [fold_left map].
  - split; [assumption|]. split; [unfold arr_sum; simpl; ring|].
    intros i _. unfold arr_sum. simpl. ring.
  - destruct (IH (arr_add r row)) as (Hlen & Hsum & Hnth).
    { unfold arr_add. rewrite length_zip_with. lia. }
    split; [assumption|]. split.
    + rewrite Hsum, arr_sum_arr_add by lia. rewrite arr_sum_cons. ring.
    + intros i Hi. rewrite Hnth by assumption. unfold arr_add.
      rewrite nth_zip_with_plus by lia. rewrite arr_sum_cons. ring.
Qed.

Lemma sum_axis0_columns (n : nat) (rows : list array) :
  rows <> [] -> Forall (fun row => length row = n) rows ->
  length (sum_axis0 rows) = n /\
  arr_sum (sum_axis0 rows) = arr_sum (map arr_sum rows) /\
  forall i, (i < n)%nat ->
    nth i (sum_axis0 rows) 0 = arr_sum (map (fun row => nth i row 0) rows).
Proof.
  destruct rows as [|r rows]; [contradiction|]. intros _ Hall.
  apply Forall_cons in Hall as [Hr Hrows]. cbn [sum_axis0 map].
  destruct (fold_arr_add_columns n rows r Hr Hrows) as (Hlen & Hsum & Hnth).
  split; [assumption|]. split; [now rewrite arr_sum_cons|].
  intros i Hi. rewrite arr_sum_cons. now apply Hnth.
Qed.

Lemma list_eq_nth (x y : array) :
  length x = length y -> (forall i, (i < length x)%nat -> nth i x 0 = nth i y 0) -> x = y.
Proof.
  revert y. induction x as [|a x IH]; intros [|b y]; simpl; intros Hlen Hnth;
    try discriminate; [reflexivity|].
  f_equal.
  - apply (Hnth O). lia.
  - apply IH; [lia|]. intros i Hi. apply (Hnth (S i)). lia.
Qed.

Lemma nth_map_lt {A B : Type} (f : A -> B) (l : list A) (i : nat) (d : A) (d' : B) :
  (i < length l)%nat -> nth i (map f l) d' = f (nth i l d).
Proof.
  revert i. induction l as [|a l IH]; intros [|i]; simpl; intros Hi; try lia; [reflexivity|].
  apply IH. lia.
Qed.

Lemma expert_prob_key_inj (i j : nat) :
  ("expert_prob-" ++ str_of_nat i)%string = ("expert_prob-" ++ str_of_nat j)%string -> i = j.
Proof. intros Heq. apply string_app_inj in Heq. now apply str_of_nat_inj. Qed.

Lemma keyed_fold {A W : Type} (key : nat -> string) (val : A -> W) (xs : list A)
    (f : nat -> nat) (d : pydict W) :
  (forall i j, key i = key j -> i = j) ->
  (forall i j, f i = f j -> i = j) ->
  (forall i, ~ In (key (f i)) (dict_keys d)) ->
  fold_left (fun d ix => dict_set d (key (fst ix)) (val (snd ix)))
            (imap (fun i x => (f i, x)) xs) d =
  d ++ imap (fun i x => (key (f i), val x)) xs.
Proof.
  intros Hkey. revert f d. induction xs as [|x xs IH]; intros f d Hinj Hfresh; simpl.
  - now rewrite app_nil_r.
  - rewrite dict_set_fresh by apply Hfresh.
    rewrite (IH (fun i => f (S i))).
    + now rewrite <- app_assoc.
    + intros i j Heq. apply Hinj in Heq. lia.
    + intros i. unfold dict_keys. rewrite map_app, in_app_iff. simpl.
      intros [Hin|[Heq|[]]].
      * now apply (Hfresh (S i)).
      * apply Hkey, Hinj in Heq. discriminate.
Qed.

(** X10: for a matrix of expert weights with [n] columns whose entries do
    not sum to zero, [add_expert_probs] puts under ['expert_prob-i'] the
    sum of column [i] divided by the sum of all entries, for every
    [i < n]; these [n] values sum to 1; and every other key of the report
    keeps its value. *)
Theorem add_expert_probs_distribution {V : Type} (report : pydict (report_value V))
    (expert_weights : list array) (n : nat) :
  let total := arr_sum (map arr_sum expert_weights) in
  let prob := fun i => arr_sum (map (fun row => nth i row 0) expert_weights) / total in
  let report' := add_expert_probs report expert_weights in
  Forall (fun row => length row = n) expert_weights ->
  total <> 0 ->
  (forall i, (i < n)%nat ->
     dict_get report' ("expert_prob-" ++ str_of_nat i) = Some (Float (prob i))) /\
  arr_sum (map prob (seq 0 n)) = 1 /\
  (forall k, (forall i, (i < n)%nat -> k <> ("expert_prob-" ++ str_of_nat i)%string) ->
     dict_get report' k = dict_get report k).
Proof.
  intros total prob report' Hrect Htotal.
  assert (Hne : expert_weights <> []).
  { intros ->. apply Htotal. reflexivity. }
  destruct (sum_axis0_columns n expert_weights Hne Hrect) as (Hlen & Hsum & Hnth).
  set (probs := map (fun c => c / total) (sum_axis0 expert_weights)).
  assert (Hprobs : probs = map prob (seq 0 n)).
  { apply list_eq_nth.
    - unfold probs. now rewrite !length_map, length_seq.
    - intros i Hi. unfold probs in Hi |- *. rewrite length_map in Hi.
      rewrite (nth_map_lt _ _ i 0) by lia.
      rewrite (nth_map_lt _ _ i O) by (rewrite length_seq; lia).
      rewrite Hnth, seq_nth by lia. reflexivity. }
  assert (Hreport : report' =
            dict_update report
              (imap (fun i p => (("expert_prob-" ++ str_of_nat i)%string, Float p)) probs)).
  { unfold report', add_expert_probs. fold total. fold probs. f_equal.
    unfold enumerate.
    rewrite (keyed_fold (fun i => ("expert_prob-" ++ str_of_nat i)%string) Float probs
               (fun i => i) []); auto using expert_prob_key_inj. }
  split; [|split].
  - intros i Hi. rewrite Hreport. apply dict_get_update_here.
    + apply (imap_keys_NoDup (fun i => ("expert_prob-" ++ str_of_nat i)%string) Float).
      apply expert_prob_key_inj.
    + apply (imap_In_lookup (fun i => ("expert_prob-" ++ str_of_nat i)%string) Float).
      rewrite Hprobs, lookup_map, lookup_seq_lt by assumption. reflexivity.
  - rewrite <- Hprobs. unfold probs.
    rewrite (map_ext _ (fun c => / total * (fun v => v) c))
      by (intros c; unfold Rdiv; ring).
    rewrite arr_sum_scale, map_id, Hsum. fold total. now apply Rinv_l.
  - intros k Hk. rewrite Hreport. apply dict_get_update_other.
    intros Hin.
    apply (imap_keys_In (fun i => ("expert_prob-" ++ str_of_nat i)%string) Float)
      in Hin as (i & Hi & ->).
    apply (Hk i); [|reflexivity].
    unfold probs in Hi. rewrite length_map in Hi. lia.
Qed.

Lemma add_expert_probs_distribution_witness :
  dict_get (@add_expert_probs nat [("train/loss", Scalar 7%nat)] [[1; 3]; [2; 2]])
           "expert_prob-1" =
    Some (Float ((3 + (2 + 0)) / (1 + (3 + 0) + (2 + (2 + 0) + 0)))) /\
  dict_get (@add_expert_probs nat [("train/loss", Scalar 7%nat)] [[1; 3]; [2; 2]])
           "train/loss" = Some (Scalar 7%nat).
Proof.
  destruct (@add_expert_probs_distribution nat [("train/loss", Scalar 7%nat)]
              [[1; 3]; [2; 2]] 2) as (Hprob & _ & Hother).
  - repeat constructor.
  - unfold arr_sum. simpl. lra.
  - split.
    + exact (Hprob 1%nat ltac:(lia)).
    + rewrite Hother; [reflexivity|].
      intros i Hi. destruct i as [|[|i]]; [discriminate | discriminate | lia].
Defined.

Local Close Scope R_scope.
(** ** The training loop: the shape of a run *)

Section TrainingRuns.

Context {Key OptState Params BatchStats MetricsState MetricsConfig Batch Collection V
         Callback : Type}.
Context `{JaxRuntime} `{Prng Key} `{MetricScalar V}.
Context `{EvalEnv Params BatchStats Batch Collection V}.
Context `{TrainEnv Key OptState Params BatchStats MetricsState MetricsConfig Batch V Callback}.

Local Abbreviation tstate := (train_state OptState Params BatchStats MetricsState).
Local Abbreviation tevent := (event Key OptState Params BatchStats MetricsState V).
Local Abbreviation report_t := (pydict (report_value V)).
Local Abbreviation targs := (train_args MetricsConfig Callback).
Local Abbreviation lvars := (loop_vars OptState Params BatchStats MetricsState).
Implicit Types (es : list tevent) (a : targs) (st : tstate) (lv : lvars).

(** [train]: the optimizer first, and what it raises; then the rest. *)
Lemma train_unfold a (rng : Key) :
  train a rng =
  match train_optimizer a rng with
  | Ok _ => train_started a rng
  | Raise e => ([], Raise e)
  end.
Proof.
  unfold train, train_started, train_optimizer, batch_sizes_ok, train_batches,
    train_loop_vars, train_callbacks,
    train_dataset, train_start, train_seed, train_update_rng, train_callback_rng,
    train_eval_batch_size, train_restored, train_data_rng.
  destruct (random_split rng) as [rng1 init_rng]. cbn [fst snd].
  destruct (random_split rng1) as [rng2 data_rng]. cbn [fst snd].
  destruct (initialize init_rng) as [unreplicated_params unreplicated_batch_stats].
  cbn [fst snd].
  destruct (optimizer_result _) as [fns|e]; cbn [result_bind]; [|reflexivity].
  unfold lift at 1. rewrite traced_bind_ret_l.
  destruct (has_current_expert (optimizer_init_fn unreplicated_params)); [|reflexivity].
  unfold lift at 1. rewrite traced_bind_ret_l.
  destruct (replicate_and_maybe_restore_checkpoint _ _ _ _ _ _) as [restored is_restored].
  cbn [fst snd].
  destruct (Nat.eqb device_count 0); [reflexivity|].
  destruct (Nat.eqb (batch_size (hps a) mod device_count) 0); [|reflexivity].
  destruct (Nat.eqb (_ mod device_count) 0); [|reflexivity].
  destruct (random_split (random_fold_in rng2 process_index)) as [rng3 callback_rng].
  cbn [negb]. unfold lift at 1. rewrite traced_bind_ret_l. reflexivity.
Qed.

Lemma train_dir_not_checkpoint_dir a : train_dir a <> checkpoint_dir a.
Proof.
  unfold checkpoint_dir. intros Heq.
  assert (Hpad : (train_dir a ++ "")%string = (train_dir a ++ "/checkpoints")%string)
    by (rewrite append_empty_r; exact Heq).
  apply string_app_inj in Hpad. discriminate.
Qed.

(** An evaluation either raises before it yields, or yields its report
    and then, on process 0, saves the state it reported on. *)
Lemma evaluate_and_yield_cases a (dataset : Dataset Batch)
    (eval_callbacks : list (Params -> BatchStats -> nat -> report_t))
    (start_step : nat) (lr : R) (with_callbacks : bool) lv :
  let res := evaluate_and_yield a dataset eval_callbacks start_step lr with_callbacks lv in
  (exists e, res = ([], Raise e)) \/
  (exists report,
     res = (yield_events a (synced (lv_state lv)) report, Ok (synced (lv_state lv), report)) /\
     dict_get report "global_step" = Some (Int (global_step (lv_state lv)))).
Proof.
  cbv zeta. unfold evaluate_and_yield, lift, emit, traced_ret, yield_events, synced.
  destruct (evaluation_report _ _ _ _ _ _) as [report0|e]; simpl; [|eauto].
  destruct (report_update_summary _ _ _ _ _ _ _ _ _) as [report1|e] eqn:Hsum; simpl;
    [|eauto].
  apply report_update_summary_keys in Hsum as [Hgs _].
  destruct with_callbacks.
  - destruct (run_callbacks _ _ _) as [report2|e] eqn:Hcb; simpl; [|eauto].
    right. exists report2. split.
    + now destruct (Nat.eqb process_index 0).
    + now apply (run_callbacks_keeps _ _ _ _ _ _ Hcb).
  - simpl. right. exists report1. split; [|assumption].
    now destruct (Nat.eqb process_index 0).
Qed.

(** One pass through the loop body: the update raises; or the cadence
    check says no; or the evaluation raises; or the report is yielded. *)
Lemma train_iteration_cases a (dataset : Dataset Batch)
    (eval_callbacks : list (Params -> BatchStats -> nat -> report_t))
    (rng : Key) (start_step : nat) lv (batch : Batch) :
  let res := train_iteration a dataset eval_callbacks rng start_step lv batch in
  let st := lv_state lv in
  let g := global_step st in
  let pre := update_events a st (step_lr a st) in
  let checked := should_eval (g + 1) (eval_frequency a) (eval_steps a) in
  (exists e, res = (pre, Raise e)) \/
  (checked = false /\ exists lv',
     res = (pre ++ [CheckShouldEval (g + 1)], Ok (lv', false)) /\
     global_step (lv_state lv') = g + 1 /\ is_Some (lv_grad_norm lv') /\
     lv_prev_eval_step lv' = lv_prev_eval_step lv) \/
  (checked = true /\ exists e, res = (pre ++ [CheckShouldEval (g + 1)], Raise e)) \/
  (checked = true /\ exists st' report lv',
     res = (pre ++ CheckShouldEval (g + 1) :: yield_events a st' report,
            Ok (lv', check_for_early_stopping (early_stopping_target_name a)
                       (early_stopping_target_value a) (early_stopping_mode a) report)) /\
     global_step st' = g + 1 /\
     dict_get report "global_step" = Some (Int (g + 1)) /\
     global_step (lv_state lv') = g + 1 /\ is_Some (lv_grad_norm lv') /\
     lv_prev_eval_step lv' = g + 1).
Proof.
  cbv zeta.
  remember (train_iteration a dataset eval_callbacks rng start_step lv batch) as res eqn:Hres.
  unfold train_iteration in Hres. unfold update_events, step_lr.
  destruct (existsb _ (checkpoint_steps a) && _);
    (destruct (update_pmapped _ _ _ _ _ _ _ _) as [updated|e];
     [ destruct updated as [[[[[os ps] bs] cost_val] ms] grad_norm];
       destruct (existsb _ (reinit_steps _));
       (destruct (should_eval _ _ _) eqn:Hshould;
        [ cbn [traced_bind emit lift traced_ret] in Hres;
          match type of Hres with
          | context [evaluate_and_yield ?a ?d ?c ?s ?l ?w ?v] =>
              destruct (evaluate_and_yield_cases a d c s l w v)
                as [[e He]|(report & He & Hgs)]; cbv zeta in He; rewrite He in Hres
          end;
          cbn [traced_bind emit lift traced_ret app fst snd lv_state] in Hres;
          [ right; right; left; split; [reflexivity|]; exists e; subst res;
            rewrite ?app_nil_r; reflexivity
          | right; right; right; split; [reflexivity|];
            eexists; exists report; eexists; subst res;
            split; [rewrite ?app_nil_r; reflexivity|];
            cbn [lv_state lv_grad_norm lv_prev_eval_step global_step synced
                 with_batch_stats with_sum_train_cost] in *;
            repeat split; eauto ]
        | cbn [traced_bind emit lift traced_ret app] in Hres;
          right; left; split; [reflexivity|]; eexists; subst res;
          split; [reflexivity|]; cbn [lv_state lv_grad_norm lv_prev_eval_step global_step];
          repeat split; eauto ])
     | cbn [traced_bind emit lift traced_ret app] in Hres;
       left; exists e; subst res; reflexivity ]).
Qed.


(** A property of event lists that holds of the empty list and of the
    concatenation of two lists that have it holds of a run as soon as it
    holds of what one pass through the loop body and one evaluation
    emit. *)
Lemma train_loop_closed (Q : list tevent -> Prop) a (dataset : Dataset Batch)
    (eval_callbacks : list (Params -> BatchStats -> nat -> report_t))
    (rng : Key) (start_step : nat) :
  Q [] -> (forall es1 es2, Q es1 -> Q es2 -> Q (es1 ++ es2)) ->
  (forall lv batch,
     Q (fst (train_iteration a dataset eval_callbacks rng start_step lv batch))) ->
  forall (train_iter : list Batch) lv,
    Q (fst (train_loop a dataset eval_callbacks rng start_step train_iter lv)).
Proof.
  intros Hnil Happ Hstep. induction train_iter as [|batch rest IH]; intros lv.
  - exact Hnil.
  - cbn [train_loop]. rewrite traced_bind_events. apply Happ; [apply Hstep|].
    destruct (snd (train_iteration a dataset eval_callbacks rng start_step lv batch))
      as [[lv1 [|]]|e]; cbn [fst traced_ret]; auto.
Qed.

Lemma train_closed (Q : list tevent -> Prop) a (rng : Key) :
  Q [] -> (forall es1 es2, Q es1 -> Q es2 -> Q (es1 ++ es2)) ->
  (forall k, Q [BuildDataset k]) -> Q [WaitForCheckpointSave] ->
  (forall dataset eval_callbacks rng' start_step lv batch,
     Q (fst (train_iteration a dataset eval_callbacks rng' start_step lv batch))) ->
  (forall dataset eval_callbacks start_step lr with_callbacks lv,
     Q (fst (evaluate_and_yield a dataset eval_callbacks start_step lr with_callbacks lv))) ->
  Q (fst (train a rng)).
Proof.
  intros Hnil Happ Hbuild Hwait Hstep Heval. rewrite train_unfold.
  destruct (train_optimizer a rng) as [expert|e0]; [|exact Hnil]. unfold train_started.
  destruct (batch_sizes_ok a); [|exact Hnil].
  rewrite traced_bind_events. apply Happ; [apply Hbuild|]. cbn [snd emit].
  rewrite traced_bind_events. apply Happ; [now apply train_loop_closed|].
  destruct (snd (train_loop _ _ _ _ _ _ _)) as [[lv1 [|]]|e]; cbn [fst traced_ret];
    [exact Hnil | | exact Hnil].
  destruct (negb (Nat.eqb (lv_prev_eval_step lv1) (num_train_steps a))).
  - rewrite traced_bind_events. apply Happ.
    + rewrite traced_bind_events. apply Happ; [apply Heval|].
      destruct (snd (evaluate_and_yield _ _ _ _ _ _ _)); exact Hnil.
    + rewrite traced_bind_result.
      destruct (snd (evaluate_and_yield _ _ _ _ _ _ _)); [exact Hwait | exact Hnil].
  - exact Hwait.
Qed.

Lemma update_events_checkpoint_ok a st lr :
  Forall (checkpoint_ok a) (update_events a st lr : list tevent).
Proof.
  unfold update_events.
  destruct (existsb _ _) eqn:Hin; destruct (Nat.eqb process_index 0) eqn:Hp0; simpl;
    try solve [repeat constructor].
  constructor; [|repeat constructor]. split; [now apply Nat.eqb_eq|].
  right. split; [reflexivity|]. apply existsb_exists in Hin as (s & Hs & Heq).
  apply Nat.eqb_eq in Heq. now subst s.
Qed.

Lemma yield_events_checkpoint_ok a st report :
  Forall (checkpoint_ok a) (yield_events a st report : list tevent).
Proof.
  unfold yield_events. destruct (Nat.eqb process_index 0) eqn:Hp0;
    try solve [repeat constructor].
  constructor; [exact I|]. constructor; [|constructor].
  split; [now apply Nat.eqb_eq | now left].
Qed.

(** X11: whatever a run of [train] saves, process 0 saves it: into the
    training directory, or, for a state whose step is listed in
    [checkpoint_steps], into its [checkpoints] subdirectory; a process
    with another index saves nothing. *)
Theorem checkpoints_by_process_zero a (rng : Key) :
  Forall (checkpoint_ok a) (fst (train a rng)) /\
  (forall i dir st, fst (train a rng) !! i = Some (SaveCheckpoint dir st) ->
     process_index = 0 /\
     (dir = train_dir a \/
      (dir = checkpoint_dir a /\ In (global_step st) (checkpoint_steps a)))) /\
  (process_index <> 0 -> saved_states (fst (train a rng)) = []).
Proof.
  assert (Hall : Forall (checkpoint_ok a) (fst (train a rng))).
  { apply (train_closed (Forall (checkpoint_ok a))).
    - constructor.
    - intros es1 es2 Hes1 Hes2. apply List.Forall_app. auto.
    - intros k. repeat constructor.
    - repeat constructor.
    - intros dataset eval_callbacks rng' start_step lv batch.
      destruct (train_iteration_cases a dataset eval_callbacks rng' start_step lv batch)
        as [[e ->]|[(_ & lv' & -> & _)|[(_ & e & ->)|(_ & st' & report & lv' & -> & _)]]];
        cbn [fst]; rewrite ?List.Forall_app.
      + apply update_events_checkpoint_ok.
      + split; [apply update_events_checkpoint_ok | repeat constructor].
      + split; [apply update_events_checkpoint_ok | repeat constructor].
      + split; [apply update_events_checkpoint_ok|].
        constructor; [exact I | apply yield_events_checkpoint_ok].
    - intros dataset eval_callbacks start_step lr with_callbacks lv.
      destruct (evaluate_and_yield_cases a dataset eval_callbacks start_step lr
                  with_callbacks lv) as [[e ->]|(report & -> & _)]; cbn [fst].
      + constructor.
      + apply yield_events_checkpoint_ok. }
  split; [exact Hall|]. split.
  - intros i dir st Hi. rewrite List.Forall_forall in Hall.
    apply (Hall (SaveCheckpoint dir st)). apply list_elem_of_In.
    now apply list_elem_of_lookup_2 in Hi.
  - intros Hp. unfold saved_states.
    induction Hall as [|e es He _ IH]; [reflexivity|].
    cbn [omap list_omap]. rewrite IH.
    destruct e; try reflexivity. destruct He as [Hzero _]. contradiction.
Qed.


Lemma saves_in_place_nil a : saves_in_place a ([] : list tevent).
Proof. intros i. split; intros x Hx; discriminate. Qed.

Lemma saves_in_place_app a es1 es2 :
  saves_in_place a es1 -> saves_in_place a es2 -> saves_in_place a (es1 ++ es2).
Proof.
  intros Hes1 Hes2 i.
  destruct (Nat.lt_ge_cases i (length es1)) as [Hlt|Hge].
  - destruct (Hes1 i) as [Hy Hs]. split.
    + intros report Hi Hp. rewrite lookup_app_l in Hi by assumption.
      destruct (Hy report Hi Hp) as (st & Hnext & Hgs). exists st. split; [|assumption].
      now apply lookup_app_l_Some.
    + intros st Hi. rewrite lookup_app_l in Hi by assumption.
      destruct (Hs st Hi) as (lr & Hnext). exists lr. now apply lookup_app_l_Some.
  - destruct (Hes2 (i - length es1)) as [Hy Hs]. split.
    + intros report Hi Hp. rewrite lookup_app_r in Hi by assumption.
      destruct (Hy report Hi Hp) as (st & Hnext & Hgs). exists st. split; [|assumption].
      rewrite lookup_app_r by lia. now replace (S i - length es1) with (S (i - length es1)) by lia.
    + intros st Hi. rewrite lookup_app_r in Hi by assumption.
      destruct (Hs st Hi) as (lr & Hnext). exists lr.
      rewrite lookup_app_r by lia. now replace (S i - length es1) with (S (i - length es1)) by lia.
Qed.

Lemma saves_in_place_update_events a st lr :
  saves_in_place a (update_events a st lr : list tevent).
Proof.
  unfold update_events, saves_in_place.
  destruct (existsb _ _ && _); intros [|[|i]]; simpl; split; intros x Hx;
    try discriminate.
  injection Hx as <-. eauto.
Qed.

Lemma saves_in_place_yield_events a st report :
  dict_get report "global_step" = Some (Int (global_step st)) ->
  saves_in_place a (yield_events a st report : list tevent).
Proof.
  intros Hgs. unfold yield_events, saves_in_place.
  destruct (Nat.eqb process_index 0) eqn:Hp0; intros [|[|i]]; simpl; split; intros x Hx;
    try discriminate.
  - injection Hx as <-. eauto.
  - injection Hx as Hdir _. now apply train_dir_not_checkpoint_dir in Hdir.
  - intros Hp. apply Nat.eqb_neq in Hp0. contradiction.
Qed.

Lemma saves_in_place_single a (e : tevent) :
  match e with Yield _ | SaveCheckpoint _ _ => False | _ => True end ->
  saves_in_place a [e].
Proof.
  unfold saves_in_place.
  intros He [|i]; simpl; split; intros x Hx; try discriminate; injection Hx as ->;
    destruct He.
Qed.

(** X12: in a run of [train] on process 0 every report that is yielded is
    followed at once by the checkpoint, into the training directory, of
    the state at the step that the report gives as its ['global_step'];
    and every checkpoint into the [checkpoints] directory is followed at
    once by the update of the step it was taken at, so it holds the state
    before that update. *)
Theorem reports_then_checkpoints a (rng : Key) :
  let es := fst (train a rng) in
  (forall i report, es !! i = Some (Yield report) -> process_index = 0 ->
     exists st, es !! S i = Some (SaveCheckpoint (train_dir a) st) /\
                dict_get report "global_step" = Some (Int (global_step st))) /\
  (forall i st, es !! i = Some (SaveCheckpoint (checkpoint_dir a) st) ->
     exists lr, es !! S i = Some (RunUpdate (global_step st) lr)).
Proof.
  cbv zeta.
  assert (Hall : saves_in_place a (fst (train a rng))).
  { apply (train_closed (saves_in_place a)).
    - apply saves_in_place_nil.
    - apply saves_in_place_app.
    - intros k. now apply saves_in_place_single.
    - now apply saves_in_place_single.
    - intros dataset eval_callbacks rng' start_step lv batch.
      destruct (train_iteration_cases a dataset eval_callbacks rng' start_step lv batch)
        as [[e ->]|[(_ & lv' & -> & _)|[(_ & e & ->)|
            (_ & st' & report & lv' & -> & Hst' & Hgs & _)]]];
        cbn [fst].
      + apply saves_in_place_update_events.
      + apply saves_in_place_app; [apply saves_in_place_update_events|].
        now apply saves_in_place_single.
      + apply saves_in_place_app; [apply saves_in_place_update_events|].
        now apply saves_in_place_single.
      + apply saves_in_place_app; [apply saves_in_place_update_events|].
        apply (saves_in_place_app a [CheckShouldEval _]);
          [now apply saves_in_place_single|].
        apply saves_in_place_yield_events. now rewrite Hst'.
    - intros dataset eval_callbacks start_step lr with_callbacks lv.
      destruct (evaluate_and_yield_cases a dataset eval_callbacks start_step lr
                  with_callbacks lv) as [[e ->]|(report & -> & Hgs)]; cbn [fst].
      + apply saves_in_place_nil.
      + now apply saves_in_place_yield_events. }
  split.
  - intros i report. apply (Hall i).
  - intros i st. apply (Hall i).
Qed.


(** Waiting for the checkpoint, and the early-stopping return *)

Lemma no_wait_lookup es i :
  Forall (fun e => is_wait e = false) es -> es !! i <> Some WaitForCheckpointSave.
Proof.
  intros Hall Hi. rewrite List.Forall_forall in Hall.
  apply list_elem_of_lookup_2, list_elem_of_In, Hall in Hi. discriminate.
Qed.

Lemma no_wait_then_wait es i :
  Forall (fun e => is_wait e = false) es ->
  (es ++ [WaitForCheckpointSave]) !! i = Some WaitForCheckpointSave ->
  S i = length (es ++ [WaitForCheckpointSave]).
Proof.
  intros Hall Hi. rewrite length_app. simpl.
  destruct (Nat.lt_ge_cases i (length es)) as [Hlt|Hge].
  - rewrite lookup_app_l in Hi by assumption. now apply no_wait_lookup in Hi.
  - apply lookup_lt_Some in Hi. rewrite length_app in Hi. simpl in Hi. lia.
Qed.

Lemma no_wait_update_events a st lr :
  Forall (fun e => is_wait e = false) (update_events a st lr : list tevent).
Proof. unfold update_events. destruct (existsb _ _ && _); repeat constructor. Qed.

Lemma no_wait_yield_events a st report :
  Forall (fun e => is_wait e = false) (yield_events a st report : list tevent).
Proof. unfold yield_events. destruct (Nat.eqb process_index 0); repeat constructor. Qed.

Lemma no_wait_iteration a (dataset : Dataset Batch)
    (eval_callbacks : list (Params -> BatchStats -> nat -> report_t))
    (rng : Key) (start_step : nat) lv (batch : Batch) :
  Forall (fun e => is_wait e = false)
         (fst (train_iteration a dataset eval_callbacks rng start_step lv batch)).
Proof.
  destruct (train_iteration_cases a dataset eval_callbacks rng start_step lv batch)
    as [[e ->]|[(_ & lv' & -> & _)|[(_ & e & ->)|(_ & st' & report & lv' & -> & _)]]];
    cbn [fst]; rewrite ?List.Forall_app.
  - apply no_wait_update_events.
  - split; [apply no_wait_update_events | repeat constructor].
  - split; [apply no_wait_update_events | repeat constructor].
  - split; [apply no_wait_update_events|].
    constructor; [reflexivity | apply no_wait_yield_events].
Qed.

Lemma no_wait_loop a (dataset : Dataset Batch)
    (eval_callbacks : list (Params -> BatchStats -> nat -> report_t))
    (rng : Key) (start_step : nat) (train_iter : list Batch) lv :
  Forall (fun e => is_wait e = false)
         (fst (train_loop a dataset eval_callbacks rng start_step train_iter lv)).
Proof.
  apply (train_loop_closed (Forall (fun e => is_wait e = false))).
  - constructor.
  - intros es1 es2 Hes1 Hes2. apply List.Forall_app. auto.
  - intros lv0 batch. apply no_wait_iteration.
Qed.

Lemma yielded_update_events a st lr :
  yielded_reports (update_events a st lr : list tevent) = [].
Proof. unfold update_events. now destruct (existsb _ _ && _). Qed.

Lemma yielded_yield_events a st (report : report_t) :
  yielded_reports (yield_events a st report : list tevent) = [report].
Proof. unfold yield_events. now destruct (Nat.eqb process_index 0). Qed.

(** When the loop ends in the early-stopping [return], the last report
    that it yielded is one on which the early-stopping test holds. *)
Lemma train_loop_returned a (dataset : Dataset Batch)
    (eval_callbacks : list (Params -> BatchStats -> nat -> report_t))
    (rng : Key) (start_step : nat) (train_iter : list Batch) :
  forall lv lv',
  snd (train_loop a dataset eval_callbacks rng start_step train_iter lv) = Ok (lv', true) ->
  exists report,
    last (yielded_reports
            (fst (train_loop a dataset eval_callbacks rng start_step train_iter lv))) =
      Some report /\
    check_for_early_stopping (early_stopping_target_name a)
      (early_stopping_target_value a) (early_stopping_mode a) report = true.
Proof.
  induction train_iter as [|batch rest IH]; intros lv lv'; [discriminate|].
  cbn [train_loop]. rewrite traced_bind_events, traced_bind_result.
  assert (Hcontinue : forall es1 lv1,
            snd (train_loop a dataset eval_callbacks rng start_step rest lv1) = Ok (lv', true) ->
            exists report,
              last (yielded_reports
                      (es1 ++ fst (train_loop a dataset eval_callbacks rng start_step rest lv1)))
                = Some report /\
              check_for_early_stopping (early_stopping_target_name a)
                (early_stopping_target_value a) (early_stopping_mode a) report = true).
  { intros es1 lv1 Hrest. destruct (IH lv1 lv' Hrest) as (report & Hlast & Hcheck).
    exists report. split; [|assumption].
    unfold yielded_reports in *. rewrite omap_app, last_app, Hlast. reflexivity. }
  destruct (train_iteration_cases a dataset eval_callbacks rng start_step lv batch)
    as [[e ->]|[(_ & lv1 & -> & _)|[(_ & e & ->)|
        (_ & st' & report & lv1 & -> & _)]]]; cbn [fst snd].
  - discriminate.
  - apply Hcontinue.
  - discriminate.
  - destruct (check_for_early_stopping _ _ _ report) eqn:Hcheck; [|apply Hcontinue].
    cbn [traced_ret fst snd]. intros _. exists report. split; [|assumption].
    rewrite app_nil_r. unfold yielded_reports. rewrite omap_app.
    fold (yielded_reports (update_events a (lv_state lv) (step_lr a (lv_state lv)) : list tevent)).
    rewrite yielded_update_events. cbn [app omap list_omap].
    fold (yielded_reports (yield_events a st' report : list tevent)).
    now rewrite yielded_yield_events.
Qed.

(** X13: [train] returns normally in two ways only.  Either it has run to
    the end, and then waiting for the checkpoint save is the last thing
    it did; or it left by the early-stopping [return], on a report on
    which the early-stopping test holds, and then it has not waited for
    the checkpoint save at all.  It never waits before the end, and never
    when it raises. *)
Theorem wait_for_checkpoint_save_last a (rng : Key) :
  let es := fst (train a rng) in
  (forall i, es !! i = Some WaitForCheckpointSave ->
     S i = length es /\ snd (train a rng) = Ok tt) /\
  (snd (train a rng) = Ok tt ->
     last es = Some WaitForCheckpointSave \/
     (Forall (fun e => is_wait e = false) es /\
      exists report,
        last (yielded_reports es) = Some report /\
        check_for_early_stopping (early_stopping_target_name a)
          (early_stopping_target_value a) (early_stopping_mode a) report = true)).
Proof.
  cbv zeta. rewrite train_unfold.
  destruct (train_optimizer a rng) as [expert|e0];
    [|split; [intros i Hi; discriminate | discriminate]].
  unfold train_started.
  destruct (batch_sizes_ok a); [|split; [intros i Hi; discriminate | discriminate]].
  pose proof (no_wait_loop a (train_dataset a rng) (train_callbacks a rng)
                (train_update_rng rng) (global_step (train_start a rng))
                (train_batches a rng) (train_loop_vars a rng)) as Hloop.
  pose proof (train_loop_returned a (train_dataset a rng) (train_callbacks a rng)
                (train_update_rng rng) (global_step (train_start a rng))
                (train_batches a rng) (train_loop_vars a rng)) as Hreturned.
  destruct (train_loop a (train_dataset a rng) (train_callbacks a rng)
              (train_update_rng rng) (global_step (train_start a rng))
              (train_batches a rng) (train_loop_vars a rng))
    as [es1 [[lv1 [|]]|e]]; cbn [fst snd] in Hloop, Hreturned.
  - cbn [traced_bind emit traced_ret fst snd app]. rewrite ?app_nil_r. split.
    + intros i Hi. exfalso.
      apply (no_wait_lookup (BuildDataset (train_seed a rng) :: es1) i); [|assumption].
      constructor; [reflexivity | assumption].
    + intros _. right. split; [constructor; [reflexivity | assumption]|].
      destruct (Hreturned lv1 eq_refl) as (report & Hlast & Hcheck).
      exists report. split; [|assumption].
      change (BuildDataset (train_seed a rng) :: es1)
        with ([BuildDataset (train_seed a rng)] ++ es1).
      unfold yielded_reports in *. rewrite omap_app, last_app, Hlast. reflexivity.
  - cbn [traced_bind emit traced_ret fst snd app].
    destruct (negb (Nat.eqb (lv_prev_eval_step lv1) (num_train_steps a))).
    + destruct (evaluate_and_yield_cases a (train_dataset a rng) (train_callbacks a rng)
                  (global_step (train_start a rng)) (lr_fn (global_step (lv_state lv1)))
                  false lv1) as [[e ->]|(report & -> & _)];
        cbn [traced_bind emit traced_ret fst snd app].
      * rewrite ?app_nil_r. split; [|discriminate].
        intros i Hi. exfalso.
        apply (no_wait_lookup (BuildDataset (train_seed a rng) :: es1) i); [|assumption].
        constructor; [reflexivity | assumption].
      * rewrite ?app_nil_r.
        assert (Hfront : Forall (fun e => is_wait e = false)
                  (BuildDataset (train_seed a rng)
                   :: es1 ++ yield_events a (synced (lv_state lv1)) report)).
        { constructor; [reflexivity|]. apply List.Forall_app.
          split; [assumption | apply no_wait_yield_events]. }
        replace (BuildDataset (train_seed a rng)
                 :: es1 ++ yield_events a (synced (lv_state lv1)) report
                    ++ [WaitForCheckpointSave])
          with ((BuildDataset (train_seed a rng)
                 :: es1 ++ yield_events a (synced (lv_state lv1)) report)
                ++ [WaitForCheckpointSave])
          by (simpl; now rewrite <- app_assoc).
        split.
        -- intros i Hi. split; [now apply no_wait_then_wait | reflexivity].
        -- intros _. left. now rewrite last_snoc.
    + cbn [traced_bind emit traced_ret fst snd app].
      change (BuildDataset (train_seed a rng) :: es1 ++ [WaitForCheckpointSave])
        with ((BuildDataset (train_seed a rng) :: es1) ++ [WaitForCheckpointSave]).
      assert (Hfront : Forall (fun e => is_wait e = false)
                (BuildDataset (train_seed a rng) :: es1))
        by (constructor; [reflexivity | assumption]).
      split.
      * intros i Hi. split; [now apply no_wait_then_wait | reflexivity].
      * intros _. left. now rewrite last_snoc.
  - cbn [traced_bind emit traced_ret fst snd app]. rewrite ?app_nil_r.
    split; [|discriminate].
    intros i Hi. exfalso.
    apply (no_wait_lookup (BuildDataset (train_seed a rng) :: es1) i); [|assumption].
    constructor; [reflexivity | assumption].
Qed.



End TrainingRuns.

(** ** Choosing the optimizer *)

Section GetOptimizerOutcome.
Import Optimizers.
Context {Params Batch BatchStats Grads State FlaxModule LossFn : Type}.
Context `{@Optax Params Batch BatchStats Grads State FlaxModule LossFn}.

Lemma opt_hparam_returns (hps : HParams) (k : string) (v : R) :
  opt_hparams hps !! k = Some v -> opt_hparam hps k = Returns v.
Proof. intros Hk. unfold opt_hparam. now rewrite Hk. Qed.

Lemma opt_hparam_raises (hps : HParams) (k : string) :
  opt_hparams hps !! k = None -> opt_hparam hps k = Raises (Builtin (KeyError k)).
Proof. intros Hk. unfold opt_hparam. now rewrite Hk. Qed.

Lemma assertion_passes (hps : HParams) :
  l2_decay_factor hps = None \/ default 0%R (opt_hparams hps !! "weight_decay") = 0%R ->
  negb (match l2_decay_factor hps with None => true | Some _ => false end
        || (if Req_dec_T (default 0%R (opt_hparams hps !! "weight_decay")) 0 then true
            else false)) = false.
Proof.
  intros [Hl2|Hwd].
  - now rewrite Hl2.
  - destruct (Req_dec_T _ 0) as [_|Hne]; [|contradiction].
    now destruct (l2_decay_factor hps).
Qed.

Lemma assertion_fails (hps : HParams) :
  l2_decay_factor hps <> None -> default 0%R (opt_hparams hps !! "weight_decay") <> 0%R ->
  negb (match l2_decay_factor hps with None => true | Some _ => false end
        || (if Req_dec_T (default 0%R (opt_hparams hps !! "weight_decay")) 0 then true
            else false)) = true.
Proof.
  intros Hl2 Hwd. destruct (l2_decay_factor hps); [|contradiction].
  now destruct (Req_dec_T _ 0).
Qed.

Lemma classic_asserted (hps : HParams) :
  (l2_decay_factor hps = None \/ default 0%R (opt_hparams hps !! "weight_decay") = 0%R) \/
  ~ (l2_decay_factor hps = None \/ default 0%R (opt_hparams hps !! "weight_decay") = 0%R).
Proof.
  destruct (l2_decay_factor hps); [|tauto].
  destruct (Req_dec_T (default 0%R (opt_hparams hps !! "weight_decay")) 0); [tauto|].
  right. intros [?|?]; [discriminate | contradiction].
Qed.

(** X17: [get_optimizer] returns exactly when the assertion on
    [l2_decay_factor] and the weight decay holds and [hps.optimizer] is
    ['sgd'], ['momentum'] or ['nesterov'] with a ['momentum']
    hyperparameter, ['adam'] with ['beta1'], ['beta2'] and ['epsilon'], or
    ['hessian_free'] with a model.  Otherwise it raises, in this order of
    precedence: [AssertionError]; the [KeyError] of the first
    hyperparameter that is missing; [ValueError] for ['hessian_free']
    without a model; [NotImplementedError] for any other name. *)
Theorem get_optimizer_outcome (hps : HParams) (model : option (Model FlaxModule LossFn)) :
  let weight_decay := default 0%R (opt_hparams hps !! "weight_decay") in
  let asserted := l2_decay_factor hps = None \/ weight_decay = 0%R in
  let name := optimizer hps in
  let has k := is_Some (opt_hparams hps !! k) in
  ((exists r, get_optimizer hps model = Returns r) <->
   asserted /\
   (name = "sgd" \/
    ((name = "momentum" \/ name = "nesterov") /\ has "momentum") \/
    (name = "adam" /\ has "beta1" /\ has "beta2" /\ has "epsilon") \/
    (name = "hessian_free" /\ is_Some model))) /\
  (~ asserted -> get_optimizer hps model = Raises (Builtin AssertionError)) /\
  (asserted ->
   (name = "momentum" \/ name = "nesterov" -> ~ has "momentum" ->
    get_optimizer hps model = Raises (Builtin (KeyError "momentum"))) /\
   (name = "adam" ->
    (~ has "beta1" -> get_optimizer hps model = Raises (Builtin (KeyError "beta1"))) /\
    (has "beta1" -> ~ has "beta2" ->
     get_optimizer hps model = Raises (Builtin (KeyError "beta2"))) /\
    (has "beta1" -> has "beta2" -> ~ has "epsilon" ->
     get_optimizer hps model = Raises (Builtin (KeyError "epsilon")))) /\
   (name = "hessian_free" -> model = None ->
    get_optimizer hps model =
      Raises (Builtin (ValueError
                         "Model info should be provided for hessian free optimizer."))) /\
   (~ In name ["sgd"; "momentum"; "nesterov"; "adam"; "hessian_free"] ->
    get_optimizer hps model =
      Raises (NotImplementedError ("Optimizer " ++ name ++ " not implemented")))).
Proof.
  cbv zeta.
  assert (Herrors :
    (l2_decay_factor hps = None \/ default 0%R (opt_hparams hps !! "weight_decay") = 0%R) ->
    (optimizer hps = "momentum" \/ optimizer hps = "nesterov" ->
     ~ is_Some (opt_hparams hps !! "momentum") ->
     get_optimizer hps model = Raises (Builtin (KeyError "momentum"))) /\
    (optimizer hps = "adam" ->
     (~ is_Some (opt_hparams hps !! "beta1") ->
      get_optimizer hps model = Raises (Builtin (KeyError "beta1"))) /\
     (is_Some (opt_hparams hps !! "beta1") -> ~ is_Some (opt_hparams hps !! "beta2") ->
      get_optimizer hps model = Raises (Builtin (KeyError "beta2"))) /\
     (is_Some (opt_hparams hps !! "beta1") -> is_Some (opt_hparams hps !! "beta2") ->
      ~ is_Some (opt_hparams hps !! "epsilon") ->
      get_optimizer hps model = Raises (Builtin (KeyError "epsilon")))) /\
    (optimizer hps = "hessian_free" -> model = None ->
     get_optimizer hps model =
       Raises (Builtin (ValueError
                          "Model info should be provided for hessian free optimizer."))) /\
    (~ In (optimizer hps) ["sgd"; "momentum"; "nesterov"; "adam"; "hessian_free"] ->
     get_optimizer hps model =
       Raises (NotImplementedError ("Optimizer " ++ optimizer hps ++ " not implemented")))).
  { intros Hassert. unfold get_optimizer. rewrite (assertion_passes hps Hassert).
    unfold chosen_transformation. split; [|split; [|split]].
    - intros Hname Hmissing.
      rewrite opt_hparam_raises
        by (destruct (opt_hparams hps !! "momentum") eqn:E; [destruct Hmissing; eauto | easy]).
      destruct Hname as [-> | ->]; reflexivity.
    - intros ->. cbn [String.eqb Ascii.eqb Bool.eqb orb]. split; [|split].
      + intros Hb1.
        rewrite (opt_hparam_raises hps "beta1")
          by (destruct (opt_hparams hps !! "beta1") eqn:E; [destruct Hb1; eauto | easy]).
        reflexivity.
      + intros [b1 Hb1] Hb2.
        rewrite (opt_hparam_returns hps "beta1" b1 Hb1).
        rewrite (opt_hparam_raises hps "beta2")
          by (destruct (opt_hparams hps !! "beta2") eqn:E; [destruct Hb2; eauto | easy]).
        reflexivity.
      + intros [b1 Hb1] [b2 Hb2] Heps.
        rewrite (opt_hparam_returns hps "beta1" b1 Hb1).
        rewrite (opt_hparam_returns hps "beta2" b2 Hb2).
        rewrite (opt_hparam_raises hps "epsilon")
          by (destruct (opt_hparams hps !! "epsilon") eqn:E; [destruct Heps; eauto | easy]).
        reflexivity.
    - intros -> ->. reflexivity.
    - intros Hother.
      destruct (String.eqb_spec (optimizer hps) "sgd") as [E|_];
        [exfalso; apply Hother; rewrite E; simpl; tauto|].
      destruct (String.eqb_spec (optimizer hps) "momentum") as [E|_];
        [exfalso; apply Hother; rewrite E; simpl; tauto|].
      destruct (String.eqb_spec (optimizer hps) "nesterov") as [E|_];
        [exfalso; apply Hother; rewrite E; simpl; tauto|].
      destruct (String.eqb_spec (optimizer hps) "adam") as [E|_];
        [exfalso; apply Hother; rewrite E; simpl; tauto|].
      destruct (String.eqb_spec (optimizer hps) "hessian_free") as [E|_];
        [exfalso; apply Hother; rewrite E; simpl; tauto|].
      reflexivity. }
  assert (Hrefused :
    ~ (l2_decay_factor hps = None \/ default 0%R (opt_hparams hps !! "weight_decay") = 0%R) ->
    get_optimizer hps model = Raises (Builtin AssertionError)).
  { intros Hnot. unfold get_optimizer. rewrite assertion_fails; [reflexivity| |]; tauto. }
  split; [|split; assumption].
  split.
  - intros [r Hr].
    destruct (classic_asserted hps) as [Hassert|Hnot];
      [|rewrite (Hrefused Hnot) in Hr; discriminate].
    split; [assumption|].
    destruct (Herrors Hassert) as (Hmomentum & Hadam & Hhf & Hother).
    destruct (String.eqb_spec (optimizer hps) "sgd") as [E|Nsgd]; [tauto|].
    destruct (String.eqb_spec (optimizer hps) "momentum") as [E|Nmom].
    { right; left. split; [tauto|].
      destruct (opt_hparams hps !! "momentum") eqn:Hk; [eauto|].
      rewrite Hmomentum in Hr; [discriminate | tauto | intros [? ?]; discriminate]. }
    destruct (String.eqb_spec (optimizer hps) "nesterov") as [E|Nnes].
    { right; left. split; [tauto|].
      destruct (opt_hparams hps !! "momentum") eqn:Hk; [eauto|].
      rewrite Hmomentum in Hr; [discriminate | tauto | intros [? ?]; discriminate]. }
    destruct (String.eqb_spec (optimizer hps) "adam") as [E|Nadam].
    { right; right; left. split; [assumption|].
      destruct (Hadam E) as (H1 & H2 & H3).
      destruct (opt_hparams hps !! "beta1") eqn:Hb1;
        [|rewrite H1 in Hr; [discriminate | intros [? ?]; discriminate]].
      destruct (opt_hparams hps !! "beta2") eqn:Hb2;
        [|rewrite H2 in Hr; [discriminate | eauto | intros [? ?]; discriminate]].
      destruct (opt_hparams hps !! "epsilon") eqn:Hb3;
        [|rewrite H3 in Hr; [discriminate | eauto | eauto | intros [? ?]; discriminate]].
      eauto. }
    destruct (String.eqb_spec (optimizer hps) "hessian_free") as [E|Nhf].
    { right; right; right. split; [assumption|].
      destruct model as [m|]; [eauto|]. rewrite (Hhf E eq_refl) in Hr. discriminate. }
    rewrite Hother in Hr; [discriminate|]. simpl. intuition congruence.
  - intros [Hassert Hcase]. unfold get_optimizer. rewrite (assertion_passes hps Hassert).
    unfold chosen_transformation.
    destruct Hcase as [->|[[Hname [m Hm]]|[(-> & [b1 Hb1] & [b2 Hb2] & [eps Heps])|[-> [m ->]]]]].
    + cbn [String.eqb Ascii.eqb Bool.eqb]. cbn [outcome_bind].
      destruct (optax_inject_hyperparams _ _ _ _); eauto.
    + rewrite (opt_hparam_returns hps "momentum" m Hm).
      destruct Hname as [-> | ->]; cbn [String.eqb Ascii.eqb Bool.eqb orb outcome_bind];
        destruct (optax_inject_hyperparams _ _ _ _); eauto.
    + rewrite (opt_hparam_returns hps "beta1" b1 Hb1), (opt_hparam_returns hps "beta2" b2 Hb2),
        (opt_hparam_returns hps "epsilon" eps Heps).
      cbn [String.eqb Ascii.eqb Bool.eqb orb outcome_bind].
      destruct (optax_inject_hyperparams _ _ _ _); eauto.
    + cbn [String.eqb Ascii.eqb Bool.eqb orb outcome_bind].
      destruct (optax_inject_hyperparams _ _ _ _); eauto.
Qed.

End GetOptimizerOutcome.

(** ** Gradient transformations *)

Section TransformProperties.
Import Transform.

Local Open Scope R_scope.

(** *** [jax.tree_map] over two trees *)

Lemma tree_map2_inv {A B C : Type} (f : A -> B -> C) (t1 : pytree A) (t2 : pytree B)
    (t : pytree C) :
  tree_map2 f t1 t2 = Ok t ->
  tree_structure t2 = tree_structure t1 /\
  tree_structure t = tree_structure t1 /\
  tree_leaves t = zip_with f (tree_leaves t1) (tree_leaves t2).
Proof.
  unfold tree_map2, tree_flatten.
  destruct (flatten_up_to (tree_structure t1) t2) as [subtrees|e] eqn:Hflat;
    cbn [result_bind]; [|discriminate].
  destruct (map_result as_leaf subtrees) as [leaves2|e] eqn:Hleaves;
    cbn [result_bind]; [|discriminate].
  apply map_result_as_leaf_inv in Hleaves. subst subtrees.
  apply flatten_up_to_leaves in Hflat. destruct Hflat as [Hst ->].
  intros Hun. apply tree_unflatten_inv in Hun. tauto.
Qed.

Lemma tree_map2_ok {A B C : Type} (f : A -> B -> C) (t1 : pytree A) (t2 : pytree B) :
  tree_structure t2 = tree_structure t1 ->
  exists t, tree_map2 f t1 t2 = Ok t /\
            tree_structure t = tree_structure t1 /\
            tree_leaves t = zip_with f (tree_leaves t1) (tree_leaves t2).
Proof.
  intros Heq. unfold tree_map2, tree_flatten.
  rewrite (flatten_up_to_same t1 t2 Heq). cbn [result_bind].
  rewrite map_result_as_leaf. cbn [result_bind].
  destruct (tree_unflatten_length t1 (zip_with f (tree_leaves t1) (tree_leaves t2)))
    as (t & Ht & Hl & Hs).
  { rewrite length_zip_with, (same_structure_length t1 t2) by congruence. lia. }
  exists t. auto.
Qed.

Lemma map_length_zip_with (f : array -> array -> array) (xs ys : list array) :
  (forall a b, length a = length b -> length (f a b) = length a) ->
  map (@length R) xs = map (@length R) ys ->
  map (@length R) (zip_with f xs ys) = map (@length R) xs.
Proof.
  intros Hf. revert ys. induction xs as [|x xs IH]; intros [|y ys]; simpl;
    try discriminate; [reflexivity|].
  intros [= Hxy Hrest]. now rewrite Hf, IH.
Qed.

(** Over two trees of one shape, an operation that keeps the size of its
    arguments returns a tree of that shape. *)
Lemma tree_map2_same_shape (f : array -> array -> array) (t1 t2 : pytree array) :
  (forall a b, length a = length b -> length (f a b) = length a) ->
  same_shape t1 t2 ->
  exists t, tree_map2 f t1 t2 = Ok t /\ same_shape t t1 /\
            tree_leaves t = zip_with f (tree_leaves t1) (tree_leaves t2).
Proof.
  intros Hf Hshape.
  destruct (tree_map2_ok f t1 t2) as (t & Ht & Hst & Hl).
  { symmetry. now apply same_shape_structure. }
  exists t. split; [exact Ht|]. split; [|exact Hl].
  unfold same_shape. apply tree_eq_of_leaves.
  - now rewrite !tree_structure_map.
  - rewrite !tree_leaves_map, Hl. apply map_length_zip_with; [exact Hf|].
    unfold same_shape in Hshape. rewrite <- !tree_leaves_map. now rewrite Hshape.
Qed.

Lemma tree_map_map_same_shape (f : R -> R) (t : pytree array) :
  same_shape (tree_map (map f) t) t.
Proof.
  unfold same_shape. apply tree_eq_of_leaves.
  - now rewrite !tree_structure_map.
  - rewrite !tree_leaves_map, map_map. apply map_ext. intros a. apply length_map.
Qed.

Lemma zip_with_length_same {A B C : Type} (f : A -> B -> C) (a : list A) (b : list B) :
  length a = length b -> length (zip_with f a b) = length a.
Proof. intros Hlen. rewrite length_zip_with. lia. Qed.

(** *** The Yogi preconditioner *)

Lemma yogi_entry_nonneg (b2 g v : R) :
  0 <= b2 <= 1 -> 0 <= v -> 0 <= v - (1 - b2) * sign (v - g ^ 2) * g ^ 2.
Proof.
  intros Hb Hv. unfold sign.
  assert (Hg : 0 <= g ^ 2) by (simpl; nra).
  destruct (Rlt_dec 0 (v - g ^ 2)) as [Hpos|Hnpos].
  - nra.
  - destruct (Rlt_dec (v - g ^ 2) 0) as [Hneg|Hnneg]; nra.
Qed.

Lemma zip_with_nonneg (f : R -> R -> R) (x y : array) :
  (forall g v, 0 <= v -> 0 <= f g v) ->
  Forall (fun v => 0 <= v) y -> Forall (fun v => 0 <= v) (zip_with f x y).
Proof.
  intros Hf Hy. revert x. induction Hy as [|v y Hv _ IH]; intros [|g x]; simpl;
    constructor; auto.
Qed.

Lemma zip_with_leaves_nonneg (f : R -> R -> R) (xs ys : list array) :
  (forall g v, 0 <= v -> 0 <= f g v) ->
  Forall (Forall (fun v => 0 <= v)) ys ->
  Forall (Forall (fun v => 0 <= v)) (zip_with (zip_with f) xs ys).
Proof.
  intros Hf Hys. revert xs. induction Hys as [|y ys Hy _ IH]; intros [|x xs]; simpl;
    constructor; auto using zip_with_nonneg.
Qed.

Lemma yogi_run_nonneg (b2 eps eps_root initial_accumulator_value : R) (debias : bool)
    (grads : list (pytree array)) :
  0 <= b2 <= 1 ->
  forall state updates state',
  tree_nonneg (precondition_nu state) ->
  run (precondition_by_yogi b2 eps eps_root initial_accumulator_value debias) state grads =
    Ok (updates, state') ->
  tree_nonneg (precondition_nu state').
Proof.
  intros Hb. induction grads as [|g grads IH]; intros state updates state' Hnu; simpl.
  - now intros [= _ <-].
  - destruct (tree_map2 _ g (precondition_nu state)) as [nu|e] eqn:Hmap;
      cbn [result_bind]; [|discriminate].
    destruct (tree_map2 (rescale eps eps_root) g _) as [u|e]; cbn [result_bind];
      [|discriminate].
    cbn [snd fst].
    destruct (run _ _ grads) as [[us s]|e] eqn:Hrun; cbn [result_bind]; [|discriminate].
    intros [= _ <-]. refine (IH _ us s _ Hrun).
    cbn [precondition_nu]. unfold tree_nonneg.
    apply tree_map2_inv in Hmap. destruct Hmap as (_ & _ & ->).
    apply zip_with_leaves_nonneg; [|exact Hnu].
    intros g0 v Hv. now apply yogi_entry_nonneg.
Qed.

(** X19: the second-moment estimate of the Yogi preconditioner is never
    negative: with [b2] in [0, 1] and an initial accumulator value that is
    not negative, every entry of [nu] is at least 0 after any run from the
    initial state, whatever the gradients were. *)
Theorem yogi_nu_nonneg (b2 eps eps_root initial_accumulator_value : R) (debias : bool)
    (params : pytree array) (grads : list (pytree array))
    (updates : list (pytree array)) (state : PreconditionBySecondMomentCoordinateWiseState) :
  let tx := precondition_by_yogi b2 eps eps_root initial_accumulator_value debias in
  0 <= b2 <= 1 ->
  0 <= initial_accumulator_value ->
  run tx (init_fn tx params) grads = Ok (updates, state) ->
  tree_nonneg (precondition_nu state).
Proof.
  intros tx Hb Hinit Hrun.
  apply (yogi_run_nonneg b2 eps eps_root initial_accumulator_value debias grads Hb
           (init_fn tx params) updates state); [|exact Hrun].
  unfold tree_nonneg. cbn [tx precondition_by_yogi init_fn precondition_nu].
  rewrite tree_leaves_map.
  induction (tree_leaves params) as [|p leaves IH]; simpl; constructor; [|exact IH].
  induction p as [|v p IHp]; simpl; constructor; assumption.
Qed.

Lemma yogi_nu_nonneg_witness :
  exists updates state,
    run (precondition_by_yogi (1 / 2) 0 0 1 false)
        (init_fn (precondition_by_yogi (1 / 2) 0 0 1 false) (Leaf [0; 0]))
        [Leaf [3; 4]; Leaf [1; 0]] = Ok (updates, state) /\
    tree_nonneg (precondition_nu state).
Proof.
  eexists _, _. split; [reflexivity|].
  eapply (yogi_nu_nonneg (1 / 2) 0 0 1 false (Leaf [0; 0]) [Leaf [3; 4]; Leaf [1; 0]]);
    [lra | lra | reflexivity].
Defined.

(** *** Clipping an update to a root mean square *)

Lemma reduce_mean_nonempty (x : array) :
  x <> [] -> _reduce_mean x = Some (arr_sum x / INR (length x)).
Proof.
  intros Hne. unfold _reduce_mean, jnp_mean, np_mean.
  destruct (10 ^ 8 <? Z.of_nat (length x))%Z; [reflexivity|].
  destruct x; [contradiction | reflexivity].
Qed.

Lemma arr_sum_square_div (d : R) (x : array) :
  d <> 0 -> arr_sum (square (map (fun u => u / d) x)) = arr_sum (square x) / (d * d).
Proof.
  intros Hd. unfold arr_sum, square. induction x as [|v x IH]; simpl.
  - unfold Rdiv. ring.
  - rewrite IH. field. assumption.
Qed.

Lemma map_div_1 (x : array) : map (fun u => u / 1) x = x.
Proof. induction x as [|v x IH]; simpl; [reflexivity|]. rewrite IH. f_equal. field. Qed.

Lemma reduce_rms_nonempty (x : array) :
  x <> [] -> _reduce_rms x = Some (sqrt (arr_sum (square x) / INR (length x))).
Proof.
  intros Hne. unfold _reduce_rms.
  rewrite reduce_mean_nonempty by (destruct x; [contradiction | discriminate]).
  unfold square. now rewrite length_map.
Qed.

(** X18: [_clip_update] caps the root mean square of an update at the
    threshold.  For an update with at least one entry, of root mean square
    [r], and a positive threshold [c], the result has the root mean square
    [min r c], and is the update itself when [r <= c]; with a negative
    threshold nothing is ever clipped. *)
Theorem clip_update_caps_rms (update : array) (c : R) :
  update <> [] ->
  exists r,
    _reduce_rms update = Some r /\ 0 <= r /\
    (0 < c ->
     _reduce_rms (_clip_update update c) = Some (Rmin r c) /\
     (r <= c -> _clip_update update c = update)) /\
    (c < 0 -> _clip_update update c = update).
Proof.
  intros Hne.
  set (n := INR (length update)).
  assert (Hn : 0 < n).
  { unfold n. destruct update; [contradiction|]. apply lt_0_INR. simpl. lia. }
  set (m := arr_sum (square update) / n).
  assert (Hm : 0 <= m).
  { unfold m. apply Rmult_le_pos; [apply arr_sum_square_nonneg|].
    left. now apply Rinv_0_lt_compat. }
  exists (sqrt m).
  split; [now apply reduce_rms_nonempty|].
  split; [apply sqrt_pos|].
  assert (Hclip : _clip_update update c = map (fun u => u / Rmax 1 (sqrt m / c)) update).
  { unfold _clip_update. now rewrite reduce_rms_nonempty. }
  split.
  - intros Hc. rewrite Hclip.
    set (d := Rmax 1 (sqrt m / c)).
    assert (Hd : 1 <= d) by apply Rmax_l.
    split.
    + rewrite reduce_rms_nonempty by (destruct update; [contradiction | discriminate]).
      rewrite length_map, arr_sum_square_div by lra. fold n.
      replace (arr_sum (square update) / (d * d) / n) with (m / (d * d))
        by (unfold m; field; lra).
      rewrite sqrt_div_alt by nra. rewrite sqrt_square by lra.
      f_equal. unfold d.
      destruct (Rle_dec (sqrt m) c) as [Hle|Hgt].
      * rewrite Rmin_left by assumption.
        rewrite Rmax_left; [field|].
        apply (Rmult_le_reg_r c); [assumption|].
        unfold Rdiv. rewrite Rmult_assoc, Rinv_l by lra. lra.
      * apply Rnot_le_lt in Hgt. rewrite Rmin_right by lra.
        rewrite Rmax_right; [field; split; lra|].
        apply (Rmult_le_reg_r c); [assumption|].
        unfold Rdiv. rewrite Rmult_assoc, Rinv_l by lra. lra.
    + intros Hle. unfold d. rewrite Rmax_left; [apply map_div_1|].
      apply (Rmult_le_reg_r c); [assumption|].
      unfold Rdiv. rewrite Rmult_assoc, Rinv_l by lra. lra.
  - intros Hc. rewrite Hclip. rewrite Rmax_left; [apply map_div_1|].
    assert (Hq : sqrt m / c <= 0).
    { pose proof (sqrt_pos m) as Hs. pose proof (Rinv_lt_0_compat c Hc) as Hi.
      unfold Rdiv. nra. }
    lra.
Qed.

Lemma clip_update_caps_rms_witness :
  exists r,
    _reduce_rms [3; 4] = Some r /\
    _reduce_rms (_clip_update [3; 4] 1) = Some (Rmin r 1).
Proof.
  destruct (clip_update_caps_rms [3; 4] 1) as (r & Hr & _ & Hpos & _); [discriminate|].
  exists r. split; [exact Hr|]. apply Hpos. lra.
Defined.

Local Close Scope R_scope.

End TransformProperties.

